(** * Loan lifecycle and repayment engine: model and verified properties

    The development embeds the TypeScript services of the loan backend:

    - [src/shared/utils/helpers.ts]            (interest, rounding),
    - [src/modules/loans/loan.model.ts]         (state machine, pre-save derivation),
    - the loan service ([createLoan], [startReview], [approveLoan], [rejectLoan]),
    - [src/modules/disbursement/disbursement.service.ts],
    - [src/modules/payments/payment.service.ts].

    Conventions of the embedding.

    - A JavaScript [number] holding money or a rate is an exact rational
      ([Q]); equalities between amounts are stated with [==].  Binary
      floating-point error is outside the model.
    - [Math.round x] is [floor (x + 1/2)], [Math.ceil] is [Qceiling].
    - A Mongo collection is a list of documents; [_id]s are naturals drawn
      from a counter kept in the store.
    - An [async] service method is a function from the store to the new store
      and either a raised error or a value.  Writes made before a [throw]
      stay in the store, as in the source (no transaction is used).
    - Values the source takes from the outside world (clock, generated
      references, the payment provider's answer) are explicit arguments.
    - Notifications and audit-log rows are write-only for the engine and are
      left out. *)

From Stdlib Require Import ZArith QArith Qround Qabs Lqa Lia List Bool String.
Import ListNotations.
Open Scope string_scope.
Open Scope list_scope.
Open Scope Q_scope.

(* ================================================================== *)
(** * Numbers: [helpers.ts] *)
(* ================================================================== *)

Module Helpers.

(** [Math.round]: nearest integer, ties towards plus infinity. *)
Definition Math_round (x : Q) : Z := Qfloor (x + (1 # 2)).

(** [Math.ceil]. *)
Definition Math_ceil (x : Q) : Z := Qceiling x.

(** [Math.min] on two arguments. *)
Definition Math_min (a b : Q) : Q := if Qle_bool a b then a else b.

(** [principal * annualRate * (tenorInMonths / 12)]. *)
Definition calculateSimpleInterest (principal annualRate : Q) (tenorInMonths : nat) : Q :=
  let timeInYears := inject_Z (Z.of_nat tenorInMonths) / 12 in
  principal * annualRate * timeInYears.

(** [Math.ceil((totalRepayable / tenorInMonths) * 100) / 100]. *)
Definition calculateMonthlyPayment (totalRepayable : Q) (tenorInMonths : nat) : Q :=
  inject_Z (Math_ceil ((totalRepayable / inject_Z (Z.of_nat tenorInMonths)) * 100)) / 100.

(** [Math.round(value * 100) / 100]. *)
Definition roundToTwoDecimals (value : Q) : Q :=
  inject_Z (Math_round (value * 100)) / 100.

(** JavaScript truthiness of a number, as used by [a || b]. *)
Definition truthy (x : Q) : bool := negb (Qeq_bool x 0).

(** [a || b] on an optional number. *)
Definition or_default (a : option Q) (b : Q) : Q :=
  match a with
  | Some x => if truthy x then x else b
  | None => b
  end.

(** An amount with at most two decimals. *)
Definition is_cents (x : Q) : Prop := exists z : Z, x == inject_Z z / 100.

End Helpers.
Import Helpers.

(* ================================================================== *)
(** * Data model *)
(* ================================================================== *)

Definition ObjectId := nat.

(** A [Date], as milliseconds since the epoch. *)
Definition Date := nat.

Bind Scope nat_scope with ObjectId.
Bind Scope nat_scope with Date.

(** [LoanStatus] ([loan.model.ts]). *)
Inductive LoanStatus : Type :=
  | PENDING | UNDER_REVIEW | APPROVED | REJECTED
  | DISBURSED | ACTIVE | COMPLETED | DEFAULTED.

Definition LoanStatus_eqb (a b : LoanStatus) : bool :=
  match a, b with
  | PENDING, PENDING | UNDER_REVIEW, UNDER_REVIEW | APPROVED, APPROVED
  | REJECTED, REJECTED | DISBURSED, DISBURSED | ACTIVE, ACTIVE
  | COMPLETED, COMPLETED | DEFAULTED, DEFAULTED => true
  | _, _ => false
  end.

(** The value of the enum member, used in error messages. *)
Definition LoanStatus_str (s : LoanStatus) : string :=
  match s with
  | PENDING => "pending" | UNDER_REVIEW => "under_review"
  | APPROVED => "approved" | REJECTED => "rejected"
  | DISBURSED => "disbursed" | ACTIVE => "active"
  | COMPLETED => "completed" | DEFAULTED => "defaulted"
  end%string.

(** [IStatusChange]: one entry of [statusHistory]. *)
Record IStatusChange : Type := mkStatusChange {
  fromStatus : option LoanStatus;
  toStatus : LoanStatus;
  reason : option string;
  performedBy : ObjectId;
  timestamp : Date
}.

Record IApprovalDetails : Type := mkApproval {
  approvedBy : ObjectId;
  approvedAt : Date;
  approvedAmount : Q;
  conditions : option (list string)
}.

Record IRejectionDetails : Type := mkRejection {
  rejectedBy : ObjectId;
  rejectedAt : Date;
  rejectionReason : string
}.

(** [IDisbursementDetails].  Mongo sets and unsets the nested paths one by
    one, so each is optional. *)
Record IDisbursementDetails : Type := mkDisbursement {
  disbursedAt : option Date;
  disbursedBy : option ObjectId;
  disbursementRef : option string;
  disbursedAmount : option Q;
  bankAccount : option string;
  bankCode : option string;
  providerRef : option string
}.

Definition noDisbursement : IDisbursementDetails :=
  mkDisbursement None None None None None None None.

Record IBankDetails : Type := mkBank {
  accountNumber : string;
  bankName : string;
  accountName : string;
  bankDetailsCode : string
}.

(** [ILoan]: a loan document ([loan.model.ts]).  [__v] is Mongoose's version key. *)
Module Loan.

Record t : Type := mk {
  _id : ObjectId;
  userId : ObjectId;
  applicationNumber : string;
  amount : Q;
  tenor : nat;
  purpose : string;
  interestRate : Q;
  totalInterest : Q;
  totalRepayable : Q;
  monthlyPayment : Q;
  status : LoanStatus;
  statusHistory : list IStatusChange;
  approvalDetails : option IApprovalDetails;
  rejectionDetails : option IRejectionDetails;
  disbursement : IDisbursementDetails;
  bankDetails : option IBankDetails;
  totalRepaid : Q;
  outstandingBalance : Q;
  __v : nat
}.

Definition set_applicationNumber (v : string) (d : t) : t :=
  mk (d.(_id)) (d.(userId)) v (d.(amount)) (d.(tenor))
     (d.(purpose)) (d.(interestRate)) (d.(totalInterest))
     (d.(totalRepayable)) (d.(monthlyPayment)) (d.(status))
     (d.(statusHistory)) (d.(approvalDetails)) (d.(rejectionDetails))
     (d.(disbursement)) (d.(bankDetails)) (d.(totalRepaid))
     (d.(outstandingBalance)) (d.(__v)).

Definition set_amount (v : Q) (d : t) : t :=
  mk (d.(_id)) (d.(userId)) (d.(applicationNumber)) v (d.(tenor))
     (d.(purpose)) (d.(interestRate)) (d.(totalInterest))
     (d.(totalRepayable)) (d.(monthlyPayment)) (d.(status))
     (d.(statusHistory)) (d.(approvalDetails)) (d.(rejectionDetails))
     (d.(disbursement)) (d.(bankDetails)) (d.(totalRepaid))
     (d.(outstandingBalance)) (d.(__v)).

Definition set_totalInterest (v : Q) (d : t) : t :=
  mk (d.(_id)) (d.(userId)) (d.(applicationNumber)) (d.(amount)) (d.(tenor))
     (d.(purpose)) (d.(interestRate)) v (d.(totalRepayable))
     (d.(monthlyPayment)) (d.(status)) (d.(statusHistory))
     (d.(approvalDetails)) (d.(rejectionDetails)) (d.(disbursement))
     (d.(bankDetails)) (d.(totalRepaid)) (d.(outstandingBalance)) (d.(__v)).

Definition set_totalRepayable (v : Q) (d : t) : t :=
  mk (d.(_id)) (d.(userId)) (d.(applicationNumber)) (d.(amount)) (d.(tenor))
     (d.(purpose)) (d.(interestRate)) (d.(totalInterest)) v
     (d.(monthlyPayment)) (d.(status)) (d.(statusHistory))
     (d.(approvalDetails)) (d.(rejectionDetails)) (d.(disbursement))
     (d.(bankDetails)) (d.(totalRepaid)) (d.(outstandingBalance)) (d.(__v)).

Definition set_monthlyPayment (v : Q) (d : t) : t :=
  mk (d.(_id)) (d.(userId)) (d.(applicationNumber)) (d.(amount)) (d.(tenor))
     (d.(purpose)) (d.(interestRate)) (d.(totalInterest))
     (d.(totalRepayable)) v (d.(status)) (d.(statusHistory))
     (d.(approvalDetails)) (d.(rejectionDetails)) (d.(disbursement))
     (d.(bankDetails)) (d.(totalRepaid)) (d.(outstandingBalance)) (d.(__v)).

Definition set_status (v : LoanStatus) (d : t) : t :=
  mk (d.(_id)) (d.(userId)) (d.(applicationNumber)) (d.(amount)) (d.(tenor))
     (d.(purpose)) (d.(interestRate)) (d.(totalInterest))
     (d.(totalRepayable)) (d.(monthlyPayment)) v (d.(statusHistory))
     (d.(approvalDetails)) (d.(rejectionDetails)) (d.(disbursement))
     (d.(bankDetails)) (d.(totalRepaid)) (d.(outstandingBalance)) (d.(__v)).

Definition set_statusHistory (v : list IStatusChange) (d : t) : t :=
  mk (d.(_id)) (d.(userId)) (d.(applicationNumber)) (d.(amount)) (d.(tenor))
     (d.(purpose)) (d.(interestRate)) (d.(totalInterest))
     (d.(totalRepayable)) (d.(monthlyPayment)) (d.(status)) v
     (d.(approvalDetails)) (d.(rejectionDetails)) (d.(disbursement))
     (d.(bankDetails)) (d.(totalRepaid)) (d.(outstandingBalance)) (d.(__v)).

Definition set_approvalDetails (v : option IApprovalDetails) (d : t) : t :=
  mk (d.(_id)) (d.(userId)) (d.(applicationNumber)) (d.(amount)) (d.(tenor))
     (d.(purpose)) (d.(interestRate)) (d.(totalInterest))
     (d.(totalRepayable)) (d.(monthlyPayment)) (d.(status))
     (d.(statusHistory)) v (d.(rejectionDetails)) (d.(disbursement))
     (d.(bankDetails)) (d.(totalRepaid)) (d.(outstandingBalance)) (d.(__v)).

Definition set_rejectionDetails (v : option IRejectionDetails) (d : t) : t :=
  mk (d.(_id)) (d.(userId)) (d.(applicationNumber)) (d.(amount)) (d.(tenor))
     (d.(purpose)) (d.(interestRate)) (d.(totalInterest))
     (d.(totalRepayable)) (d.(monthlyPayment)) (d.(status))
     (d.(statusHistory)) (d.(approvalDetails)) v (d.(disbursement))
     (d.(bankDetails)) (d.(totalRepaid)) (d.(outstandingBalance)) (d.(__v)).

Definition set_disbursement (v : IDisbursementDetails) (d : t) : t :=
  mk (d.(_id)) (d.(userId)) (d.(applicationNumber)) (d.(amount)) (d.(tenor))
     (d.(purpose)) (d.(interestRate)) (d.(totalInterest))
     (d.(totalRepayable)) (d.(monthlyPayment)) (d.(status))
     (d.(statusHistory)) (d.(approvalDetails)) (d.(rejectionDetails)) v
     (d.(bankDetails)) (d.(totalRepaid)) (d.(outstandingBalance)) (d.(__v)).

Definition set_totalRepaid (v : Q) (d : t) : t :=
  mk (d.(_id)) (d.(userId)) (d.(applicationNumber)) (d.(amount)) (d.(tenor))
     (d.(purpose)) (d.(interestRate)) (d.(totalInterest))
     (d.(totalRepayable)) (d.(monthlyPayment)) (d.(status))
     (d.(statusHistory)) (d.(approvalDetails)) (d.(rejectionDetails))
     (d.(disbursement)) (d.(bankDetails)) v (d.(outstandingBalance))
     (d.(__v)).

Definition set_outstandingBalance (v : Q) (d : t) : t :=
  mk (d.(_id)) (d.(userId)) (d.(applicationNumber)) (d.(amount)) (d.(tenor))
     (d.(purpose)) (d.(interestRate)) (d.(totalInterest))
     (d.(totalRepayable)) (d.(monthlyPayment)) (d.(status))
     (d.(statusHistory)) (d.(approvalDetails)) (d.(rejectionDetails))
     (d.(disbursement)) (d.(bankDetails)) (d.(totalRepaid)) v (d.(__v)).

Definition set_v (v : nat) (d : t) : t :=
  mk (d.(_id)) (d.(userId)) (d.(applicationNumber)) (d.(amount)) (d.(tenor))
     (d.(purpose)) (d.(interestRate)) (d.(totalInterest))
     (d.(totalRepayable)) (d.(monthlyPayment)) (d.(status))
     (d.(statusHistory)) (d.(approvalDetails)) (d.(rejectionDetails))
     (d.(disbursement)) (d.(bankDetails)) (d.(totalRepaid))
     (d.(outstandingBalance)) v.

End Loan.


(** [ScheduleStatus]. *)
Inductive ScheduleStatus : Type :=
  | S_PENDING | S_PARTIAL | S_PAID | S_OVERDUE.

(** [IRepaymentSchedule]: one installment ([repayment-schedule.model.ts]).
    [dueDate = (d, i)] stands for [addMonths(d, i)]. *)
Module Schedule.

Record t : Type := mk {
  _id : ObjectId;
  loanId : ObjectId;
  installmentNumber : nat;
  dueDate : Date * nat;
  principalAmount : Q;
  interestAmount : Q;
  totalAmount : Q;
  paidAmount : Q;
  status : ScheduleStatus;
  paidAt : option Date
}.

Definition set_paidAmount (v : Q) (d : t) : t :=
  mk (d.(_id)) (d.(loanId)) (d.(installmentNumber)) (d.(dueDate))
     (d.(principalAmount)) (d.(interestAmount)) (d.(totalAmount)) v
     (d.(status)) (d.(paidAt)).

Definition set_status (v : ScheduleStatus) (d : t) : t :=
  mk (d.(_id)) (d.(loanId)) (d.(installmentNumber)) (d.(dueDate))
     (d.(principalAmount)) (d.(interestAmount)) (d.(totalAmount))
     (d.(paidAmount)) v (d.(paidAt)).

Definition set_paidAt (v : option Date) (d : t) : t :=
  mk (d.(_id)) (d.(loanId)) (d.(installmentNumber)) (d.(dueDate))
     (d.(principalAmount)) (d.(interestAmount)) (d.(totalAmount))
     (d.(paidAmount)) (d.(status)) v.

End Schedule.


Inductive PaymentType : Type := REPAYMENT | REFUND | REVERSAL.

Inductive PaymentStatus : Type := P_PENDING | P_PROCESSING | P_SUCCESS | P_FAILED.

Definition PaymentStatus_str (s : PaymentStatus) : string :=
  match s with
  | P_PENDING => "pending" | P_PROCESSING => "processing"
  | P_SUCCESS => "success" | P_FAILED => "failed"
  end.

Record IAllocation : Type := mkAllocation {
  alloc_principal : Q;
  alloc_interest : Q;
  alloc_overpayment : Q
}.

Record IManualProof : Type := mkManualProof {
  senderBank : option string;
  senderName : option string;
  transferDate : option Date;
  externalReference : option string
}.

(** [IPayment]: a payment document ([payment.model.ts]). *)
Module Payment.

Record t : Type := mk {
  _id : ObjectId;
  loanId : ObjectId;
  userId : ObjectId;
  idempotencyKey : string;
  type : PaymentType;
  amount : Q;
  reference : string;
  status : PaymentStatus;
  failureReason : option string;
  providerReference : option string;
  reconciled : bool;
  reconciledAt : option Date;
  allocation : option IAllocation;
  proofOfPayment : option string;
  evidenceUrl : option string;
  manualProof : option IManualProof;
  verifiedBy : option ObjectId;
  verifiedAt : option Date;
  isOverpaymentRefunded : bool
}.

Definition set_status (v : PaymentStatus) (d : t) : t :=
  mk (d.(_id)) (d.(loanId)) (d.(userId)) (d.(idempotencyKey)) (d.(type))
     (d.(amount)) (d.(reference)) v (d.(failureReason))
     (d.(providerReference)) (d.(reconciled)) (d.(reconciledAt))
     (d.(allocation)) (d.(proofOfPayment)) (d.(evidenceUrl))
     (d.(manualProof)) (d.(verifiedBy)) (d.(verifiedAt))
     (d.(isOverpaymentRefunded)).

Definition set_failureReason (v : option string) (d : t) : t :=
  mk (d.(_id)) (d.(loanId)) (d.(userId)) (d.(idempotencyKey)) (d.(type))
     (d.(amount)) (d.(reference)) (d.(status)) v (d.(providerReference))
     (d.(reconciled)) (d.(reconciledAt)) (d.(allocation))
     (d.(proofOfPayment)) (d.(evidenceUrl)) (d.(manualProof))
     (d.(verifiedBy)) (d.(verifiedAt)) (d.(isOverpaymentRefunded)).

Definition set_providerReference (v : option string) (d : t) : t :=
  mk (d.(_id)) (d.(loanId)) (d.(userId)) (d.(idempotencyKey)) (d.(type))
     (d.(amount)) (d.(reference)) (d.(status)) (d.(failureReason)) v
     (d.(reconciled)) (d.(reconciledAt)) (d.(allocation))
     (d.(proofOfPayment)) (d.(evidenceUrl)) (d.(manualProof))
     (d.(verifiedBy)) (d.(verifiedAt)) (d.(isOverpaymentRefunded)).

Definition set_reconciled (v : bool) (d : t) : t :=
  mk (d.(_id)) (d.(loanId)) (d.(userId)) (d.(idempotencyKey)) (d.(type))
     (d.(amount)) (d.(reference)) (d.(status)) (d.(failureReason))
     (d.(providerReference)) v (d.(reconciledAt)) (d.(allocation))
     (d.(proofOfPayment)) (d.(evidenceUrl)) (d.(manualProof))
     (d.(verifiedBy)) (d.(verifiedAt)) (d.(isOverpaymentRefunded)).

Definition set_reconciledAt (v : option Date) (d : t) : t :=
  mk (d.(_id)) (d.(loanId)) (d.(userId)) (d.(idempotencyKey)) (d.(type))
     (d.(amount)) (d.(reference)) (d.(status)) (d.(failureReason))
     (d.(providerReference)) (d.(reconciled)) v (d.(allocation))
     (d.(proofOfPayment)) (d.(evidenceUrl)) (d.(manualProof))
     (d.(verifiedBy)) (d.(verifiedAt)) (d.(isOverpaymentRefunded)).

Definition set_allocation (v : option IAllocation) (d : t) : t :=
  mk (d.(_id)) (d.(loanId)) (d.(userId)) (d.(idempotencyKey)) (d.(type))
     (d.(amount)) (d.(reference)) (d.(status)) (d.(failureReason))
     (d.(providerReference)) (d.(reconciled)) (d.(reconciledAt)) v
     (d.(proofOfPayment)) (d.(evidenceUrl)) (d.(manualProof))
     (d.(verifiedBy)) (d.(verifiedAt)) (d.(isOverpaymentRefunded)).

Definition set_verifiedBy (v : option ObjectId) (d : t) : t :=
  mk (d.(_id)) (d.(loanId)) (d.(userId)) (d.(idempotencyKey)) (d.(type))
     (d.(amount)) (d.(reference)) (d.(status)) (d.(failureReason))
     (d.(providerReference)) (d.(reconciled)) (d.(reconciledAt))
     (d.(allocation)) (d.(proofOfPayment)) (d.(evidenceUrl))
     (d.(manualProof)) v (d.(verifiedAt)) (d.(isOverpaymentRefunded)).

Definition set_verifiedAt (v : option Date) (d : t) : t :=
  mk (d.(_id)) (d.(loanId)) (d.(userId)) (d.(idempotencyKey)) (d.(type))
     (d.(amount)) (d.(reference)) (d.(status)) (d.(failureReason))
     (d.(providerReference)) (d.(reconciled)) (d.(reconciledAt))
     (d.(allocation)) (d.(proofOfPayment)) (d.(evidenceUrl))
     (d.(manualProof)) (d.(verifiedBy)) v (d.(isOverpaymentRefunded)).

Definition set_isOverpaymentRefunded (v : bool) (d : t) : t :=
  mk (d.(_id)) (d.(loanId)) (d.(userId)) (d.(idempotencyKey)) (d.(type))
     (d.(amount)) (d.(reference)) (d.(status)) (d.(failureReason))
     (d.(providerReference)) (d.(reconciled)) (d.(reconciledAt))
     (d.(allocation)) (d.(proofOfPayment)) (d.(evidenceUrl))
     (d.(manualProof)) (d.(verifiedBy)) (d.(verifiedAt)) v.

End Payment.


(** The persistent store: one list per collection, and the supply of
    fresh [_id]s. *)
Record Store : Type := mkStore {
  loans : list Loan.t;
  schedules : list Schedule.t;
  payments : list Payment.t;
  users : list ObjectId;
  nextId : nat
}.

Definition set_loans (v : list Loan.t) (s : Store) : Store :=
  mkStore v s.(schedules) s.(payments) s.(users) s.(nextId).
Definition set_schedules (v : list Schedule.t) (s : Store) : Store :=
  mkStore s.(loans) v s.(payments) s.(users) s.(nextId).
Definition set_payments (v : list Payment.t) (s : Store) : Store :=
  mkStore s.(loans) s.(schedules) v s.(users) s.(nextId).
Definition set_nextId (v : nat) (s : Store) : Store :=
  mkStore s.(loans) s.(schedules) s.(payments) s.(users) v.

(* ================================================================== *)
(** * Errors and the service monad *)
(* ================================================================== *)

(** The error classes of [app-error.ts], with their message, and the two
    errors raised by the database driver. *)
Inductive AppError : Type :=
  | ValidationError (message : string)
  | NotFoundError (message : string)
  | ConflictError (message : string)
  | ConcurrencyError (message : string)
  | InvalidStateTransitionError (currentState targetState : LoanStatus)
  | PlainAppError (message : string) (statusCode : nat)
  | DuplicateKeyError
  | VersionError
  | TypeError.

(** [error.message]. *)
Definition error_message (e : AppError) : string :=
  match e with
  | ValidationError m | NotFoundError m | ConflictError m
  | ConcurrencyError m | PlainAppError m _ => m
  | InvalidStateTransitionError c t =>
      "Invalid state transition from '" ++ LoanStatus_str c ++ "' to '"
        ++ LoanStatus_str t ++ "'"
  | DuplicateKeyError => "E11000 duplicate key error"
  | VersionError => "No matching document found for id"
  | TypeError => "Cannot read properties of null"
  end%string.

Inductive Result (A : Type) : Type :=
  | Ok (a : A)
  | Throw (e : AppError).
Arguments Ok {A} a.
Arguments Throw {A} e.

(** An asynchronous service computation. *)
Definition M (A : Type) : Type := Store -> Store * Result A.

Definition ret {A} (a : A) : M A := fun s => (s, Ok a).
Definition throw {A} (e : AppError) : M A := fun s => (s, Throw e).
Definition bind {A B} (m : M A) (k : A -> M B) : M B :=
  fun s => match m s with
           | (s', Ok a) => k a s'
           | (s', Throw e) => (s', Throw e)
           end.
(** [try { m } catch (error) { h error }]. *)
Definition try_catch {A} (m : M A) (h : AppError -> M A) : M A :=
  fun s => match m s with
           | (s', Ok a) => (s', Ok a)
           | (s', Throw e) => h e s'
           end.
Definition get : M Store := fun s => (s, Ok s).
Definition modify (f : Store -> Store) : M unit := fun s => (f s, Ok tt).

Declare Scope svc_scope.
Delimit Scope svc_scope with svc.
Notation "x <- m ;; k" := (bind m (fun x => k))
  (at level 61, m at next level, right associativity) : svc_scope.
Notation "m ;;; k" := (bind m (fun _ => k))
  (at level 61, right associativity) : svc_scope.
Open Scope svc_scope.

(* ================================================================== *)
(** * Collections *)
(* ================================================================== *)

(** Comparisons of JavaScript numbers. *)
Definition Qgtb (a b : Q) : bool := negb (Qle_bool a b).
Definition Qgeb (a b : Q) : bool := Qle_bool b a.

(** [findOneAndUpdate(filter, update, { new: true })] on a collection: the
    first matching document is updated and returned. *)
Fixpoint updateFirst {A : Type} (filter : A -> bool) (update : A -> A)
    (docs : list A) : list A * option A :=
  match docs with
  | [] => ([], None)
  | d :: rest =>
      if filter d then (update d :: rest, Some (update d))
      else let '(rest', r) := updateFirst filter update rest in
           (d :: rest', r)
  end.

(** Insertion of [x] into a list sorted by [key], after equal keys. *)
Fixpoint insert_by {A : Type} (key : A -> nat) (x : A) (l : list A) : list A :=
  match l with
  | [] => [x]
  | y :: r => if Nat.leb (key y) (key x) then y :: insert_by key x r
              else x :: y :: r
  end.

(** [.sort({ field: 1 })]. *)
Definition sort_by {A : Type} (key : A -> nat) (l : list A) : list A :=
  fold_left (fun acc x => insert_by key x acc) l [].

Definition has_id_loan (id : ObjectId) (l : Loan.t) : bool :=
  Nat.eqb l.(Loan._id) id.
Definition has_id_payment (id : ObjectId) (p : Payment.t) : bool :=
  Nat.eqb p.(Payment._id) id.
Definition has_id_schedule (id : ObjectId) (x : Schedule.t) : bool :=
  Nat.eqb x.(Schedule._id) id.

(** A fresh [ObjectId]. *)
Definition newObjectId : M ObjectId :=
  fun s => (set_nextId (S s.(nextId)) s, Ok s.(nextId)).

Module LoanModel.

Definition findOne (filter : Loan.t -> bool) : M (option Loan.t) :=
  fun s => (s, Ok (find filter s.(loans))).

Definition findById (id : ObjectId) : M (option Loan.t) :=
  findOne (has_id_loan id).

(** [Loan.findOneAndUpdate(filter, update, { new: true })].  The version
    key is touched only when [update] does so. *)
Definition findOneAndUpdate (filter : Loan.t -> bool) (update : Loan.t -> Loan.t)
    : M (option Loan.t) :=
  fun s => let '(ls, r) := updateFirst filter update s.(loans) in
           (set_loans ls s, Ok r).

Definition findByIdAndUpdate (id : ObjectId) (update : Loan.t -> Loan.t)
    : M (option Loan.t) :=
  findOneAndUpdate (has_id_loan id) update.

(** The schema validators of the required paths ([amount], [tenor],
    [purpose]), run by Mongoose before every [save] and [create]. *)
Definition validate (doc : Loan.t) : bool :=
  Qle_bool 1000 doc.(Loan.amount)
  && Nat.leb 1 doc.(Loan.tenor) && Nat.leb doc.(Loan.tenor) 60
  && negb (String.eqb doc.(Loan.purpose) "")
  && Nat.leb (String.length doc.(Loan.purpose)) 500.

(** [doc.save()] on a stored document.  The schema sets
    [optimisticConcurrency], so the write is conditioned on the version the
    document was read at and increments it. *)
Definition save (doc : Loan.t) : M Loan.t :=
  fun s =>
    if negb (validate doc) then (s, Throw (ValidationError "Loan validation failed"))
    else
    let saved := Loan.set_v (S doc.(Loan.__v)) doc in
    match updateFirst
            (fun l => has_id_loan doc.(Loan._id) l
                      && Nat.eqb l.(Loan.__v) doc.(Loan.__v))
            (fun _ => saved) s.(loans) with
    | (ls, Some d) => (set_loans ls s, Ok d)
    | (_, None) => (s, Throw VersionError)
    end.

(** The table of legal transitions. *)
Definition VALID_TRANSITIONS (s : LoanStatus) : list LoanStatus :=
  match s with
  | PENDING => [UNDER_REVIEW]
  | UNDER_REVIEW => [APPROVED; REJECTED]
  | APPROVED => [DISBURSED]
  | REJECTED => []
  | DISBURSED => [ACTIVE]
  | ACTIVE => [COMPLETED; DEFAULTED]
  | COMPLETED => []
  | DEFAULTED => []
  end.

Definition includes (l : list LoanStatus) (s : LoanStatus) : bool :=
  existsb (LoanStatus_eqb s) l.

(** [loanSchema.statics.isValidTransition]. *)
Definition isValidTransition (fromStatus toStatus : LoanStatus) : bool :=
  let validNextStates := VALID_TRANSITIONS fromStatus in
  includes validNextStates toStatus.

(** [loanSchema.methods.transitionTo], on the in-memory document. *)
Definition transitionTo (this : Loan.t) (newStatus : LoanStatus)
    (performedBy : ObjectId) (reason : option string) (now : Date)
    : Result Loan.t :=
  let currentStatus := this.(Loan.status) in
  let validNextStates := VALID_TRANSITIONS currentStatus in
  if negb (includes validNextStates newStatus) then
    Throw (InvalidStateTransitionError currentStatus newStatus)
  else
    let this1 :=
      Loan.set_statusHistory
        (this.(Loan.statusHistory)
           ++ [mkStatusChange (Some currentStatus) newStatus reason performedBy now])
        this in
    Ok (Loan.set_status newStatus this1).

(** [loanSchema.pre('save')] for a new document. *)
Definition preSave_isNew (generated : string) (now : Date) (this : Loan.t) : Loan.t :=
  let this0 :=
    if String.eqb this.(Loan.applicationNumber) ""
    then Loan.set_applicationNumber generated this else this in
  let this1 :=
    Loan.set_totalInterest
      (roundToTwoDecimals
         (calculateSimpleInterest this0.(Loan.amount) this0.(Loan.interestRate)
            this0.(Loan.tenor))) this0 in
  let this2 :=
    Loan.set_totalRepayable
      (roundToTwoDecimals (this1.(Loan.amount) + this1.(Loan.totalInterest))) this1 in
  let this3 :=
    Loan.set_monthlyPayment
      (roundToTwoDecimals
         (calculateMonthlyPayment this2.(Loan.totalRepayable) this2.(Loan.tenor)))
      this2 in
  let this4 := Loan.set_outstandingBalance this3.(Loan.totalRepayable) this3 in
  Loan.set_statusHistory
    (this4.(Loan.statusHistory)
       ++ [mkStatusChange None PENDING None this4.(Loan.userId) now])
    this4.

(** [Loan.create({ userId, amount, tenor, purpose, bankDetails })]: schema
    defaults, the pre-save hook, then the insertion, which the unique index
    on [applicationNumber] can refuse. *)
Definition create (userId : ObjectId) (amount : Q) (tenor : nat)
    (purpose : string) (bankDetails : option IBankDetails)
    (generated : string) (now : Date) : M Loan.t :=
  id <- newObjectId ;;
  let doc0 :=
    Loan.mk id userId "" amount tenor purpose (15 # 100) 0 0 0 PENDING []
      None None noDisbursement bankDetails 0 0 0%nat in
  if negb (validate doc0) then throw (ValidationError "Loan validation failed")
  else
  let doc := preSave_isNew generated now doc0 in
  fun s =>
    if existsb (fun l => String.eqb l.(Loan.applicationNumber)
                           doc.(Loan.applicationNumber)) s.(loans)
    then (s, Throw DuplicateKeyError)
    else (set_loans (s.(loans) ++ [doc]) s, Ok doc).

End LoanModel.

Module ScheduleModel.

(** [RepaymentSchedule.find(filter).sort({ installmentNumber: 1 })]. *)
Definition find_sorted (filter : Schedule.t -> bool) : M (list Schedule.t) :=
  fun s => (s, Ok (sort_by Schedule.installmentNumber
                     (List.filter filter s.(schedules)))).

(** [schedule.save()]. *)
Definition save (doc : Schedule.t) : M unit :=
  fun s =>
    (set_schedules
       (fst (updateFirst (has_id_schedule doc.(Schedule._id))
               (fun _ => doc) s.(schedules))) s, Ok tt).

(** Insertion of one installment; the pair [(loanId, installmentNumber)]
    is unique. *)
Definition insertOne (mkdoc : ObjectId -> Schedule.t) : M unit :=
  id <- newObjectId ;;
  let doc := mkdoc id in
  fun s =>
    if existsb (fun x => Nat.eqb x.(Schedule.loanId) doc.(Schedule.loanId)
                         && Nat.eqb x.(Schedule.installmentNumber)
                              doc.(Schedule.installmentNumber)) s.(schedules)
    then (s, Throw DuplicateKeyError)
    else (set_schedules (s.(schedules) ++ [doc]) s, Ok tt).

(** [RepaymentSchedule.insertMany(docs)], in order. *)
Fixpoint insertMany (docs : list (ObjectId -> Schedule.t)) : M unit :=
  match docs with
  | [] => ret tt
  | d :: rest => insertOne d ;;; insertMany rest
  end.

End ScheduleModel.

Module PaymentModel.

Definition findOne (filter : Payment.t -> bool) : M (option Payment.t) :=
  fun s => (s, Ok (find filter s.(payments))).

Definition findById (id : ObjectId) : M (option Payment.t) :=
  findOne (has_id_payment id).

Definition byKey (idempotencyKey : string) (p : Payment.t) : bool :=
  String.eqb p.(Payment.idempotencyKey) idempotencyKey.

(** [Payment.create(...)]: the schema requires [amount >= 0], and
    [idempotencyKey] and [reference] are unique. *)
Definition create (mkdoc : ObjectId -> Payment.t) : M Payment.t :=
  id <- newObjectId ;;
  let doc := mkdoc id in
  if Qgtb 0 doc.(Payment.amount)
  then throw (ValidationError "Payment validation failed")
  else
  fun s =>
    if existsb (fun p => String.eqb p.(Payment.idempotencyKey)
                           doc.(Payment.idempotencyKey)
                         || String.eqb p.(Payment.reference)
                              doc.(Payment.reference)) s.(payments)
    then (s, Throw DuplicateKeyError)
    else (set_payments (s.(payments) ++ [doc]) s, Ok doc).

(** [payment.save()].  No service changes [amount] after creation, so the
    validator checked by [create] is not run again here. *)
Definition save (doc : Payment.t) : M unit :=
  fun s =>
    (set_payments
       (fst (updateFirst (has_id_payment doc.(Payment._id))
               (fun _ => doc) s.(payments))) s, Ok tt).

(** A new payment document with the schema's defaults. *)
Definition fresh (loanId userId : ObjectId) (idempotencyKey : string)
    (type : PaymentType) (amount : Q) (reference : string)
    (status : PaymentStatus) (proofOfPayment evidenceUrl : option string)
    (manualProof : option IManualProof) (id : ObjectId) : Payment.t :=
  Payment.mk id loanId userId idempotencyKey type amount reference status
    None None false None None proofOfPayment evidenceUrl manualProof
    None None false.

End PaymentModel.

Module UserModel.

Definition findById (id : ObjectId) : M bool :=
  fun s => (s, Ok (existsb (Nat.eqb id) s.(users))).

End UserModel.

(** The answer of [paymentProvider.transfer]. *)
Record TransferResult : Type := mkTransferResult {
  success : bool;
  tr_providerReference : option string;
  tr_message : string
}.

(* ================================================================== *)
(** * The loan service *)
(* ================================================================== *)

Module LoanService.

Definition singleActiveStatuses : list LoanStatus :=
  [PENDING; UNDER_REVIEW; APPROVED; ACTIVE].

(** [createLoan]. *)
Definition createLoan (userId : ObjectId) (amount : Q) (tenor : nat)
    (purpose : string) (bankDetails : option IBankDetails)
    (generated : string) (now : Date) : M Loan.t :=
  activeLoan <- LoanModel.findOne
                  (fun l => Nat.eqb l.(Loan.userId) userId
                            && LoanModel.includes singleActiveStatuses l.(Loan.status)) ;;
  match activeLoan with
  | Some a =>
      throw (ValidationError
               ("You have an active loan (Status: " ++ LoanStatus_str a.(Loan.status)
                ++ "). Please settle your outstanding balance before applying for a new one."))
  | None => LoanModel.create userId amount tenor purpose bankDetails generated now
  end.

(** Lifting of a method that may throw. *)
Definition lift {A} (r : Result A) : M A := fun s => (s, r).

(** [startReview]. *)
Definition startReview (loanId adminId : ObjectId) (now : Date) : M Loan.t :=
  found <- LoanModel.findById loanId ;;
  match found with
  | None => throw (NotFoundError "Loan not found")
  | Some loan =>
      if negb (LoanStatus_eqb loan.(Loan.status) PENDING) then
        throw (InvalidStateTransitionError loan.(Loan.status) UNDER_REVIEW)
      else
        loan1 <- lift (LoanModel.transitionTo loan UNDER_REVIEW adminId
                         (Some "Loan picked up for review") now) ;;
        LoanModel.save loan1
  end.

(** The figures recomputed by [approveLoan] when the approved amount
    differs from the requested one. *)
Definition rederive (finalAmount : Q) (loan : Loan.t) : Loan.t :=
  let loan1 := Loan.set_amount finalAmount loan in
  let annualRate := loan1.(Loan.interestRate) in
  let tenor := inject_Z (Z.of_nat loan1.(Loan.tenor)) in
  let loan2 :=
    Loan.set_totalInterest
      (inject_Z (Math_round (finalAmount * annualRate * (tenor / 12) * 100)) / 100)
      loan1 in
  let loan3 :=
    Loan.set_totalRepayable
      (inject_Z (Math_round ((finalAmount + loan2.(Loan.totalInterest)) * 100)) / 100)
      loan2 in
  let loan4 :=
    Loan.set_monthlyPayment
      (inject_Z (Math_round ((loan3.(Loan.totalRepayable) / tenor) * 100)) / 100)
      loan3 in
  Loan.set_outstandingBalance loan4.(Loan.totalRepayable) loan4.

(** [approveLoan]. *)
Definition approveLoan (loanId adminId : ObjectId) (approvedAmount : option Q)
    (conditions : option (list string)) (now : Date) : M Loan.t :=
  found <- LoanModel.findById loanId ;;
  match found with
  | None => throw (NotFoundError "Loan not found")
  | Some loan =>
      if LoanStatus_eqb loan.(Loan.status) APPROVED then ret loan
      else if negb (LoanStatus_eqb loan.(Loan.status) UNDER_REVIEW) then
        throw (InvalidStateTransitionError loan.(Loan.status) APPROVED)
      else
        let finalAmount := or_default approvedAmount loan.(Loan.amount) in
        if Qgtb finalAmount loan.(Loan.amount) then
          throw (ValidationError "Approved amount cannot exceed requested amount")
        else
          loan1 <- lift (LoanModel.transitionTo loan APPROVED adminId
                           (Some "Loan approved") now) ;;
          let loan2 :=
            Loan.set_approvalDetails
              (Some (mkApproval adminId now finalAmount conditions)) loan1 in
          let loan3 :=
            if negb (Qeq_bool finalAmount loan2.(Loan.amount))
            then rederive finalAmount loan2 else loan2 in
          LoanModel.save loan3
  end.

(** [rejectLoan]. *)
Definition rejectLoan (loanId adminId : ObjectId) (reason : string) (now : Date)
    : M Loan.t :=
  found <- LoanModel.findById loanId ;;
  match found with
  | None => throw (NotFoundError "Loan not found")
  | Some loan =>
      if LoanStatus_eqb loan.(Loan.status) REJECTED then ret loan
      else if negb (LoanStatus_eqb loan.(Loan.status) UNDER_REVIEW) then
        throw (InvalidStateTransitionError loan.(Loan.status) REJECTED)
      else
        loan1 <- lift (LoanModel.transitionTo loan REJECTED adminId (Some reason) now) ;;
        let loan2 :=
          Loan.set_rejectionDetails (Some (mkRejection adminId now reason)) loan1 in
        LoanModel.save loan2
  end.

End LoanService.

(* ================================================================== *)
(** * The disbursement service *)
(* ================================================================== *)

Module DisbursementService.

Record DisbursementResult : Type := mkDisbursementResult {
  dr_loan : Loan.t;
  dr_disbursementRef : string;
  dr_providerReference : option string;
  dr_amount : Q
}.

(** [loan.approvalDetails?.approvedAmount || loan.amount]. *)
Definition approvedOrRequested (loan : Loan.t) : Q :=
  or_default (option_map approvedAmount loan.(Loan.approvalDetails)) loan.(Loan.amount).

(** The documents built by the loop of [generateRepaymentSchedule]. *)
Definition scheduleDocs (loan : Loan.t) (startDate : Date)
    : list (ObjectId -> Schedule.t) :=
  let totalPrincipal := approvedOrRequested loan in
  let totalInterest := loan.(Loan.totalInterest) in
  let tenor := loan.(Loan.tenor) in
  let tenorQ := inject_Z (Z.of_nat tenor) in
  let principalPerInstallment := roundToTwoDecimals (totalPrincipal / tenorQ) in
  let interestPerInstallment := roundToTwoDecimals (totalInterest / tenorQ) in
  let totalPerInstallment :=
    roundToTwoDecimals (principalPerInstallment + interestPerInstallment) in
  map (fun i : nat =>
         let dueDate := (startDate, i) in
         if Nat.eqb i tenor then
           let paidPrincipal :=
             principalPerInstallment * inject_Z (Z.of_nat (tenor - 1)) in
           let paidInterest :=
             interestPerInstallment * inject_Z (Z.of_nat (tenor - 1)) in
           let principal := roundToTwoDecimals (totalPrincipal - paidPrincipal) in
           let interest := roundToTwoDecimals (totalInterest - paidInterest) in
           let total := roundToTwoDecimals (principal + interest) in
           fun id => Schedule.mk id loan.(Loan._id) i dueDate principal interest
                       total 0 S_PENDING None
         else
           fun id => Schedule.mk id loan.(Loan._id) i dueDate
                       principalPerInstallment interestPerInstallment
                       totalPerInstallment 0 S_PENDING None)
      (seq 1 tenor).

(** [generateRepaymentSchedule]. *)
Definition generateRepaymentSchedule (loan : Loan.t) (startDate : Date) : M unit :=
  ScheduleModel.insertMany (scheduleDocs loan startDate).

Definition pushHistory (h : IStatusChange) (l : Loan.t) : Loan.t :=
  Loan.set_statusHistory (l.(Loan.statusHistory) ++ [h]) l.

Definition hasDisbursementRef (l : Loan.t) : bool :=
  match l.(Loan.disbursement).(disbursementRef) with
  | Some _ => true
  | None => false
  end.

(** The unique sparse index on [disbursement.disbursementRef]. *)
Definition usesRef (r : string) (l : Loan.t) : bool :=
  match l.(Loan.disbursement).(disbursementRef) with
  | Some r' => String.eqb r' r
  | None => false
  end.

(** The [$set]/[$push] of the reservation step. *)
Definition reserveUpdate (disbursementRef : string) (adminId : ObjectId)
    (now : Date) (accountNumber bankCode : string) (l : Loan.t) : Loan.t :=
  let d := l.(Loan.disbursement) in
  let d' := mkDisbursement (Some now) (Some adminId) (Some disbursementRef)
              d.(disbursedAmount) (Some accountNumber) (Some bankCode)
              d.(providerRef) in
  pushHistory
    (mkStatusChange (Some APPROVED) DISBURSED (Some "Loan disbursed") adminId now)
    (Loan.set_disbursement d' (Loan.set_status DISBURSED l)).

(** The update of the compensation branch. *)
Definition rollbackUpdate (adminId : ObjectId) (now : Date) (message : string)
    (l : Loan.t) : Loan.t :=
  let d := l.(Loan.disbursement) in
  let d' := mkDisbursement d.(disbursedAt) d.(disbursedBy) None
              d.(disbursedAmount) d.(bankAccount) d.(bankCode) d.(providerRef) in
  pushHistory
    (mkStatusChange (Some DISBURSED) APPROVED
       (Some ("Disbursement failed: " ++ message)%string) adminId now)
    (Loan.set_disbursement d' (Loan.set_status APPROVED l)).

(** The update of the commit step. *)
Definition commitUpdate (adminId : ObjectId) (now : Date) (amount : Q)
    (providerReference : option string) (l : Loan.t) : Loan.t :=
  let d := l.(Loan.disbursement) in
  let d' := mkDisbursement d.(disbursedAt) d.(disbursedBy) d.(disbursementRef)
              (Some amount) d.(bankAccount) d.(bankCode) providerReference in
  pushHistory
    (mkStatusChange (Some DISBURSED) ACTIVE
       (Some "Funds transferred successfully, repayment started") adminId now)
    (Loan.set_disbursement d' (Loan.set_status ACTIVE l)).

(** [disburseLoan].  [disbursementRef] is the generated reference and
    [transferResult] the provider's answer to the transfer request. *)
Definition disburseLoan (loanId adminId : ObjectId) (disbursementRef : string)
    (now : Date) (transferResult : TransferResult) : M DisbursementResult :=
  initialLoan <- LoanModel.findById loanId ;;
  match initialLoan with
  | None => throw (NotFoundError "Loan not found")
  | Some initialLoan =>
    match initialLoan.(Loan.bankDetails) with
    | None => throw (PlainAppError "Bank details missing for this loan" 400)
    | Some bank =>
      let accountNumber := bank.(accountNumber) in
      let bankCode := bank.(bankDetailsCode) in
      refTaken <- (fun s => (s, Ok (existsb (usesRef disbursementRef) s.(loans)))) ;;
      let reservable l :=
        has_id_loan loanId l && LoanStatus_eqb l.(Loan.status) APPROVED
        && negb (hasDisbursementRef l) in
      candidate <- LoanModel.findOne reservable ;;
      loan <- match candidate with
              | Some _ =>
                  if (refTaken : bool) then throw DuplicateKeyError
                  else LoanModel.findOneAndUpdate reservable
                         (reserveUpdate disbursementRef adminId now accountNumber bankCode)
              | None => ret None
              end ;;
      match loan with
      | None =>
          existingLoan <- LoanModel.findById loanId ;;
          match existingLoan with
          | None => throw (NotFoundError "Loan not found")
          | Some existingLoan =>
              if negb (LoanStatus_eqb existingLoan.(Loan.status) APPROVED) then
                throw (InvalidStateTransitionError existingLoan.(Loan.status) DISBURSED)
              else if hasDisbursementRef existingLoan then
                throw (ConflictError "Loan has already been disbursed")
              else throw (PlainAppError "Failed to process disbursement" 500)
          end
      | Some loan =>
          let disbursementAmount := approvedOrRequested loan in
          if negb transferResult.(success) then
            LoanModel.findByIdAndUpdate loanId
              (rollbackUpdate adminId now transferResult.(tr_message)) ;;;
            throw (PlainAppError
                     ("Disbursement failed: " ++ transferResult.(tr_message)) 500)
          else
            updatedLoan <- LoanModel.findByIdAndUpdate loanId
                             (commitUpdate adminId now disbursementAmount
                                transferResult.(tr_providerReference)) ;;
            match updatedLoan with
            | None => throw TypeError
            | Some updatedLoan =>
                generateRepaymentSchedule updatedLoan now ;;;
                ret (mkDisbursementResult updatedLoan disbursementRef
                       transferResult.(tr_providerReference) disbursementAmount)
            end
      end
    end
  end.

End DisbursementService.

(* ================================================================== *)
(** * The payment service *)
(* ================================================================== *)

Module PaymentService.

Record RepaymentInput : Type := mkRepaymentInput {
  in_loanId : ObjectId;
  in_userId : ObjectId;
  in_amount : Q;
  in_idempotencyKey : string
}.

Record LoanSnapshot : Type := mkSnapshot {
  snap_totalRepaid : Q;
  snap_outstandingBalance : Q;
  snap_status : LoanStatus
}.

Record Allocation : Type := mkAlloc {
  scheduleId : ObjectId;
  installmentNumber : nat;
  amountApplied : Q
}.

Record RepaymentResult : Type := mkRepaymentResult {
  payment : Payment.t;
  loan : LoanSnapshot;
  allocations : list Allocation;
  overpayment : option Q
}.

Record RefundInput : Type := mkRefundInput {
  rf_paymentId : ObjectId;
  rf_adminId : ObjectId;
  rf_reason : string;
  rf_idempotencyKey : string;
  rf_amount : option Q
}.

Definition isOutstanding (st : ScheduleStatus) : bool :=
  match st with
  | S_PENDING | S_PARTIAL | S_OVERDUE => true
  | S_PAID => false
  end.

Definition outstandingOf (loanId : ObjectId) (x : Schedule.t) : bool :=
  Nat.eqb x.(Schedule.loanId) loanId && isOutstanding x.(Schedule.status).

Definition isSuccess (st : PaymentStatus) : bool :=
  match st with P_SUCCESS => true | _ => false end.

Definition isPending (st : PaymentStatus) : bool :=
  match st with P_PENDING => true | _ => false end.

(** The body of the allocation loop on one installment. *)
Definition applyTo (now : Date) (amountToApply : Q) (schedule : Schedule.t)
    : Schedule.t :=
  let s1 :=
    Schedule.set_paidAmount
      (roundToTwoDecimals (schedule.(Schedule.paidAmount) + amountToApply))
      schedule in
  if Qgeb s1.(Schedule.paidAmount) s1.(Schedule.totalAmount)
  then Schedule.set_paidAt (Some now) (Schedule.set_status S_PAID s1)
  else Schedule.set_status S_PARTIAL s1.

(** The FIFO allocation loop shared by [processRepayment] and
    [verifyRepayment]: walks the installments read from the store, saves
    each one it touches, and returns the remaining amount with the
    allocations made. *)
Fixpoint allocate (now : Date) (outstandingSchedules : list Schedule.t)
    (remainingAmount : Q) (allocations : list Allocation)
    : M (Q * list Allocation) :=
  match outstandingSchedules with
  | [] => ret (remainingAmount, allocations)
  | schedule :: rest =>
      if Qle_bool remainingAmount 0 then ret (remainingAmount, allocations)
      else
        let outstandingOnSchedule :=
          roundToTwoDecimals
            (schedule.(Schedule.totalAmount) - schedule.(Schedule.paidAmount)) in
        let amountToApply := Math_min remainingAmount outstandingOnSchedule in
        if Qgtb amountToApply 0 then
          let schedule' := applyTo now amountToApply schedule in
          ScheduleModel.save schedule' ;;;
          allocate now rest
            (roundToTwoDecimals (remainingAmount - amountToApply))
            (allocations
               ++ [mkAlloc schedule'.(Schedule._id)
                     schedule'.(Schedule.installmentNumber) amountToApply])
        else allocate now rest remainingAmount allocations
  end.

(** [x || 0] on a number. *)
Definition orZero (x : Q) : Q := if truthy x then x else 0.

(** The snapshot returned on an idempotent replay. *)
Definition replaySnapshot (loan : option Loan.t) : LoanSnapshot :=
  match loan with
  | Some l => mkSnapshot (orZero l.(Loan.totalRepaid))
                (orZero l.(Loan.outstandingBalance)) l.(Loan.status)
  | None => mkSnapshot 0 0 ACTIVE
  end.

(** The balance update of [processRepayment] and [verifyRepayment]:
    conditioned on the version read, and incrementing it. *)
Definition balanceCAS (loanId : ObjectId) (currentVersion : nat)
    (newTotalRepaid newOutstandingBalance : Q) : M (option Loan.t) :=
  LoanModel.findOneAndUpdate
    (fun l => has_id_loan loanId l && Nat.eqb l.(Loan.__v) currentVersion)
    (fun l => Loan.set_v (S l.(Loan.__v))
                (Loan.set_outstandingBalance newOutstandingBalance
                   (Loan.set_totalRepaid newTotalRepaid l))).

Definition finalize (now : Date) (p : Payment.t) : Payment.t :=
  Payment.set_reconciledAt (Some now)
    (Payment.set_reconciled true (Payment.set_status P_SUCCESS p)).

Definition markFailed (e : AppError) (p : Payment.t) : Payment.t :=
  Payment.set_failureReason (Some (error_message e))
    (Payment.set_status P_FAILED p).

(** [processRepayment].  [paymentReference] is the generated reference.
    [others] stands for the requests served while this one is suspended
    between reading the loan and the balance update. *)
Definition processRepayment_with (others : Store -> Store)
    (input : RepaymentInput) (paymentReference : string) (now : Date)
    : M RepaymentResult :=
  let loanId := input.(in_loanId) in
  let userId := input.(in_userId) in
  let amount := input.(in_amount) in
  let idempotencyKey := input.(in_idempotencyKey) in
  existingPayment <- PaymentModel.findOne (PaymentModel.byKey idempotencyKey) ;;
  match existingPayment with
  | Some existingPayment =>
      if isSuccess existingPayment.(Payment.status) then
        loan <- LoanModel.findById loanId ;;
        ret (mkRepaymentResult existingPayment (replaySnapshot loan) [] None)
      else
        throw (ConflictError
                 "Payment with this idempotency key is already being processed")
  | None =>
      loan <- LoanModel.findOne
                (fun l => has_id_loan loanId l && Nat.eqb l.(Loan.userId) userId
                          && LoanStatus_eqb l.(Loan.status) ACTIVE) ;;
      user <- UserModel.findById userId ;;
      if negb (user : bool) then throw (NotFoundError "User not found") else
      match loan with
      | Some _ => ret tt
      | None =>
          existingLoan <- LoanModel.findById loanId ;;
          match existingLoan with
          | None => throw (NotFoundError "Loan not found")
          | Some existingLoan =>
              if negb (Nat.eqb existingLoan.(Loan.userId) userId) then
                throw (NotFoundError "Loan not found")
              else if negb (LoanStatus_eqb existingLoan.(Loan.status) ACTIVE) then
                throw (ValidationError
                         ("Cannot make repayment on loan with status: "
                          ++ LoanStatus_str existingLoan.(Loan.status)))
              else ret tt
          end
      end ;;;
      if Qle_bool amount 0 then
        throw (ValidationError "Payment amount must be greater than 0")
      else
      payment <- PaymentModel.create
                   (PaymentModel.fresh loanId userId idempotencyKey REPAYMENT
                      amount paymentReference P_PROCESSING None None None) ;;
      outstandingSchedules <- ScheduleModel.find_sorted (outstandingOf loanId) ;;
      r <- allocate now outstandingSchedules amount [] ;;
      let '(remainingAmount, allocations) := r in
      let overpayment := if Qgtb remainingAmount 0 then remainingAmount else 0 in
      let payment1 :=
        if Qgtb remainingAmount 0
        then Payment.set_allocation
               (Some (mkAllocation (amount - overpayment) 0 overpayment)) payment
        else payment in
      try_catch
        (match loan with
         | None => throw TypeError
         | Some loan =>
             let currentVersion := loan.(Loan.__v) in
             let newTotalRepaid :=
               roundToTwoDecimals (loan.(Loan.totalRepaid) + (amount - overpayment)) in
             let newOutstandingBalance :=
               roundToTwoDecimals (loan.(Loan.totalRepayable) - newTotalRepaid) in
             modify others ;;;
             updatedLoan <- balanceCAS loanId currentVersion newTotalRepaid
                              newOutstandingBalance ;;
             match updatedLoan with
             | None =>
                 throw (ConcurrencyError
                          "Loan was modified by another process. Please retry.")
             | Some updatedLoan =>
                 updatedLoan' <-
                   (if Qle_bool newOutstandingBalance 0 then
                      LoanModel.save
                        (DisbursementService.pushHistory
                           (mkStatusChange (Some ACTIVE) COMPLETED None userId now)
                           (Loan.set_status COMPLETED updatedLoan))
                    else ret updatedLoan) ;;
                 let payment2 := finalize now payment1 in
                 PaymentModel.save payment2 ;;;
                 ret (mkRepaymentResult payment2
                        (mkSnapshot newTotalRepaid newOutstandingBalance
                           updatedLoan'.(Loan.status))
                        allocations
                        (if Qgtb overpayment 0 then Some overpayment else None))
             end
         end)
        (fun error =>
           PaymentModel.save (markFailed error payment1) ;;;
           throw error)
  end.

(** [processRepayment] with no other request in between. *)
Definition processRepayment : RepaymentInput -> string -> Date -> M RepaymentResult :=
  processRepayment_with (fun s => s).

(** The [$inc] of [processRefund]. *)
Definition refundUpdate (amount : Q) (l : Loan.t) : Loan.t :=
  Loan.set_outstandingBalance (l.(Loan.outstandingBalance) + amount)
    (Loan.set_totalRepaid (l.(Loan.totalRepaid) + - amount) l).

(** [processRefund]. *)
Definition processRefund (input : RefundInput) (refundReference : string)
    (now : Date) (refundResult : TransferResult) : M Payment.t :=
  existingRefund <- PaymentModel.findOne
                      (PaymentModel.byKey input.(rf_idempotencyKey)) ;;
  match existingRefund with
  | Some existingRefund => ret existingRefund
  | None =>
      originalPayment <- PaymentModel.findById input.(rf_paymentId) ;;
      match originalPayment with
      | None => throw (NotFoundError "Payment not found")
      | Some originalPayment =>
          if negb (isSuccess originalPayment.(Payment.status)) then
            throw (ValidationError "Can only refund successful payments")
          else
            refund <- PaymentModel.create
                        (PaymentModel.fresh originalPayment.(Payment.loanId)
                           originalPayment.(Payment.userId)
                           input.(rf_idempotencyKey) REFUND
                           originalPayment.(Payment.amount) refundReference
                           P_PROCESSING None None None) ;;
            refund1 <-
              (if refundResult.(success) then
                 LoanModel.findByIdAndUpdate originalPayment.(Payment.loanId)
                   (refundUpdate originalPayment.(Payment.amount)) ;;;
                 ret (Payment.set_reconciledAt (Some now)
                        (Payment.set_reconciled true
                           (Payment.set_providerReference
                              refundResult.(tr_providerReference)
                              (Payment.set_status P_SUCCESS refund))))
               else
                 ret (Payment.set_failureReason (Some refundResult.(tr_message))
                        (Payment.set_status P_FAILED refund))) ;;
            PaymentModel.save refund1 ;;;
            ret refund1
      end
  end.

(** [originalPayment.allocation?.overpayment || 0]. *)
Definition recordedOverpayment (p : Payment.t) : Q :=
  or_default (option_map alloc_overpayment p.(Payment.allocation)) 0.

(** The amount resolution of [refundOverpayment]. *)
Definition resolveRefundAmount (amount : option Q) (originalPayment : Payment.t)
    : Result Q :=
  match amount with
  | Some a =>
      if truthy a && Qgtb a 0 then
        if Qgtb a originalPayment.(Payment.amount) then
          Throw (ValidationError
                   "Refund amount cannot exceed original payment amount")
        else Ok a
      else
        let overpayment := recordedOverpayment originalPayment in
        if Qle_bool overpayment 0 then
          Throw (ValidationError
                   "This payment has no recorded overpayment. Please specify an amount.")
        else Ok overpayment
  | None =>
      let overpayment := recordedOverpayment originalPayment in
      if Qle_bool overpayment 0 then
        Throw (ValidationError
                 "This payment has no recorded overpayment. Please specify an amount.")
      else Ok overpayment
  end.

(** [reason || 'Overpayment Refund']. *)
Definition reasonOrDefault (reason : string) : string :=
  if String.eqb reason "" then "Overpayment Refund" else reason.

(** [refundOverpayment]. *)
Definition refundOverpayment (input : RefundInput) (refundReference : string)
    (now : Date) (refundResult : TransferResult) : M Payment.t :=
  existingRefund <- PaymentModel.findOne
                      (PaymentModel.byKey input.(rf_idempotencyKey)) ;;
  match existingRefund with
  | Some existingRefund => ret existingRefund
  | None =>
      originalPayment <- PaymentModel.findById input.(rf_paymentId) ;;
      match originalPayment with
      | None => throw (NotFoundError "Payment not found")
      | Some originalPayment =>
          if negb (isSuccess originalPayment.(Payment.status)) then
            throw (ValidationError "Can only refund successful payments")
          else
            refundAmount <- LoanService.lift
                              (resolveRefundAmount input.(rf_amount) originalPayment) ;;
            if originalPayment.(Payment.isOverpaymentRefunded) then
              throw (ConflictError
                       "Overpayment for this transaction has already been refunded")
            else
              refund <- PaymentModel.create
                          (PaymentModel.fresh originalPayment.(Payment.loanId)
                             originalPayment.(Payment.userId)
                             input.(rf_idempotencyKey) REFUND refundAmount
                             refundReference P_PROCESSING
                             (Some (reasonOrDefault input.(rf_reason))) None None) ;;
              refund1 <-
                (if refundResult.(success) then
                   PaymentModel.save
                     (Payment.set_isOverpaymentRefunded true originalPayment) ;;;
                   ret (Payment.set_verifiedAt (Some now)
                          (Payment.set_verifiedBy (Some input.(rf_adminId))
                             (Payment.set_reconciledAt (Some now)
                                (Payment.set_reconciled true
                                   (Payment.set_providerReference
                                      refundResult.(tr_providerReference)
                                      (Payment.set_status P_SUCCESS refund))))))
                 else
                   ret (Payment.set_failureReason (Some refundResult.(tr_message))
                          (Payment.set_status P_FAILED refund))) ;;
              PaymentModel.save refund1 ;;;
              ret refund1
      end
  end.

(** [submitManualRepayment]. *)
Definition submitManualRepayment (input : RepaymentInput)
    (proofOfPayment evidenceUrl : option string)
    (manualProof : option IManualProof) (paymentReference : string)
    : M Payment.t :=
  existingPayment <- PaymentModel.findOne
                       (PaymentModel.byKey input.(in_idempotencyKey)) ;;
  match existingPayment with
  | Some existingPayment => ret existingPayment
  | None =>
      loan <- LoanModel.findOne
                (fun l => has_id_loan input.(in_loanId) l
                          && Nat.eqb l.(Loan.userId) input.(in_userId)
                          && LoanStatus_eqb l.(Loan.status) ACTIVE) ;;
      match loan with
      | None => throw (NotFoundError "Active loan not found")
      | Some _ =>
          PaymentModel.create
            (PaymentModel.fresh input.(in_loanId) input.(in_userId)
               input.(in_idempotencyKey) REPAYMENT input.(in_amount)
               paymentReference P_PENDING proofOfPayment evidenceUrl manualProof)
      end
  end.

(** The answer of [verifyRepayment]: the bare payment on rejection, the
    full result on approval. *)
Inductive VerifyResult : Type :=
  | Rejected (p : Payment.t)
  | Verified (r : RepaymentResult).

(** [verifyRepayment].  [approve] is [status === 'success']. *)
Definition verifyRepayment (paymentId adminId : ObjectId) (approve : bool)
    (reason : option string) (now : Date) : M VerifyResult :=
  found <- PaymentModel.findById paymentId ;;
  match found with
  | None => throw (NotFoundError "Payment not found")
  | Some payment =>
      if negb (isPending payment.(Payment.status)) then
        throw (ValidationError
                 ("Payment is already " ++ PaymentStatus_str payment.(Payment.status)))
      else if negb approve then
        let payment1 :=
          Payment.set_verifiedAt (Some now)
            (Payment.set_verifiedBy (Some adminId)
               (Payment.set_failureReason
                  (Some (match reason with
                         | Some r => if String.eqb r "" then "Admin rejected proof" else r
                         | None => "Admin rejected proof"
                         end))
                  (Payment.set_status P_FAILED payment))) in
        PaymentModel.save payment1 ;;;
        ret (Rejected payment1)
      else
        loan <- LoanModel.findById payment.(Payment.loanId) ;;
        match loan with
        | None => throw (ValidationError "Loan is no longer active")
        | Some loan =>
            if negb (LoanStatus_eqb loan.(Loan.status) ACTIVE) then
              throw (ValidationError "Loan is no longer active")
            else
              outstandingSchedules <-
                ScheduleModel.find_sorted (outstandingOf loan.(Loan._id)) ;;
              r <- allocate now outstandingSchedules payment.(Payment.amount) [] ;;
              let '(remainingAmount, allocations) := r in
              let overpayment :=
                if Qgtb remainingAmount 0 then remainingAmount else 0 in
              let payment1 :=
                if Qgtb remainingAmount 0
                then Payment.set_allocation
                       (Some (mkAllocation (payment.(Payment.amount) - overpayment)
                                0 overpayment)) payment
                else Payment.set_allocation
                       (Some (mkAllocation payment.(Payment.amount) 0 0)) payment in
              let newTotalRepaid :=
                roundToTwoDecimals
                  (loan.(Loan.totalRepaid) + (payment.(Payment.amount) - overpayment)) in
              let newOutstandingBalance :=
                roundToTwoDecimals (loan.(Loan.totalRepayable) - newTotalRepaid) in
              updatedLoan <- balanceCAS loan.(Loan._id) loan.(Loan.__v)
                               newTotalRepaid newOutstandingBalance ;;
              match updatedLoan with
              | None => throw (ConcurrencyError "Loan modified by another process")
              | Some updatedLoan =>
                  updatedLoan' <-
                    (if Qle_bool newOutstandingBalance 0 then
                       LoanModel.save (Loan.set_status COMPLETED updatedLoan)
                     else ret updatedLoan) ;;
                  let payment2 :=
                    Payment.set_verifiedAt (Some now)
                      (Payment.set_verifiedBy (Some adminId)
                         (finalize now payment1)) in
                  PaymentModel.save payment2 ;;;
                  ret (Verified
                         (mkRepaymentResult payment2
                            (mkSnapshot newTotalRepaid newOutstandingBalance
                               updatedLoan'.(Loan.status))
                            allocations
                            (if Qgtb overpayment 0 then Some overpayment else None)))
              end
        end
  end.

End PaymentService.

(* ================================================================== *)
(** * Sample data *)
(* ================================================================== *)

(** A borrower (id 7), an operator (id 9) and the stores reached by
    running the services on them. *)
Module Sample.

Definition bank : option IBankDetails :=
  Some (mkBank "0123456789" "First Bank" "Ada Obi" "044").

Definition empty : Store := mkStore [] [] [] [7%nat; 9%nat] 100.

Definition failure : TransferResult :=
  mkTransferResult false None
    "Transfer failed - Insufficient funds in settlement account".

Definition transferred : TransferResult :=
  mkTransferResult true (Some "PROV-1") "Transfer successful".

(** A loan of 1000 over 3 months, created, reviewed and approved. *)
Definition created : Store :=
  fst (LoanService.createLoan 7 1000 3 "tools" bank "LN-1" 1 empty).
Definition reviewed : Store := fst (LoanService.startReview 100 9 2 created).
Definition approved : Store :=
  fst (LoanService.approveLoan 100 9 None None 3 reviewed).

(** A first disbursement the provider refuses, then one it accepts. *)
Definition refused : Store :=
  fst (DisbursementService.disburseLoan 100 9 "DSB-1" 4 failure approved).
Definition active : Store :=
  fst (DisbursementService.disburseLoan 100 9 "DSB-2" 5 transferred refused).


End Sample.



(** Sum of a list of amounts. *)
Definition sumQ (l : list Q) : Q := fold_right Qplus 0 l.


(* ================================================================== *)
(** * Requests and reachable stores *)
(* ================================================================== *)

(** The calls the controllers make on the services.  A direct repayment
    carries the requests served while it is suspended. *)
Inductive Request : Type :=
  | CreateLoan (userId : ObjectId) (amount : Q) (tenor : nat) (purpose : string)
      (bankDetails : option IBankDetails) (generated : string) (now : Date)
  | StartReview (loanId adminId : ObjectId) (now : Date)
  | ApproveLoan (loanId adminId : ObjectId) (approvedAmount : option Q)
      (conditions : option (list string)) (now : Date)
  | RejectLoan (loanId adminId : ObjectId) (reason : string) (now : Date)
  | DisburseLoan (loanId adminId : ObjectId) (disbursementRef : string)
      (now : Date) (transferResult : TransferResult)
  | ProcessRepayment (input : PaymentService.RepaymentInput)
      (paymentReference : string) (now : Date) (during : list Request)
  | ProcessRefund (input : PaymentService.RefundInput) (refundReference : string)
      (now : Date) (refundResult : TransferResult)
  | RefundOverpayment (input : PaymentService.RefundInput)
      (refundReference : string) (now : Date) (refundResult : TransferResult)
  | SubmitManualRepayment (input : PaymentService.RepaymentInput)
      (proofOfPayment evidenceUrl : option string)
      (manualProof : option IManualProof) (paymentReference : string)
  | VerifyRepayment (paymentId adminId : ObjectId) (approve : bool)
      (reason : option string) (now : Date).

(** The store after a request has been served. *)
Fixpoint serve (r : Request) (s : Store) : Store :=
  match r with
  | CreateLoan u a t p b g now =>
      fst (LoanService.createLoan u a t p b g now s)
  | StartReview l a now => fst (LoanService.startReview l a now s)
  | ApproveLoan l a amt c now => fst (LoanService.approveLoan l a amt c now s)
  | RejectLoan l a why now => fst (LoanService.rejectLoan l a why now s)
  | DisburseLoan l a ref now tr =>
      fst (DisbursementService.disburseLoan l a ref now tr s)
  | ProcessRepayment i ref now during =>
      fst (PaymentService.processRepayment_with
             (fun s0 => fold_left (fun acc q => serve q acc) during s0)
             i ref now s)
  | ProcessRefund i ref now tr =>
      fst (PaymentService.processRefund i ref now tr s)
  | RefundOverpayment i ref now tr =>
      fst (PaymentService.refundOverpayment i ref now tr s)
  | SubmitManualRepayment i p e m ref =>
      fst (PaymentService.submitManualRepayment i p e m ref s)
  | VerifyRepayment p a ok why now =>
      fst (PaymentService.verifyRepayment p a ok why now s)
  end.

Definition serveAll (rs : list Request) (s : Store) : Store :=
  fold_left (fun acc q => serve q acc) rs s.

(** The stores the engine can be in: any sequence of requests served from
    a store with no loan, installment or payment. *)
Definition initial (s : Store) : Prop :=
  s.(loans) = [] /\ s.(schedules) = [] /\ s.(payments) = [].

Definition reachable (s : Store) : Prop :=
  exists s0 rs, initial s0 /\ s = serveAll rs s0.

(** The pairs of the transition table. *)
Definition legal (fromStatus toStatus : LoanStatus) : bool :=
  match fromStatus, toStatus with
  | PENDING, UNDER_REVIEW
  | UNDER_REVIEW, APPROVED | UNDER_REVIEW, REJECTED
  | APPROVED, DISBURSED
  | DISBURSED, ACTIVE
  | ACTIVE, COMPLETED | ACTIVE, DEFAULTED => true
  | _, _ => false
  end.

(** An entry that some path of the engine writes: the creation entry, a
    legal pair, or the pair of the disbursement compensation. *)
Definition recordable (h : IStatusChange) : bool :=
  match h.(fromStatus) with
  | None => LoanStatus_eqb h.(toStatus) PENDING
  | Some f =>
      legal f h.(toStatus)
      || (LoanStatus_eqb f DISBURSED && LoanStatus_eqb h.(toStatus) APPROVED)
  end.

(** The claim on histories as it is stated: every recorded pair is legal. *)
Definition history_legal (l : Loan.t) : Prop :=
  forall h f, In h l.(Loan.statusHistory) -> h.(fromStatus) = Some f ->
    legal f h.(toStatus) = true.

(** Hoare triples for service computations under a store invariant: the
    invariant is kept whether the computation returns or throws, and a
    returned value satisfies the postcondition. *)
Definition triple {A} (Inv : Store -> Prop) (m : M A) (Post : A -> Prop) : Prop :=
  forall s, Inv s ->
    Inv (fst (m s)) /\ (forall a, snd (m s) = Ok a -> Post a).

(** The entries of a loan's history are all recordable. *)
Definition history_ok (l : Loan.t) : Prop :=
  Forall (fun h => recordable h = true) (Loan.statusHistory l).

(** The store after inserting documents with the keys [nums]. *)
Fixpoint inserted (F : nat -> ObjectId -> Schedule.t) (nums : list nat)
    (next : nat) : list Schedule.t :=
  match nums with
  | [] => []
  | i :: rest => F i next :: inserted F rest (S next)
  end.

(** No stored payment carries the key or the reference. *)
Definition unusedPayment (key reference : string) (s : Store) : Prop :=
  existsb (fun p => String.eqb (Payment.idempotencyKey p) key
                    || String.eqb (Payment.reference p) reference)
    (payments s) = false.

(** Stored payments have ids below the next fresh id. *)
Definition paymentIdsIssued (s : Store) : Prop :=
  forall p, In p (payments s) -> (Payment._id p < nextId s)%nat.

(** The refund document [processRefund] stores on provider success. *)
Definition refundDoc (p : Payment.t) (key reference : string) (now : Date)
    (tr : TransferResult) (id : ObjectId) : Payment.t :=
  Payment.set_reconciledAt (Some now)
    (Payment.set_reconciled true
       (Payment.set_providerReference (tr_providerReference tr)
          (Payment.set_status P_SUCCESS
             (PaymentModel.fresh (Payment.loanId p) (Payment.userId p) key REFUND
                (Payment.amount p) reference P_PROCESSING None None None id)))).

(** The active sample loan after a repayment of 400 (payment id 104). *)
Definition sample_repaid : Store :=
  fst (PaymentService.processRepayment
         (PaymentService.mkRepaymentInput 100 7 400 "key-1") "PAY-1" 6
         Sample.active).

(** The active sample loan with a manual proof of 1037.50 awaiting
    verification (payment id 104). *)
Definition sample_submitted : Store :=
  fst (PaymentService.submitManualRepayment
         (PaymentService.mkRepaymentInput 100 7 (103750 # 100) "key-m")
         (Some "bank transfer") None None "MAN-1" Sample.active).

(** A history entry into [COMPLETED]. *)
Definition completes (h : IStatusChange) : bool :=
  LoanStatus_eqb (toStatus h) COMPLETED.

(** The refund document [refundOverpayment] stores on provider success. *)
Definition overpaymentRefundDoc (p : Payment.t) (input : PaymentService.RefundInput)
    (refundAmount : Q) (reference : string) (now : Date) (tr : TransferResult)
    (id : ObjectId) : Payment.t :=
  Payment.set_verifiedAt (Some now)
    (Payment.set_verifiedBy (Some (PaymentService.rf_adminId input))
       (Payment.set_reconciledAt (Some now)
          (Payment.set_reconciled true
             (Payment.set_providerReference (tr_providerReference tr)
                (Payment.set_status P_SUCCESS
                   (PaymentModel.fresh (Payment.loanId p) (Payment.userId p)
                      (PaymentService.rf_idempotencyKey input) REFUND refundAmount
                      reference P_PROCESSING
                      (Some (PaymentService.reasonOrDefault
                               (PaymentService.rf_reason input)))
                      None None id)))))).

(** The active sample loan after a repayment of 1100 that overpays its
    balance of 1037.50 by 62.50 (payment id 104). *)
Definition sample_overpaid : Store :=
  fst (PaymentService.processRepayment
         (PaymentService.mkRepaymentInput 100 7 1100 "key-o") "PAY-9" 6
         Sample.active).

(* ================================================================== *)
(** * The repayment, effect by effect *)
(* ================================================================== *)

(** The unpaid part of an installment, as the allocation loop computes it. *)
Definition dueOn (x : Schedule.t) : Q :=
  roundToTwoDecimals (Schedule.totalAmount x - Schedule.paidAmount x).

(** [docs] saved one after the other into a collection of installments. *)
Definition saveAll (docs : list Schedule.t) (stored : list Schedule.t)
    : list Schedule.t :=
  fold_left
    (fun acc d => fst (updateFirst (has_id_schedule (Schedule._id d))
                         (fun _ => d) acc))
    docs stored.

(** An installment after its whole unpaid part has been applied. *)
Definition paidOff (now : Date) (x : Schedule.t) : Schedule.t :=
  Schedule.set_paidAt (Some now)
    (Schedule.set_status S_PAID
       (Schedule.set_paidAmount
          (roundToTwoDecimals (Schedule.paidAmount x + dueOn x)) x)).

(** The amount left after paying off every installment of a list. *)
Fixpoint leftAfter (l : list Schedule.t) (remaining : Q) : Q :=
  match l with
  | [] => remaining
  | x :: rest => leftAfter rest (roundToTwoDecimals (remaining - dueOn x))
  end.

Definition allocationOf (x : Schedule.t) : PaymentService.Allocation :=
  PaymentService.mkAlloc (Schedule._id x) (Schedule.installmentNumber x) (dueOn x).

(** An installment still to be paid, in whole cents. *)
Definition owing (x : Schedule.t) : Prop :=
  is_cents (Schedule.totalAmount x) /\ is_cents (Schedule.paidAmount x)
  /\ Schedule.paidAmount x < Schedule.totalAmount x.

(** Stored installments have different ids. *)
Definition scheduleIdsDistinct (s : Store) : Prop :=
  NoDup (map Schedule._id (schedules s)).

(** The installments a repayment of [loanId] walks through. *)
Definition outstandingSchedules (loanId : ObjectId) (s : Store) : list Schedule.t :=
  sort_by Schedule.installmentNumber
    (filter (PaymentService.outstandingOf loanId) (schedules s)).

(** The loan after the balance update of a repayment. *)
Definition afterCAS (newTotalRepaid newOutstandingBalance : Q) (l : Loan.t)
    : Loan.t :=
  Loan.set_v (S (Loan.__v l))
    (Loan.set_outstandingBalance newOutstandingBalance
       (Loan.set_totalRepaid newTotalRepaid l)).

(** The loan after the completion step of a direct repayment. *)
Definition afterCompletion (userId : ObjectId) (now : Date) (l : Loan.t) : Loan.t :=
  Loan.set_v (S (Loan.__v l))
    (DisbursementService.pushHistory
       (mkStatusChange (Some ACTIVE) COMPLETED None userId now)
       (Loan.set_status COMPLETED l)).

(** The unpaid amount of an installment. *)
Definition unpaid (x : Schedule.t) : Q :=
  Schedule.totalAmount x - Schedule.paidAmount x.

(** Decidable forms of [is_cents] and [owing]. *)
Definition is_centsb (x : Q) : bool := Qeq_bool (roundToTwoDecimals x) x.

Definition owingb (x : Schedule.t) : bool :=
  is_centsb (Schedule.totalAmount x) && is_centsb (Schedule.paidAmount x)
  && negb (Qle_bool (Schedule.totalAmount x) (Schedule.paidAmount x)).

(** An invariant on every stored loan. *)
Definition onLoans (P : Loan.t -> Prop) (s : Store) : Prop :=
  Forall P s.(loans).

(* PART-I-END *)

(* ================================================================== *)
(** * Properties *)
(* ================================================================== *)

(* ------------------------------------------------------------------ *)
(** ** Facts about rounding *)

Lemma is_cents_inject (z : Z) : is_cents (inject_Z z / 100).
Proof. exists z; reflexivity. Qed.

Lemma is_cents_plus x y : is_cents x -> is_cents y -> is_cents (x + y).
Proof.
  intros [a Ha] [b Hb]. exists (a + b)%Z.
  rewrite Ha, Hb, inject_Z_plus. field.
Qed.

Lemma is_cents_minus x y : is_cents x -> is_cents y -> is_cents (x - y).
Proof.
  intros [a Ha] [b Hb]. exists (a - b)%Z.
  rewrite Ha, Hb. unfold Z.sub. rewrite inject_Z_plus, inject_Z_opp. field.
Qed.

Lemma is_cents_0 : is_cents 0.
Proof. exists 0%Z. reflexivity. Qed.


#[global] Instance is_cents_compat : Proper (Qeq ==> iff) is_cents.
Proof.
  intros x y Hxy. unfold is_cents. split; intros [z Hz]; exists z.
  - rewrite <- Hxy; exact Hz.
  - rewrite Hxy; exact Hz.
Qed.

#[global] Instance Math_round_compat : Proper (Qeq ==> eq) Math_round.
Proof. intros x y Hxy. unfold Math_round. rewrite Hxy. reflexivity. Qed.

#[global] Instance roundToTwoDecimals_compat : Proper (Qeq ==> Qeq) roundToTwoDecimals.
Proof. intros x y Hxy. unfold roundToTwoDecimals. rewrite Hxy. reflexivity. Qed.

Lemma Math_round_Z (z : Z) : Math_round (inject_Z z) = z.
Proof.
  unfold Math_round.
  assert (Hlo : inject_Z z <= inject_Z z + (1 # 2)) by lra.
  assert (Hhi : inject_Z z + (1 # 2) < inject_Z (z + 1)).
  { rewrite inject_Z_plus. change (inject_Z 1) with 1. lra. }
  pose proof (Qfloor_le (inject_Z z + (1 # 2))) as H1.
  pose proof (Qlt_floor (inject_Z z + (1 # 2))) as H2.
  assert (A : (Qfloor (inject_Z z + (1 # 2)) < z + 1)%Z).
  { rewrite Zlt_Qlt. lra. }
  assert (B : (z < Qfloor (inject_Z z + (1 # 2)) + 1)%Z).
  { rewrite Zlt_Qlt. lra. }
  lia.
Qed.

Lemma roundToTwoDecimals_cents x : is_cents x -> roundToTwoDecimals x == x.
Proof.
  intros [z Hz]. unfold roundToTwoDecimals.
  assert (E : x * 100 == inject_Z z) by (rewrite Hz; field).
  rewrite E, Math_round_Z. symmetry; exact Hz.
Qed.

Lemma roundToTwoDecimals_is_cents x : is_cents (roundToTwoDecimals x).
Proof. apply is_cents_inject. Qed.

Lemma roundToTwoDecimals_idem x :
  roundToTwoDecimals (roundToTwoDecimals x) == roundToTwoDecimals x.
Proof. apply roundToTwoDecimals_cents, roundToTwoDecimals_is_cents. Qed.


Lemma roundToTwoDecimals_nonneg x : 0 <= x -> 0 <= roundToTwoDecimals x.
Proof.
  intros Hx. unfold roundToTwoDecimals, Math_round.
  apply Qle_shift_div_l; [lra|]. rewrite Qmult_0_l.
  change 0 with (inject_Z 0). rewrite <- Zle_Qle.
  apply Qfloor_resp_le with (x := 0) (y := x * 100 + (1 # 2)).
  nra.
Qed.




(* ------------------------------------------------------------------ *)
(** ** Monetary derivation (C3) *)


Lemma roundToTwoDecimals_unfold x :
  inject_Z (Math_round (x * 100)) / 100 = roundToTwoDecimals x.
Proof. reflexivity. Qed.



(** The figures recomputed on approval, in terms of [roundToTwoDecimals]. *)
Lemma rederive_figures finalAmount loan :
  let l := LoanService.rederive finalAmount loan in
  let n := inject_Z (Z.of_nat (Loan.tenor loan)) in
  Loan.amount l = finalAmount
  /\ Loan.totalInterest l
     == roundToTwoDecimals (finalAmount * Loan.interestRate loan * (n / 12))
  /\ Loan.totalRepayable l
     == roundToTwoDecimals (finalAmount + Loan.totalInterest l)
  /\ Loan.monthlyPayment l == roundToTwoDecimals (Loan.totalRepayable l / n)
  /\ Loan.outstandingBalance l = Loan.totalRepayable l
  /\ Loan.totalRepaid l = Loan.totalRepaid loan
  /\ Loan.status l = Loan.status loan
  /\ Loan.statusHistory l = Loan.statusHistory loan.
Proof. cbn. repeat split; reflexivity. Qed.





(* ------------------------------------------------------------------ *)
(** ** Repayment schedule (C8) *)




Section ScheduleShares.

Variables (loan : Loan.t) (startDate : Date) (id : ObjectId) (n : nat).
Hypothesis Htenor : Loan.tenor loan = S n.

Let P := DisbursementService.approvedOrRequested loan.
Let I := Loan.totalInterest loan.
Let Nq := inject_Z (Z.of_nat (S n)).
Let pp := roundToTwoDecimals (P / Nq).
Let ip := roundToTwoDecimals (I / Nq).


(** The last installment. *)
Let final : Schedule.t :=
  let principal := roundToTwoDecimals (P - pp * inject_Z (Z.of_nat n)) in
  let interest := roundToTwoDecimals (I - ip * inject_Z (Z.of_nat n)) in
  Schedule.mk id (Loan._id loan) (S n) (startDate, S n) principal interest
    (roundToTwoDecimals (principal + interest)) 0 S_PENDING None.


End ScheduleShares.




(* ------------------------------------------------------------------ *)
(** ** Reasoning about service computations *)

Lemma triple_ret {A} Inv (a : A) (Post : A -> Prop) :
  Post a -> triple Inv (ret a) Post.
Proof.
  intros H s Hs. split; [exact Hs|].
  intros a' E. cbn in E. injection E as <-. exact H.
Qed.

Lemma triple_throw {A} Inv e (Post : A -> Prop) : triple Inv (throw e) Post.
Proof. intros s Hs. split; [exact Hs|]. intros a E. discriminate E. Qed.

Lemma triple_bind {A B} Inv (m : M A) (k : A -> M B) Mid Post :
  triple Inv m Mid ->
  (forall a, Mid a -> triple Inv (k a) Post) ->
  triple Inv (bind m k) Post.
Proof.
  intros Hm Hk s Hs. destruct (Hm s Hs) as [I1 Q1].
  unfold bind. destruct (m s) as [s1 [a|e]]; cbn in *.
  - apply (Hk a (Q1 a eq_refl) s1 I1).
  - split; [exact I1|]. intros a E; discriminate E.
Qed.

Lemma triple_weaken {A} Inv (m : M A) (Mid Post : A -> Prop) :
  triple Inv m Mid -> (forall a, Mid a -> Post a) -> triple Inv m Post.
Proof.
  intros Hm Hw s Hs. destruct (Hm s Hs) as [I1 Q1].
  split; [exact I1|]. intros a E. apply Hw, Q1, E.
Qed.

Lemma triple_try_catch {A} Inv (m : M A) (h : AppError -> M A) Post :
  triple Inv m Post -> (forall e, triple Inv (h e) Post) ->
  triple Inv (try_catch m h) Post.
Proof.
  intros Hm Hh s Hs. destruct (Hm s Hs) as [I1 Q1].
  unfold try_catch. destruct (m s) as [s1 [a|e]]; cbn in *.
  - split; [exact I1|]. intros a' E. apply Q1. exact E.
  - apply (Hh e s1 I1).
Qed.

Lemma triple_lift {A} Inv (r : Result A) (Post : A -> Prop) :
  (forall a, r = Ok a -> Post a) -> triple Inv (LoanService.lift r) Post.
Proof. intros H s Hs. split; [exact Hs|]. exact H. Qed.

Lemma triple_modify Inv (f : Store -> Store) :
  (forall s, Inv s -> Inv (f s)) -> triple Inv (modify f) (fun _ => True).
Proof. intros H s Hs. split; [apply H, Hs|]. intros; exact I. Qed.

(** A computation that leaves the loans alone keeps any invariant on
    loans. *)
Lemma triple_frame {A} P (m : M A) :
  (forall s, loans (fst (m s)) = loans s) ->
  triple (onLoans P) m (fun _ => True).
Proof.
  intros H s Hs. split; [|intros; exact I].
  unfold onLoans in *. rewrite H. exact Hs.
Qed.

(** *** The first match of [updateFirst] *)

Lemma find_split {A} (f : A -> bool) (l : list A) (x : A) :
  find f l = Some x ->
  exists l1 l2, l = l1 ++ x :: l2 /\ f x = true
                /\ forall y, In y l1 -> f y = false.
Proof.
  induction l as [|y l IH]; [discriminate|].
  cbn [find]. destruct (f y) eqn:E.
  - intros [= <-]. exists [], l. repeat split; [exact E|]. intros z [].
  - intros H. destruct (IH H) as (l1 & l2 & -> & Hx & Hl1).
    exists (y :: l1), l2. repeat split; [exact Hx|].
    intros z [<-|Hz]; [exact E|apply Hl1, Hz].
Qed.

Lemma find_first {A} (f : A -> bool) (l1 l2 : list A) (x : A) :
  (forall y, In y l1 -> f y = false) -> f x = true ->
  find f (l1 ++ x :: l2) = Some x.
Proof.
  intros H Hx. induction l1 as [|y l1 IH]; cbn [app find].
  - rewrite Hx. reflexivity.
  - rewrite (H y) by (left; reflexivity). apply IH.
    intros z Hz. apply H. right. exact Hz.
Qed.

Lemma find_skip {A} (f : A -> bool) (l1 l2 : list A) (x : A) :
  (forall y, In y l1 -> f y = false) -> f x = false ->
  find f (l1 ++ x :: l2) = find f (l1 ++ l2).
Proof.
  intros H Hx. induction l1 as [|y l1 IH]; cbn [app find].
  - rewrite Hx. reflexivity.
  - rewrite (H y) by (left; reflexivity). apply IH.
    intros z Hz. apply H. right. exact Hz.
Qed.

Lemma updateFirst_first {A} (f : A -> bool) (u : A -> A) (l1 l2 : list A) x :
  (forall y, In y l1 -> f y = false) -> f x = true ->
  updateFirst f u (l1 ++ x :: l2) = (l1 ++ u x :: l2, Some (u x)).
Proof.
  intros H Hx. induction l1 as [|y l1 IH]; cbn [app updateFirst].
  - rewrite Hx. reflexivity.
  - rewrite (H y) by (left; reflexivity).
    rewrite IH by (intros z Hz; apply H; right; exact Hz). reflexivity.
Qed.

Lemma updateFirst_none {A} (f : A -> bool) (u : A -> A) (l : list A) :
  find f l = None -> updateFirst f u l = (l, None).
Proof.
  induction l as [|y l IH]; [reflexivity|].
  cbn [find updateFirst]. destruct (f y); [discriminate|].
  intros H. rewrite (IH H). reflexivity.
Qed.

(** [updateFirst] in terms of [find]. *)
Lemma updateFirst_spec {A} (f : A -> bool) (u : A -> A) (l : list A) :
  match find f l with
  | Some x =>
      exists l1 l2, l = l1 ++ x :: l2 /\ f x = true
        /\ (forall y, In y l1 -> f y = false)
        /\ updateFirst f u l = (l1 ++ u x :: l2, Some (u x))
  | None => updateFirst f u l = (l, None)
  end.
Proof.
  destruct (find f l) as [x|] eqn:E.
  - destruct (find_split f l x E) as (l1 & l2 & -> & Hx & Hl1).
    exists l1, l2. repeat split; try assumption.
    apply updateFirst_first; assumption.
  - apply updateFirst_none, E.
Qed.

Lemma updateFirst_Forall {A} (P : A -> Prop) (f : A -> bool) (u : A -> A) l :
  Forall P l -> (forall x, P x -> f x = true -> P (u x)) ->
  Forall P (fst (updateFirst f u l))
  /\ (forall d, snd (updateFirst f u l) = Some d -> P d).
Proof.
  intros Hl Hu. pose proof (updateFirst_spec f u l) as S.
  destruct (find f l) as [x|].
  - destruct S as (l1 & l2 & -> & Hx & _ & ->). cbn [fst snd].
    apply Forall_app in Hl. destruct Hl as [H1 H2].
    inversion H2; subst.
    split.
    + apply Forall_app. split; [exact H1|]. constructor; [|assumption].
      apply Hu; assumption.
    + intros d [= <-]. apply Hu; assumption.
  - rewrite S. cbn. split; [exact Hl|]. intros d E; discriminate E.
Qed.

Lemma find_Forall {A} (P : A -> Prop) (f : A -> bool) l x :
  Forall P l -> find f l = Some x -> P x /\ f x = true.
Proof.
  intros Hl E. destruct (find_some _ _ E) as [Hin Hf].
  split; [|exact Hf]. rewrite Forall_forall in Hl. apply Hl, Hin.
Qed.

(** *** Triples of the collection operations, for an invariant on loans *)

Section LoanInvariant.

Variable P : Loan.t -> Prop.
Let Inv := onLoans P.

Lemma triple_Loan_findOne f :
  triple Inv (LoanModel.findOne f)
    (fun o => forall l, o = Some l -> P l /\ f l = true).
Proof.
  intros s Hs. split; [exact Hs|]. cbn. intros o [= <-] l E.
  eapply find_Forall; eassumption.
Qed.

Lemma triple_Loan_findById id :
  triple Inv (LoanModel.findById id)
    (fun o => forall l, o = Some l -> P l /\ has_id_loan id l = true).
Proof. apply triple_Loan_findOne. Qed.

Lemma triple_Loan_findOneAndUpdate f u :
  (forall l, P l -> f l = true -> P (u l)) ->
  triple Inv (LoanModel.findOneAndUpdate f u)
    (fun o => forall l, o = Some l -> P l).
Proof.
  intros Hu s Hs. unfold LoanModel.findOneAndUpdate.
  destruct (updateFirst_Forall P f u (loans s) Hs Hu) as [H1 H2].
  destruct (updateFirst f u (loans s)) as [ls r]. cbn in *.
  split; [exact H1|]. intros o [= <-] l ->. apply H2. reflexivity.
Qed.

Lemma triple_Loan_findByIdAndUpdate id u :
  (forall l, P l -> P (u l)) ->
  triple Inv (LoanModel.findByIdAndUpdate id u)
    (fun o => forall l, o = Some l -> P l).
Proof. intros H. apply triple_Loan_findOneAndUpdate. intros l Hl _. apply H, Hl. Qed.

Lemma triple_Loan_save doc :
  P (Loan.set_v (S (Loan.__v doc)) doc) ->
  triple Inv (LoanModel.save doc) P.
Proof.
  intros Hd s Hs. unfold LoanModel.save.
  destruct (negb (LoanModel.validate doc)).
  { split; [exact Hs|]. intros a E; discriminate E. }
  match goal with |- context [updateFirst ?f ?u ?l] =>
    destruct (updateFirst_Forall P f u l Hs (fun _ _ _ => Hd)) as [H1 H2];
    destruct (updateFirst f u l) as [ls [d|]] end; cbn in *.
  - split; [exact H1|]. intros a [= <-]. apply H2. reflexivity.
  - split; [exact Hs|]. intros a E; discriminate E.
Qed.

Lemma triple_Loan_create userId amount tenor purpose bank gen now :
  (forall doc, Loan.statusHistory doc = [] -> Loan.status doc = PENDING ->
               P (LoanModel.preSave_isNew gen now doc)) ->
  triple Inv (LoanModel.create userId amount tenor purpose bank gen now) P.
Proof.
  intros Hd s Hs. unfold LoanModel.create, bind, newObjectId, throw.
  match goal with |- context [negb (LoanModel.validate ?d)] =>
    set (doc0 := d); destruct (negb (LoanModel.validate doc0)) end.
  { split; [exact Hs|]. intros a E; discriminate E. }
  cbv beta iota.
  match goal with |- context [existsb ?f ?l] => destruct (existsb f l) end.
  { split; [exact Hs|]. intros a E; discriminate E. }
  cbn [fst snd]. split.
  - unfold Inv, onLoans. cbn [loans set_loans set_nextId].
    apply Forall_app. split; [exact Hs|].
    constructor; [|constructor]. apply Hd; reflexivity.
  - intros a [= <-]. apply Hd; reflexivity.
Qed.

Lemma triple_newObjectId : triple Inv newObjectId (fun _ => True).
Proof. apply triple_frame. reflexivity. Qed.

Lemma triple_Schedule_find f :
  triple Inv (ScheduleModel.find_sorted f) (fun _ => True).
Proof. apply triple_frame. reflexivity. Qed.

Lemma triple_Schedule_save d :
  triple Inv (ScheduleModel.save d) (fun _ => True).
Proof. apply triple_frame. reflexivity. Qed.

Lemma triple_Schedule_insertOne d :
  triple Inv (ScheduleModel.insertOne d) (fun _ => True).
Proof.
  apply triple_frame. intros s.
  unfold ScheduleModel.insertOne, bind, newObjectId. cbv beta iota.
  match goal with |- context [existsb ?f ?l] => destruct (existsb f l) end;
    reflexivity.
Qed.

Lemma triple_Schedule_insertMany ds :
  triple Inv (ScheduleModel.insertMany ds) (fun _ => True).
Proof.
  induction ds as [|d ds IH]; cbn [ScheduleModel.insertMany].
  - apply triple_ret. exact I.
  - eapply triple_bind; [apply triple_Schedule_insertOne|]. intros _ _. exact IH.
Qed.

Lemma triple_Payment_findOne f :
  triple Inv (PaymentModel.findOne f) (fun _ => True).
Proof. apply triple_frame. reflexivity. Qed.

Lemma triple_Payment_findById id :
  triple Inv (PaymentModel.findById id) (fun _ => True).
Proof. apply triple_frame. reflexivity. Qed.

Lemma triple_Payment_save d :
  triple Inv (PaymentModel.save d) (fun _ => True).
Proof. apply triple_frame. reflexivity. Qed.

Lemma triple_Payment_create d :
  triple Inv (PaymentModel.create d) (fun _ => True).
Proof.
  apply triple_frame. intros s.
  unfold PaymentModel.create, bind, newObjectId, throw. cbv beta iota.
  destruct (Qgtb 0 _); [reflexivity|].
  match goal with |- context [existsb ?f ?l] => destruct (existsb f l) end;
    reflexivity.
Qed.

Lemma triple_User_findById id :
  triple Inv (UserModel.findById id) (fun _ => True).
Proof. apply triple_frame. reflexivity. Qed.

Lemma triple_allocate now scheds remaining allocs :
  triple Inv (PaymentService.allocate now scheds remaining allocs)
    (fun _ => True).
Proof.
  revert remaining allocs.
  induction scheds as [|x xs IH]; intros remaining allocs;
    cbn [PaymentService.allocate].
  - apply triple_ret. exact I.
  - destruct (Qle_bool remaining 0); [apply triple_ret; exact I|].
    destruct (Qgtb _ 0); [|apply IH].
    eapply triple_bind; [apply triple_Schedule_save|]. intros _ _. apply IH.
Qed.

End LoanInvariant.

(* ------------------------------------------------------------------ *)
(** ** The state machine and the recorded history (C1) *)

Ltac triple_prim :=
  first
    [ apply triple_Loan_findById
    | apply triple_Loan_findOne
    | apply triple_newObjectId
    | apply triple_Schedule_find
    | apply triple_Schedule_save
    | apply triple_Schedule_insertMany
    | apply triple_Payment_findOne
    | apply triple_Payment_findById
    | apply triple_Payment_save
    | apply triple_Payment_create
    | apply triple_User_findById
    | apply triple_allocate
    | apply triple_throw
    | apply triple_ret; exact I
    | idtac ].

Ltac triple_step :=
  lazymatch goal with
  | |- triple _ (bind (match _ with _ => _ end) _) _ =>
      eapply (triple_bind _ _ _ (fun _ => True)); [|intros ? _]
  | |- triple _ (bind _ _) _ => eapply triple_bind; [triple_prim|intros ? ?]
  | |- triple _ (ret _) _ => apply triple_ret; try exact I
  | |- triple _ (throw _) _ => apply triple_throw
  | |- triple _ (let '(_, _) := ?r in _) _ => destruct r
  | |- triple _ (match ?x with _ => _ end) _ => destruct x eqn:?
  end.

Lemma legal_iff_table f t : legal f t = LoanModel.isValidTransition f t.
Proof. destruct f, t; reflexivity. Qed.

Lemma history_ok_push h l :
  history_ok l -> recordable h = true ->
  history_ok (DisbursementService.pushHistory h l).
Proof.
  intros Hl Hh. unfold history_ok, DisbursementService.pushHistory. cbn.
  apply Forall_app. split; [exact Hl|]. constructor; [exact Hh|constructor].
Qed.

Lemma history_ok_same l l' :
  Loan.statusHistory l' = Loan.statusHistory l -> history_ok l -> history_ok l'.
Proof. unfold history_ok. intros ->. trivial. Qed.

Lemma transitionTo_Ok l newStatus by_ why now l' :
  LoanModel.transitionTo l newStatus by_ why now = Ok l' ->
  legal (Loan.status l) newStatus = true
  /\ Loan.status l' = newStatus
  /\ Loan.statusHistory l'
     = Loan.statusHistory l
       ++ [mkStatusChange (Some (Loan.status l)) newStatus why by_ now].
Proof.
  unfold LoanModel.transitionTo. rewrite legal_iff_table.
  unfold LoanModel.isValidTransition.
  destruct (LoanModel.includes _ _); cbn [negb]; [|discriminate].
  intros [= <-]. repeat split.
Qed.

Lemma transitionTo_history_ok l newStatus by_ why now l' :
  LoanModel.transitionTo l newStatus by_ why now = Ok l' ->
  history_ok l -> history_ok l'.
Proof.
  intros H Hl. destruct (transitionTo_Ok _ _ _ _ _ _ H) as (Hleg & _ & Hh).
  unfold history_ok. rewrite Hh. apply Forall_app. split; [exact Hl|].
  constructor; [|constructor]. unfold recordable. cbn. rewrite Hleg. reflexivity.
Qed.

Lemma preSave_history_ok gen now doc :
  Loan.statusHistory doc = [] -> history_ok (LoanModel.preSave_isNew gen now doc).
Proof.
  intros H. unfold history_ok, LoanModel.preSave_isNew.
  destruct (String.eqb _ _); cbn; rewrite H; repeat constructor.
Qed.

Section HistoryInvariant.

Let Inv := onLoans history_ok.

Lemma createLoan_history u a t p b g now :
  triple Inv (LoanService.createLoan u a t p b g now) (fun _ => True).
Proof.
  unfold LoanService.createLoan. repeat triple_step.
  eapply triple_weaken; [apply triple_Loan_create|trivial].
  intros doc Hh _. apply preSave_history_ok, Hh.
Qed.

Lemma startReview_history l a now :
  triple Inv (LoanService.startReview l a now) (fun _ => True).
Proof.
  unfold LoanService.startReview. repeat triple_step.
  - apply triple_lift. intros x Hx. refine (transitionTo_history_ok _ _ _ _ _ _ Hx _).
    match goal with H : forall _, Some _ = Some _ -> _ |- _ =>
      apply (H _ eq_refl) end.
  - eapply triple_weaken; [apply triple_Loan_save|trivial].
    eapply history_ok_same; [|eassumption]. reflexivity.
Qed.

Lemma approveLoan_history l a amt c now :
  triple Inv (LoanService.approveLoan l a amt c now) (fun _ => True).
Proof.
  unfold LoanService.approveLoan. repeat triple_step.
  - apply triple_lift. intros x Hx. refine (transitionTo_history_ok _ _ _ _ _ _ Hx _).
    match goal with H : forall _, Some _ = Some _ -> _ |- _ =>
      apply (H _ eq_refl) end.
  - eapply triple_weaken; [apply triple_Loan_save|trivial].
    eapply history_ok_same; [|eassumption].
    destruct (negb (Qeq_bool _ _)); reflexivity.
Qed.

Lemma rejectLoan_history l a why now :
  triple Inv (LoanService.rejectLoan l a why now) (fun _ => True).
Proof.
  unfold LoanService.rejectLoan. repeat triple_step.
  - apply triple_lift. intros x Hx. refine (transitionTo_history_ok _ _ _ _ _ _ Hx _).
    match goal with H : forall _, Some _ = Some _ -> _ |- _ =>
      apply (H _ eq_refl) end.
  - eapply triple_weaken; [apply triple_Loan_save|trivial].
    eapply history_ok_same; [|eassumption]. reflexivity.
Qed.

Lemma disburseLoan_history l a ref now tr :
  triple Inv (DisbursementService.disburseLoan l a ref now tr) (fun _ => True).
Proof.
  unfold DisbursementService.disburseLoan, DisbursementService.generateRepaymentSchedule.
  repeat triple_step.
  all: try (apply triple_frame; reflexivity).
  all: eapply triple_weaken; [|intros; exact I].
  all: first
    [ apply triple_Loan_findOneAndUpdate; intros x Hx _
    | apply triple_Loan_findByIdAndUpdate; intros x Hx ].
  all: apply history_ok_push; [|reflexivity].
  all: eapply history_ok_same; [|exact Hx]; reflexivity.
Qed.

End HistoryInvariant.

Ltac triple_go :=
  repeat first
    [ triple_step
    | lazymatch goal with
      | |- triple _ (try_catch _ _) _ => apply triple_try_catch; [|intros ?]
      end ].

Section HistoryInvariantPayments.

Let Inv := onLoans history_ok.

Lemma balanceCAS_history id v a b :
  triple Inv (PaymentService.balanceCAS id v a b)
    (fun o => forall l, o = Some l -> history_ok l).
Proof.
  apply triple_Loan_findOneAndUpdate. intros x Hx _.
  eapply history_ok_same; [|exact Hx]. reflexivity.
Qed.

Ltac from_found :=
  match goal with
  | H : _ |- _ => exact (H _ eq_refl)
  | H : _ |- _ => exact (proj1 (H _ eq_refl))
  end.

Lemma processRepayment_with_history others input ref now :
  (forall s, Inv s -> Inv (others s)) ->
  triple Inv (PaymentService.processRepayment_with others input ref now)
    (fun _ => True).
Proof.
  intros Hothers. unfold PaymentService.processRepayment_with. triple_go.
  all: try (apply triple_modify; exact Hothers).
  all: try apply balanceCAS_history.
  eapply triple_weaken; [|intros; exact I].
  apply triple_Loan_save. apply history_ok_push; [|reflexivity].
  from_found.
Qed.

Lemma processRefund_history input ref now tr :
  triple Inv (PaymentService.processRefund input ref now tr) (fun _ => True).
Proof.
  unfold PaymentService.processRefund. triple_go.
  all: try (eapply triple_bind; [|intros ? ?; apply triple_ret; exact I]).
  all: try (apply triple_Loan_findByIdAndUpdate; intros x Hx;
            eapply history_ok_same; [|exact Hx]; reflexivity).
  all: try (apply triple_ret; exact I).
Qed.

Lemma refundOverpayment_history input ref now tr :
  triple Inv (PaymentService.refundOverpayment input ref now tr) (fun _ => True).
Proof.
  unfold PaymentService.refundOverpayment. triple_go.
  all: try (apply triple_lift; intros; exact I).
  all: try (eapply triple_bind; [apply triple_Payment_save
                                |intros ? ?; apply triple_ret; exact I]).
  all: try (apply triple_ret; exact I).
Qed.

Lemma submitManualRepayment_history input p e m ref :
  triple Inv (PaymentService.submitManualRepayment input p e m ref)
    (fun _ => True).
Proof.
  unfold PaymentService.submitManualRepayment. triple_go.
  eapply triple_weaken; [apply triple_Payment_create|trivial].
Qed.

Lemma verifyRepayment_history p a ok why now :
  triple Inv (PaymentService.verifyRepayment p a ok why now) (fun _ => True).
Proof.
  unfold PaymentService.verifyRepayment. triple_go.
  all: try apply balanceCAS_history.
  eapply triple_weaken; [|intros; exact I].
  apply triple_Loan_save. from_found.
Qed.

End HistoryInvariantPayments.

(** Every request keeps the histories recordable. *)
Lemma serve_history :
  forall r s, onLoans history_ok s -> onLoans history_ok (serve r s).
Proof.
  fix IH 1. intros r s Hs.
  destruct r; cbn [serve].
  - apply createLoan_history, Hs.
  - apply startReview_history, Hs.
  - apply approveLoan_history, Hs.
  - apply rejectLoan_history, Hs.
  - apply disburseLoan_history, Hs.
  - apply processRepayment_with_history; [|exact Hs].
    clear s Hs. induction during as [|q qs IHq]; intros s Hs; cbn [fold_left].
    + exact Hs.
    + apply IHq. apply IH. exact Hs.
  - apply processRefund_history, Hs.
  - apply refundOverpayment_history, Hs.
  - apply submitManualRepayment_history, Hs.
  - apply verifyRepayment_history, Hs.
Qed.

Lemma serveAll_history rs s :
  onLoans history_ok s -> onLoans history_ok (serveAll rs s).
Proof.
  revert s. unfold serveAll.
  induction rs as [|r rs IH]; intros s Hs; cbn [fold_left].
  - exact Hs.
  - apply IH, serve_history, Hs.
Qed.

Lemma reachable_history s : reachable s -> onLoans history_ok s.
Proof.
  intros (s0 & rs & (H0 & _) & ->). apply serveAll_history.
  unfold onLoans. rewrite H0. constructor.
Qed.

Lemma refused_reachable : reachable Sample.refused.
Proof.
  exists Sample.empty,
    [CreateLoan 7 1000 3 "tools" Sample.bank "LN-1" 1;
     StartReview 100 9 2; ApproveLoan 100 9 None None 3;
     DisburseLoan 100 9 "DSB-1" 4 Sample.failure].
  split; [split; [reflexivity|split; reflexivity]|vm_compute; reflexivity].
Qed.

(** C1, as stated, fails: after a disbursement the provider refuses, the
    history of the loan holds the pair disbursed -> approved, which is not
    in the transition table. *)
Lemma C1_counterexample :
  reachable Sample.refused
  /\ exists l h,
       In l (loans Sample.refused) /\ In h (Loan.statusHistory l)
       /\ fromStatus h = Some DISBURSED /\ toStatus h = APPROVED
       /\ LoanModel.isValidTransition DISBURSED APPROVED = false
       /\ ~ history_legal l.
Proof.
  split; [exact refused_reachable|].
  eexists; eexists.
  match goal with |- ?A /\ ?B /\ _ =>
    assert (Hl : A) by (vm_compute; left; reflexivity);
    assert (Hh : B) by (vm_compute; do 4 right; left; reflexivity)
  end.
  split; [exact Hl|]. split; [exact Hh|].
  split; [reflexivity|]. split; [reflexivity|]. split; [reflexivity|].
  intros H. specialize (H _ DISBURSED Hh eq_refl).
  vm_compute in H. discriminate H.
Qed.

(** C1 (amended): [transitionTo] succeeds exactly on the seven pairs
    pending->under_review, under_review->approved, under_review->rejected,
    approved->disbursed, disbursed->active, active->completed and
    active->defaulted, recording the pair, and fails with InvalidTransition
    on every other pair; in every reachable store each history entry is
    the creation entry (no origin, to pending), one of these seven pairs,
    or the pair disbursed->approved written by the disbursement
    compensation. *)
Theorem C1_transitions_and_history
    (l : Loan.t) (newStatus : LoanStatus) (by_ : ObjectId) (why : option string)
    (now : Date) (s : Store) (x : Loan.t) (h : IStatusChange) :
  reachable s -> In x (loans s) -> In h (Loan.statusHistory x) ->
  (forall f t, legal f t = LoanModel.isValidTransition f t)
  /\ match LoanModel.transitionTo l newStatus by_ why now with
     | Ok l' =>
         legal (Loan.status l) newStatus = true
         /\ Loan.status l' = newStatus
         /\ Loan.statusHistory l'
            = Loan.statusHistory l
              ++ [mkStatusChange (Some (Loan.status l)) newStatus why by_ now]
     | Throw e =>
         legal (Loan.status l) newStatus = false
         /\ e = InvalidStateTransitionError (Loan.status l) newStatus
     end
  /\ match fromStatus h with
     | None => toStatus h = PENDING
     | Some f =>
         legal f (toStatus h) = true \/ (f = DISBURSED /\ toStatus h = APPROVED)
     end.
Proof.
  intros Hr Hx Hh. split; [exact legal_iff_table|]. split.
  - destruct (LoanModel.transitionTo l newStatus by_ why now) as [l'|e] eqn:E.
    + apply (transitionTo_Ok _ _ _ _ _ _ E).
    + revert E. unfold LoanModel.transitionTo. rewrite legal_iff_table.
      unfold LoanModel.isValidTransition.
      destruct (LoanModel.includes _ _); cbn [negb]; [discriminate|].
      intros [= <-]. split; reflexivity.
  - pose proof (reachable_history s Hr) as Hs. unfold onLoans in Hs.
    rewrite Forall_forall in Hs. specialize (Hs x Hx).
    unfold history_ok in Hs. rewrite Forall_forall in Hs.
    specialize (Hs h Hh). unfold recordable in Hs.
    destruct (fromStatus h) as [f|].
    + apply orb_true_iff in Hs. destruct Hs as [Hs|Hs]; [left; exact Hs|right].
      apply andb_true_iff in Hs. destruct Hs as [H1 H2].
      destruct f; try discriminate H1.
      destruct (toStatus h); try discriminate H2. split; reflexivity.
    + destruct (toStatus h); try discriminate Hs. reflexivity.
Qed.

(** The compensation entry of the refused disbursement. *)
Lemma C1_transitions_and_history_witness :
  exists x h,
    reachable Sample.refused /\ In x (loans Sample.refused)
    /\ In h (Loan.statusHistory x)
    /\ fromStatus h = Some DISBURSED
    /\ (forall f t, legal f t = LoanModel.isValidTransition f t)
    /\ match LoanModel.transitionTo x DISBURSED 9 None 6 with
       | Ok l' =>
           legal (Loan.status x) DISBURSED = true
           /\ Loan.status l' = DISBURSED
           /\ Loan.statusHistory l'
              = Loan.statusHistory x
                ++ [mkStatusChange (Some (Loan.status x)) DISBURSED None 9 6]
       | Throw e =>
           legal (Loan.status x) DISBURSED = false
           /\ e = InvalidStateTransitionError (Loan.status x) DISBURSED
       end
    /\ match fromStatus h with
       | None => toStatus h = PENDING
       | Some f =>
           legal f (toStatus h) = true \/ (f = DISBURSED /\ toStatus h = APPROVED)
       end.
Proof.
  eexists; eexists.
  match goal with |- ?A /\ ?B /\ ?C /\ ?D /\ _ =>
    assert (Hr : A) by exact refused_reachable;
    assert (Hx : B) by (vm_compute; left; reflexivity);
    assert (Hh : C) by (vm_compute; do 4 right; left; reflexivity);
    assert (Hd : D) by reflexivity
  end.
  repeat (split; [assumption|]).
  match type of Hx with
  | In ?x _ =>
      exact (C1_transitions_and_history x DISBURSED 9%nat None 6%nat _ _ _
               Hr Hx Hh)
  end.
Defined.

(* ------------------------------------------------------------------ *)
(** ** Disbursement and compensation (C7) *)

Lemma has_id_loan_eq id l : has_id_loan id l = true <-> Loan._id l = id.
Proof. unfold has_id_loan. apply Nat.eqb_eq. Qed.

(** The installments built for a loan are numbered 1..tenor and carry the
    loan's id. *)
Lemma scheduleDocs_keys loan start :
  exists F : nat -> ObjectId -> Schedule.t,
    DisbursementService.scheduleDocs loan start = map F (seq 1 (Loan.tenor loan))
    /\ forall i id, Schedule.loanId (F i id) = Loan._id loan
                    /\ Schedule.installmentNumber (F i id) = i
                    /\ Schedule._id (F i id) = id
                    /\ Schedule.status (F i id) = S_PENDING
                    /\ Schedule.paidAmount (F i id) = 0.
Proof.
  unfold DisbursementService.scheduleDocs.
  eexists. split; [reflexivity|].
  intros i id. cbv beta. destruct (Nat.eqb i (Loan.tenor loan)); repeat split.
Qed.

Lemma insertMany_fresh F L nums : forall s,
  (forall i id, Schedule.loanId (F i id) = L
                /\ Schedule.installmentNumber (F i id) = i) ->
  NoDup nums ->
  (forall x, In x (schedules s) -> Schedule.loanId x = L ->
             ~ In (Schedule.installmentNumber x) nums) ->
  ScheduleModel.insertMany (map F nums) s
  = (set_schedules (schedules s ++ inserted F nums (nextId s))
       (set_nextId (nextId s + List.length nums) s), Ok tt).
Proof.
  induction nums as [|i rest IH]; intros s HF Hnd Hfresh.
  - destruct s as [ls sc ps us nx].
    cbn [map ScheduleModel.insertMany inserted List.length].
    unfold ret, set_schedules, set_nextId.
    cbn [loans schedules payments users nextId].
    rewrite app_nil_r, Nat.add_0_r. reflexivity.
  - cbn [map ScheduleModel.insertMany inserted List.length].
    unfold bind at 1. unfold ScheduleModel.insertOne, bind, newObjectId.
    cbv beta iota. cbn [schedules set_nextId].
    match goal with |- context [existsb ?f ?l] =>
      assert (E : existsb f l = false) end.
    { apply not_true_is_false. intros E. apply existsb_exists in E.
      destruct E as (x & Hx & Hk). apply andb_true_iff in Hk.
      destruct Hk as [K1 K2]. apply Nat.eqb_eq in K1, K2.
      destruct (HF i (nextId s)) as [F1 F2]. rewrite F1 in K1. rewrite F2 in K2.
      apply (Hfresh x Hx K1). left. symmetry. exact K2. }
    rewrite E. inversion Hnd as [|? ? Hni Hnd']; subst.
    rewrite IH; [|exact HF|exact Hnd'|].
    + destruct s as [ls sc ps us nx].
      unfold set_schedules, set_nextId.
      cbn [loans schedules payments users nextId].
      rewrite <- app_assoc. cbn [app].
      replace (S nx + List.length rest)%nat
        with (nx + S (List.length rest))%nat by lia.
      reflexivity.
    + cbn [schedules set_schedules set_nextId]. intros x Hx HL Hin.
      apply in_app_or in Hx. destruct Hx as [Hx|[<-|[]]].
      * apply (Hfresh x Hx HL). right. exact Hin.
      * destruct (HF i (nextId s)) as [_ F2]. rewrite F2 in Hin.
        exact (Hni Hin).
Qed.

(** *** Running a computation step by step *)

Lemma bind_ok {A B} (m : M A) (k : A -> M B) s s' a :
  m s = (s', Ok a) -> bind m k s = k a s'.
Proof. intros H. unfold bind. rewrite H. reflexivity. Qed.

Lemma bind_throw {A B} (m : M A) (k : A -> M B) s s' e :
  m s = (s', Throw e) -> bind m k s = (s', Throw e).
Proof. intros H. unfold bind. rewrite H. reflexivity. Qed.

Lemma find_split_loan id ls l0 :
  find (has_id_loan id) ls = Some l0 ->
  exists l1 l2, ls = l1 ++ l0 :: l2 /\ Loan._id l0 = id
                /\ forall y, In y l1 -> has_id_loan id y = false.
Proof.
  intros H. destruct (find_split _ _ _ H) as (l1 & l2 & E & Hx & Hl).
  exists l1, l2. repeat split; try assumption. apply has_id_loan_eq, Hx.
Qed.

Lemma Loan_findOne_eval f s l1 x l2 :
  loans s = l1 ++ x :: l2 -> (forall y, In y l1 -> f y = false) -> f x = true ->
  LoanModel.findOne f s = (s, Ok (Some x)).
Proof.
  intros E H1 H2. unfold LoanModel.findOne. rewrite E, find_first by assumption.
  reflexivity.
Qed.

Lemma Loan_findOneAndUpdate_eval f u s l1 x l2 :
  loans s = l1 ++ x :: l2 -> (forall y, In y l1 -> f y = false) -> f x = true ->
  LoanModel.findOneAndUpdate f u s
  = (set_loans (l1 ++ u x :: l2) s, Ok (Some (u x))).
Proof.
  intros E H1 H2. unfold LoanModel.findOneAndUpdate.
  rewrite E, updateFirst_first by assumption. reflexivity.
Qed.

Lemma Loan_save_eval doc s l1 x l2 :
  loans s = l1 ++ x :: l2 ->
  (forall y, In y l1 -> has_id_loan (Loan._id doc) y = false) ->
  Loan._id x = Loan._id doc -> Loan.__v x = Loan.__v doc ->
  LoanModel.validate doc = true ->
  LoanModel.save doc s
  = (set_loans (l1 ++ Loan.set_v (S (Loan.__v doc)) doc :: l2) s,
     Ok (Loan.set_v (S (Loan.__v doc)) doc)).
Proof.
  intros E H1 H2 H3 Hv. unfold LoanModel.save. rewrite Hv. cbn [negb].
  rewrite E, updateFirst_first; [reflexivity| |].
  - intros y Hy. rewrite (H1 y Hy). reflexivity.
  - unfold has_id_loan. rewrite H2, H3, !Nat.eqb_refl. reflexivity.
Qed.

Ltac run_ok tac := erewrite bind_ok by tac; cbv beta iota.

Section Disburse.

Variables (s : Store) (loanId adminId : ObjectId) (ref : string) (now : Date)
          (tr : TransferResult) (l0 : Loan.t) (bank : IBankDetails)
          (l1 l2 : list Loan.t).

Hypothesis Hloans : loans s = l1 ++ l0 :: l2.
Hypothesis Hid : Loan._id l0 = loanId.
Hypothesis Hl1 : forall y, In y l1 -> has_id_loan loanId y = false.
Hypothesis Hstatus : Loan.status l0 = APPROVED.
Hypothesis Hbank : Loan.bankDetails l0 = Some bank.
Hypothesis Hnoref : disbursementRef (Loan.disbursement l0) = None.
Hypothesis Hfree : existsb (DisbursementService.usesRef ref) (loans s) = false.

Let reserved :=
  DisbursementService.reserveUpdate ref adminId now (accountNumber bank)
    (bankDetailsCode bank) l0.

Let reservable (l : Loan.t) : bool :=
  has_id_loan loanId l && LoanStatus_eqb (Loan.status l) APPROVED
  && negb (DisbursementService.hasDisbursementRef l).

Lemma reservable_l0 : reservable l0 = true.
Proof.
  unfold reservable, DisbursementService.hasDisbursementRef.
  rewrite Hstatus, Hnoref. cbn.
  rewrite (proj2 (has_id_loan_eq loanId l0) Hid). reflexivity.
Qed.

Lemma reservable_l1 y : In y l1 -> reservable y = false.
Proof. intros Hy. unfold reservable. rewrite (Hl1 y Hy). reflexivity. Qed.

Lemma disburseLoan_refused :
  success tr = false ->
  DisbursementService.disburseLoan loanId adminId ref now tr s
  = (set_loans
       (l1 ++ DisbursementService.rollbackUpdate adminId now (tr_message tr) reserved
           :: l2) s,
     Throw (PlainAppError ("Disbursement failed: " ++ tr_message tr) 500)).
Proof.
  intros Hfail.
  assert (Hidb : has_id_loan loanId l0 = true) by (apply has_id_loan_eq, Hid).
  unfold DisbursementService.disburseLoan.
  run_ok ltac:(eapply Loan_findOne_eval; eassumption).
  rewrite Hbank.
  run_ok ltac:(reflexivity). rewrite Hfree.
  run_ok ltac:(eapply Loan_findOne_eval;
               [eassumption|exact reservable_l1|exact reservable_l0]).
  run_ok ltac:(eapply Loan_findOneAndUpdate_eval;
               [eassumption|exact reservable_l1|exact reservable_l0]).
  rewrite Hfail. cbn [negb].
  run_ok ltac:(eapply Loan_findOneAndUpdate_eval;
               [reflexivity|exact Hl1|exact Hidb]).
  unfold throw, set_loans. reflexivity.
Qed.

Lemma disburseLoan_accepted :
  success tr = true ->
  (forall x, In x (schedules s) -> Schedule.loanId x <> loanId) ->
  let committed :=
    DisbursementService.commitUpdate adminId now
      (DisbursementService.approvedOrRequested reserved)
      (tr_providerReference tr) reserved in
  exists F,
    (forall i id, Schedule.loanId (F i id) = loanId
                  /\ Schedule.installmentNumber (F i id) = i
                  /\ Schedule._id (F i id) = id
                  /\ Schedule.status (F i id) = S_PENDING
                  /\ Schedule.paidAmount (F i id) = 0)
    /\ DisbursementService.scheduleDocs committed now
        = map F (seq 1 (Loan.tenor l0))
    /\ DisbursementService.disburseLoan loanId adminId ref now tr s
       = (set_schedules
            (schedules s ++ inserted F (seq 1 (Loan.tenor l0)) (nextId s))
            (set_nextId (nextId s + Loan.tenor l0)
               (set_loans (l1 ++ committed :: l2) s)),
          Ok (DisbursementService.mkDisbursementResult committed ref
                (tr_providerReference tr)
                (DisbursementService.approvedOrRequested reserved))).
Proof.
  intros Hok Hsched committed.
  assert (Hidb : has_id_loan loanId l0 = true) by (apply has_id_loan_eq, Hid).
  destruct (scheduleDocs_keys committed now) as (F & HF & HK).
  exists F. split.
  { intros i id. destruct (HK i id) as (K1 & K2 & K3 & K4 & K5).
    repeat split; try assumption. rewrite K1. exact Hid. }
  split; [exact HF|].
  unfold DisbursementService.disburseLoan.
  run_ok ltac:(eapply Loan_findOne_eval; eassumption).
  rewrite Hbank.
  run_ok ltac:(reflexivity). rewrite Hfree.
  run_ok ltac:(eapply Loan_findOne_eval;
               [eassumption|exact reservable_l1|exact reservable_l0]).
  run_ok ltac:(eapply Loan_findOneAndUpdate_eval;
               [eassumption|exact reservable_l1|exact reservable_l0]).
  rewrite Hok. cbn [negb].
  run_ok ltac:(eapply Loan_findOneAndUpdate_eval;
               [reflexivity|exact Hl1|exact Hidb]).
  unfold DisbursementService.generateRepaymentSchedule.
  fold reserved. fold committed. rewrite HF.
  erewrite bind_ok.
  2:{ apply (insertMany_fresh F loanId).
      - intros i id. destruct (HK i id) as (K1 & K2 & _).
        split; [rewrite K1; exact Hid|exact K2].
      - apply seq_NoDup.
      - intros x Hx HL _. exact (Hsched x Hx HL). }
  cbv beta. unfold ret. rewrite length_seq.
  change (Loan.tenor committed) with (Loan.tenor l0).
  reflexivity.
Qed.

End Disburse.

Lemma existsb_replace {A} (f : A -> bool) l1 x y l2 :
  existsb f (l1 ++ x :: l2) = false -> f y = false ->
  existsb f (l1 ++ y :: l2) = false.
Proof.
  rewrite !existsb_app. cbn [existsb]. intros H Hy.
  apply orb_false_iff in H. destruct H as [H1 H2].
  apply orb_false_iff in H2. destruct H2 as [_ H2].
  rewrite H1, Hy, H2. reflexivity.
Qed.

Lemma inserted_numbers F nums next :
  (forall i id, Schedule.installmentNumber (F i id) = i) ->
  map Schedule.installmentNumber (inserted F nums next) = nums.
Proof.
  intros HF. revert next. induction nums as [|i rest IH]; intros next.
  - reflexivity.
  - cbn [inserted map]. rewrite HF, IH. reflexivity.
Qed.

Lemma inserted_Forall (P : Schedule.t -> Prop) F nums next :
  (forall i id, P (F i id)) -> Forall P (inserted F nums next).
Proof.
  intros HF. revert next. induction nums as [|i rest IH]; intros next;
    cbn [inserted]; constructor; [apply HF|apply IH].
Qed.

(** C7: when the provider refuses the transfer of an approved loan, the
    call fails with the provider's message, the loan is approved again with
    no disbursement reference, its history gains approved->disbursed and
    disbursed->approved (the latter quoting the provider's message), no
    installment is created, and a later attempt with a free reference that
    the provider accepts succeeds: the loan becomes active and its
    installments 1..tenor are created. *)
Theorem C7_disbursement_compensation
    (s : Store) (loanId adminId : ObjectId) (ref : string) (now : Date)
    (tr : TransferResult) (l0 : Loan.t) (bank : IBankDetails)
    (adminId2 : ObjectId) (ref2 : string) (now2 : Date) (tr2 : TransferResult) :
  find (has_id_loan loanId) (loans s) = Some l0 ->
  Loan.status l0 = APPROVED ->
  Loan.bankDetails l0 = Some bank ->
  disbursementRef (Loan.disbursement l0) = None ->
  existsb (DisbursementService.usesRef ref) (loans s) = false ->
  success tr = false ->
  existsb (DisbursementService.usesRef ref2) (loans s) = false ->
  success tr2 = true ->
  (forall x, In x (schedules s) -> Schedule.loanId x <> loanId) ->
  exists s1 l1',
    DisbursementService.disburseLoan loanId adminId ref now tr s
    = (s1, Throw (PlainAppError ("Disbursement failed: " ++ tr_message tr) 500))
    /\ find (has_id_loan loanId) (loans s1) = Some l1'
    /\ Loan.status l1' = APPROVED
    /\ disbursementRef (Loan.disbursement l1') = None
    /\ Loan.statusHistory l1'
       = Loan.statusHistory l0
         ++ [mkStatusChange (Some APPROVED) DISBURSED (Some "Loan disbursed")
               adminId now;
             mkStatusChange (Some DISBURSED) APPROVED
               (Some ("Disbursement failed: " ++ tr_message tr)%string)
               adminId now]
    /\ schedules s1 = schedules s
    /\ exists s2 res l2' new,
         DisbursementService.disburseLoan loanId adminId2 ref2 now2 tr2 s1
         = (s2, Ok res)
         /\ find (has_id_loan loanId) (loans s2) = Some l2'
         /\ DisbursementService.dr_loan res = l2'
         /\ Loan.status l2' = ACTIVE
         /\ disbursementRef (Loan.disbursement l2') = Some ref2
         /\ schedules s2 = schedules s ++ new
         /\ map Schedule.installmentNumber new = seq 1 (Loan.tenor l0)
         /\ Forall (fun x => Schedule.loanId x = loanId
                             /\ Schedule.status x = S_PENDING) new.
Proof.
  intros Hfind Hst Hbank Hnoref Hfree Hfail Hfree2 Hok2 Hsched.
  destruct (find_split_loan _ _ _ Hfind) as (l1 & l2 & Hloans & Hid & Hl1).
  assert (Hidb : has_id_loan loanId l0 = true) by (apply has_id_loan_eq, Hid).
  pose proof (disburseLoan_refused s loanId adminId ref now tr l0 bank l1 l2
                Hloans Hid Hl1 Hst Hbank Hnoref Hfree Hfail) as R1.
  set (rolled := DisbursementService.rollbackUpdate adminId now (tr_message tr)
                   (DisbursementService.reserveUpdate ref adminId now
                      (accountNumber bank) (bankDetailsCode bank) l0)) in *.
  set (s1 := set_loans (l1 ++ rolled :: l2) s) in *.
  exists s1, rolled.
  split; [exact R1|].
  split; [cbn [s1 loans set_loans]; apply find_first; [exact Hl1|exact Hidb]|].
  split; [reflexivity|]. split; [reflexivity|].
  split.
  { cbn. rewrite <- app_assoc. reflexivity. }
  split; [reflexivity|].
  assert (Hfree1 : existsb (DisbursementService.usesRef ref2) (loans s1) = false).
  { cbn [s1 loans set_loans]. rewrite Hloans in Hfree2.
    eapply existsb_replace; [exact Hfree2|reflexivity]. }
  destruct (disburseLoan_accepted s1 loanId adminId2 ref2 now2 tr2 rolled bank
              l1 l2 eq_refl Hid Hl1 eq_refl Hbank eq_refl Hfree1 Hok2 Hsched)
    as (F & HK & _ & R2).
  eexists; eexists; eexists; eexists.
  split; [exact R2|].
  split; [cbn [loans set_loans set_schedules set_nextId];
          apply find_first; [exact Hl1|exact Hidb]|].
  split; [reflexivity|]. split; [reflexivity|]. split; [reflexivity|].
  split; [reflexivity|].
  split.
  - apply inserted_numbers. intros i id. apply HK.
  - apply inserted_Forall. intros i id.
    destruct (HK i id) as (K1 & _ & _ & K4 & _). split; assumption.
Qed.

(** The refused and the accepted disbursement of the sample loan. *)
Lemma C7_disbursement_compensation_witness :
  exists l0 bank s1 l1',
    find (has_id_loan 100) (loans Sample.approved) = Some l0
    /\ Loan.status l0 = APPROVED
    /\ Loan.bankDetails l0 = Some bank
    /\ disbursementRef (Loan.disbursement l0) = None
    /\ existsb (DisbursementService.usesRef "DSB-1") (loans Sample.approved) = false
    /\ success Sample.failure = false
    /\ existsb (DisbursementService.usesRef "DSB-2") (loans Sample.approved) = false
    /\ success Sample.transferred = true
    /\ (forall x, In x (schedules Sample.approved) -> Schedule.loanId x <> 100%nat)
    /\ DisbursementService.disburseLoan 100 9 "DSB-1" 4 Sample.failure Sample.approved
       = (s1, Throw (PlainAppError
                       ("Disbursement failed: " ++ tr_message Sample.failure) 500))
    /\ find (has_id_loan 100) (loans s1) = Some l1'
    /\ Loan.status l1' = APPROVED
    /\ disbursementRef (Loan.disbursement l1') = None
    /\ schedules s1 = schedules Sample.approved
    /\ exists s2 res,
         DisbursementService.disburseLoan 100 9 "DSB-2" 5 Sample.transferred s1
         = (s2, Ok res)
         /\ Loan.status (DisbursementService.dr_loan res) = ACTIVE
         /\ map Schedule.installmentNumber (schedules s2) = [1; 2; 3]%nat.
Proof.
  eexists; eexists.
  match goal with |- exists s1 l1', ?A /\ ?B /\ ?C /\ ?D /\ ?E /\ ?F /\ ?G /\ ?H /\ ?J /\ _ =>
    assert (H1 : A) by (vm_compute; reflexivity);
    assert (H2 : B) by reflexivity;
    assert (H3 : C) by reflexivity;
    assert (H4 : D) by reflexivity;
    assert (H5 : E) by (vm_compute; reflexivity);
    assert (H6 : F) by reflexivity;
    assert (H7 : G) by (vm_compute; reflexivity);
    assert (H8 : H) by reflexivity;
    assert (H9 : J) by (vm_compute; intros x [])
  end.
  destruct (C7_disbursement_compensation _ _ 9%nat "DSB-1" 4%nat _ _ _
              9%nat "DSB-2" 5%nat _ H1 H2 H3 H4 H5 H6 H7 H8 H9)
    as (s1 & l1' & R1 & F1 & S1 & N1 & _ & Sch1 & s2 & res & l2' & new
        & R2 & _ & L2 & S2 & _ & Sch2 & Nums & _).
  exists s1, l1'.
  repeat (split; [assumption|]).
  exists s2, res.
  split; [exact R2|]. split; [rewrite L2; exact S2|].
  rewrite Sch2, map_app, Nums.
  replace (schedules Sample.approved) with (@nil Schedule.t)
    by (vm_compute; reflexivity).
  reflexivity.
Defined.

(* ------------------------------------------------------------------ *)
(** ** Refunds (C6, C9, C10) *)

Lemma has_id_payment_eq id p : has_id_payment id p = true <-> Payment._id p = id.
Proof. unfold has_id_payment. apply Nat.eqb_eq. Qed.

Lemma existsb_false_find {A} (f g : A -> bool) l :
  existsb f l = false -> (forall x, g x = true -> f x = true) -> find g l = None.
Proof.
  intros H Hfg. induction l as [|x l IH]; [reflexivity|].
  cbn [existsb] in H. apply orb_false_iff in H. destruct H as [H1 H2].
  cbn [find]. destruct (g x) eqn:E.
  - rewrite (Hfg x E) in H1. discriminate H1.
  - apply IH, H2.
Qed.

Lemma unusedPayment_key key reference s :
  unusedPayment key reference s ->
  find (PaymentModel.byKey key) (payments s) = None.
Proof.
  intros H. eapply existsb_false_find; [exact H|].
  intros x Hx. unfold PaymentModel.byKey in Hx. cbv beta. rewrite Hx. reflexivity.
Qed.

Lemma Payment_create_eval loanId userId key type amount reference status
    proofOfPayment evidenceUrl manualProof s :
  0 <= amount -> unusedPayment key reference s ->
  let doc := PaymentModel.fresh loanId userId key type amount reference status
               proofOfPayment evidenceUrl manualProof (nextId s) in
  PaymentModel.create
    (PaymentModel.fresh loanId userId key type amount reference status
       proofOfPayment evidenceUrl manualProof) s
  = (set_payments (payments s ++ [doc]) (set_nextId (S (nextId s)) s), Ok doc).
Proof.
  intros Hamt Hun doc. subst doc.
  unfold PaymentModel.create, bind, newObjectId, PaymentModel.fresh.
  cbv beta iota. cbn [Payment.amount].
  replace (Qgtb 0 amount) with false.
  2:{ symmetry. unfold Qgtb. apply negb_false_iff, Qle_bool_iff, Hamt. }
  cbn [payments set_nextId Payment.idempotencyKey Payment.reference].
  unfold unusedPayment in Hun. rewrite Hun. reflexivity.
Qed.

Lemma Payment_save_last doc ps s :
  payments s = ps ++ [doc] ->
  (forall y, In y ps -> has_id_payment (Payment._id doc) y = false) ->
  forall doc', Payment._id doc' = Payment._id doc ->
  PaymentModel.save doc' s = (set_payments (ps ++ [doc']) s, Ok tt).
Proof.
  intros E H doc' Hid. unfold PaymentModel.save. rewrite E, Hid.
  rewrite updateFirst_first; [reflexivity|exact H|].
  apply has_id_payment_eq. reflexivity.
Qed.

Lemma Payment_save_eval ps1 x ps2 s doc :
  payments s = ps1 ++ x :: ps2 ->
  (forall y, In y ps1 -> has_id_payment (Payment._id doc) y = false) ->
  Payment._id x = Payment._id doc ->
  PaymentModel.save doc s = (set_payments (ps1 ++ doc :: ps2) s, Ok tt).
Proof.
  intros E H Hid. unfold PaymentModel.save. rewrite E.
  rewrite updateFirst_first; [reflexivity|exact H|].
  apply has_id_payment_eq. exact Hid.
Qed.

Lemma issued_not_next s :
  paymentIdsIssued s ->
  forall y, In y (payments s) -> has_id_payment (nextId s) y = false.
Proof.
  intros H y Hy. unfold has_id_payment. apply Nat.eqb_neq.
  specialize (H y Hy). lia.
Qed.

(** [processRefund] on a successful payment, with a fresh key and
    reference and a provider that accepts the transfer. *)
Lemma processRefund_eval (s : Store) input reference now tr p l l1 l2 :
  unusedPayment (PaymentService.rf_idempotencyKey input) reference s ->
  paymentIdsIssued s ->
  find (has_id_payment (PaymentService.rf_paymentId input)) (payments s) = Some p ->
  Payment.status p = P_SUCCESS ->
  0 <= Payment.amount p ->
  success tr = true ->
  loans s = l1 ++ l :: l2 ->
  Loan._id l = Payment.loanId p ->
  (forall y, In y l1 -> has_id_loan (Payment.loanId p) y = false) ->
  PaymentService.processRefund input reference now tr s
  = (mkStore
       (l1 ++ PaymentService.refundUpdate (Payment.amount p) l :: l2)
       (schedules s)
       (payments s
          ++ [refundDoc p (PaymentService.rf_idempotencyKey input) reference
                now tr (nextId s)])
       (users s) (S (nextId s)),
     Ok (refundDoc p (PaymentService.rf_idempotencyKey input) reference now tr
           (nextId s))).
Proof.
  intros Hun Hiss Hp Hst Hamt Hok Hloans Hlid Hl1.
  unfold PaymentService.processRefund.
  run_ok ltac:(reflexivity). rewrite (unusedPayment_key _ _ _ Hun).
  run_ok ltac:(reflexivity). rewrite Hp. rewrite Hst. cbn [PaymentService.isSuccess negb].
  run_ok ltac:(apply Payment_create_eval; assumption).
  rewrite Hok.
  run_ok ltac:(erewrite bind_ok
                 by (eapply Loan_findOneAndUpdate_eval;
                     [exact Hloans|exact Hl1|apply has_id_loan_eq; exact Hlid]);
               reflexivity).
  run_ok ltac:(eapply Payment_save_last;
               [reflexivity|apply issued_not_next; exact Hiss|reflexivity]).
  unfold ret, refundDoc, set_payments, set_loans, set_nextId.
  cbn [loans schedules payments users nextId]. reflexivity.
Qed.

Lemma find_app_l {A} (f : A -> bool) l1 l2 x :
  find f l1 = Some x -> find f (l1 ++ l2) = Some x.
Proof.
  induction l1 as [|y l1 IH]; [discriminate|].
  cbn [app find]. destruct (f y); [trivial|exact IH].
Qed.

Lemma find_app_r {A} (f : A -> bool) l1 l2 :
  (forall y, In y l1 -> f y = false) -> find f (l1 ++ l2) = find f l2.
Proof.
  intros H. induction l1 as [|y l1 IH]; [reflexivity|].
  cbn [app find]. rewrite (H y) by (left; reflexivity).
  apply IH. intros z Hz. apply H. right. exact Hz.
Qed.

Lemma unusedPayment_snoc key reference s s' doc :
  payments s' = payments s ++ [doc] ->
  unusedPayment key reference s ->
  Payment.idempotencyKey doc <> key -> Payment.reference doc <> reference ->
  unusedPayment key reference s'.
Proof.
  unfold unusedPayment. intros -> H Hk Hr.
  rewrite existsb_app, H. cbn [existsb orb].
  apply String.eqb_neq in Hk, Hr. rewrite Hk, Hr. reflexivity.
Qed.

Lemma paymentIdsIssued_snoc s s' doc :
  payments s' = payments s ++ [doc] -> nextId s' = S (nextId s) ->
  Payment._id doc = nextId s ->
  paymentIdsIssued s -> paymentIdsIssued s'.
Proof.
  unfold paymentIdsIssued. intros -> -> Hid H p Hp.
  apply in_app_or in Hp. destruct Hp as [Hp|[<-|[]]].
  - specialize (H p Hp). lia.
  - rewrite Hid. lia.
Qed.

(** One successful full refund: what it returns and what it leaves. *)
Lemma processRefund_step (s : Store) input reference now tr p l :
  unusedPayment (PaymentService.rf_idempotencyKey input) reference s ->
  paymentIdsIssued s ->
  find (has_id_payment (PaymentService.rf_paymentId input)) (payments s) = Some p ->
  Payment.status p = P_SUCCESS ->
  0 <= Payment.amount p ->
  success tr = true ->
  find (has_id_loan (Payment.loanId p)) (loans s) = Some l ->
  let r := refundDoc p (PaymentService.rf_idempotencyKey input) reference now tr
             (nextId s) in
  let l' := PaymentService.refundUpdate (Payment.amount p) l in
  exists s',
    PaymentService.processRefund input reference now tr s = (s', Ok r)
    /\ payments s' = payments s ++ [r]
    /\ nextId s' = S (nextId s)
    /\ schedules s' = schedules s
    /\ find (has_id_loan (Payment.loanId p)) (loans s') = Some l'
    /\ paymentIdsIssued s'.
Proof.
  intros Hun Hiss Hp Hst Hamt Hok Hl r l'.
  destruct (find_split_loan _ _ _ Hl) as (l1 & l2 & Hloans & Hid & Hl1).
  eexists. split.
  { eapply processRefund_eval; eassumption. }
  cbn [payments nextId schedules loans].
  repeat split.
  - apply find_first; [exact Hl1|]. apply has_id_loan_eq. exact Hid.
  - intros q Hq. cbn [payments nextId] in *.
    apply in_app_or in Hq. destruct Hq as [Hq|[<-|[]]].
    + specialize (Hiss q Hq). lia.
    + cbn. lia.
Qed.

(** C10: [processRefund] asks only for a successful payment and an unused
    key.  A payment can be refunded in full twice, and the refund payment
    itself can be refunded: each call stores a new successful refund of
    the same amount, and each decreases the loan's totalRepaid and
    increases its outstandingBalance by that amount. *)
Theorem C10_refund_repeats
    (s : Store) (pid adminId : ObjectId) (reason : string) (now : Date)
    (tr : TransferResult) (p : Payment.t) (l : Loan.t)
    (key1 ref1 key2 ref2 key3 ref3 : string) :
  find (has_id_payment pid) (payments s) = Some p ->
  Payment.status p = P_SUCCESS ->
  0 <= Payment.amount p ->
  find (has_id_loan (Payment.loanId p)) (loans s) = Some l ->
  paymentIdsIssued s ->
  unusedPayment key1 ref1 s -> unusedPayment key2 ref2 s ->
  unusedPayment key3 ref3 s ->
  key1 <> key2 -> key1 <> key3 -> key2 <> key3 ->
  ref1 <> ref2 -> ref1 <> ref3 -> ref2 <> ref3 ->
  success tr = true ->
  exists s1 r1 s2 r2 s3 r3 l3,
    PaymentService.processRefund
      (PaymentService.mkRefundInput pid adminId reason key1 None) ref1 now tr s
    = (s1, Ok r1)
    /\ PaymentService.processRefund
         (PaymentService.mkRefundInput pid adminId reason key2 None) ref2 now tr s1
       = (s2, Ok r2)
    /\ PaymentService.processRefund
         (PaymentService.mkRefundInput (Payment._id r1) adminId reason key3 None)
         ref3 now tr s2
       = (s3, Ok r3)
    /\ Forall (fun r => Payment.type r = REFUND /\ Payment.status r = P_SUCCESS
                        /\ Payment.amount r = Payment.amount p) [r1; r2; r3]
    /\ payments s3 = payments s ++ [r1; r2; r3]
    /\ find (has_id_loan (Payment.loanId p)) (loans s3) = Some l3
    /\ Loan.totalRepaid l3 == Loan.totalRepaid l - 3 * Payment.amount p
    /\ Loan.outstandingBalance l3
       == Loan.outstandingBalance l + 3 * Payment.amount p
    /\ Loan.__v l3 = Loan.__v l.
Proof.
  intros Hp Hst Hamt Hl Hiss U1 U2 U3 K12 K13 K23 R12 R13 R23 Hok.
  destruct (processRefund_step s
              (PaymentService.mkRefundInput pid adminId reason key1 None)
              ref1 now tr p l U1 Hiss Hp Hst Hamt Hok Hl)
    as (s1 & E1 & P1 & N1 & _ & L1 & I1).
  cbn [PaymentService.rf_idempotencyKey PaymentService.rf_paymentId] in *.
  set (r1 := refundDoc p key1 ref1 now tr (nextId s)) in *.
  set (la := PaymentService.refundUpdate (Payment.amount p) l) in *.
  assert (U2' : unusedPayment key2 ref2 s1).
  { eapply unusedPayment_snoc; [exact P1|exact U2|exact K12|exact R12]. }
  assert (U3' : unusedPayment key3 ref3 s1).
  { eapply unusedPayment_snoc; [exact P1|exact U3|exact K13|exact R13]. }
  assert (Hp1 : find (has_id_payment pid) (payments s1) = Some p).
  { rewrite P1. apply find_app_l, Hp. }
  destruct (processRefund_step s1
              (PaymentService.mkRefundInput pid adminId reason key2 None)
              ref2 now tr p la U2' I1 Hp1 Hst Hamt Hok L1)
    as (s2 & E2 & P2 & N2 & _ & L2 & I2).
  cbn [PaymentService.rf_idempotencyKey PaymentService.rf_paymentId] in *.
  set (r2 := refundDoc p key2 ref2 now tr (nextId s1)) in *.
  set (lb := PaymentService.refundUpdate (Payment.amount p) la) in *.
  assert (U3'' : unusedPayment key3 ref3 s2).
  { eapply unusedPayment_snoc; [exact P2|exact U3'|exact K23|exact R23]. }
  assert (Hr1 : find (has_id_payment (Payment._id r1)) (payments s2) = Some r1).
  { rewrite P2, P1, <- app_assoc. rewrite find_app_r.
    - cbn [app find]. unfold has_id_payment. rewrite Nat.eqb_refl. reflexivity.
    - intros y Hy. apply (issued_not_next s Hiss y Hy). }
  destruct (processRefund_step s2
              (PaymentService.mkRefundInput (Payment._id r1) adminId reason key3 None)
              ref3 now tr r1 lb U3'' I2 Hr1 eq_refl Hamt Hok L2)
    as (s3 & E3 & P3 & N3 & _ & L3 & _).
  cbn [PaymentService.rf_idempotencyKey PaymentService.rf_paymentId] in *.
  exists s1, r1, s2, r2, s3.
  eexists. eexists.
  split; [exact E1|]. split; [exact E2|]. split; [exact E3|].
  split; [repeat constructor|].
  split; [rewrite P3, P2, P1, <- !app_assoc; reflexivity|].
  split; [exact L3|].
  cbn. repeat split; ring.
Qed.

(** Two refunds of the sample repayment of 400 and a refund of the first
    refund: the loan's totalRepaid goes from 400 to -800. *)
Lemma C10_refund_repeats_witness :
  exists p l,
    find (has_id_payment 104) (payments sample_repaid) = Some p
    /\ Payment.status p = P_SUCCESS
    /\ 0 <= Payment.amount p
    /\ find (has_id_loan (Payment.loanId p)) (loans sample_repaid) = Some l
    /\ paymentIdsIssued sample_repaid
    /\ unusedPayment "rk-1" "RFD-1" sample_repaid
    /\ unusedPayment "rk-2" "RFD-2" sample_repaid
    /\ unusedPayment "rk-3" "RFD-3" sample_repaid
    /\ success Sample.transferred = true
    /\ exists s1 r1 s2 r2 s3 r3 l3,
         PaymentService.processRefund
           (PaymentService.mkRefundInput 104 9 "duplicate" "rk-1" None)
           "RFD-1" 8 Sample.transferred sample_repaid
         = (s1, Ok r1)
         /\ PaymentService.processRefund
              (PaymentService.mkRefundInput 104 9 "duplicate" "rk-2" None)
              "RFD-2" 8 Sample.transferred s1
            = (s2, Ok r2)
         /\ PaymentService.processRefund
              (PaymentService.mkRefundInput (Payment._id r1) 9 "duplicate"
                 "rk-3" None)
              "RFD-3" 8 Sample.transferred s2
            = (s3, Ok r3)
         /\ Forall (fun r => Payment.type r = REFUND
                             /\ Payment.status r = P_SUCCESS
                             /\ Payment.amount r = Payment.amount p)
              [r1; r2; r3]
         /\ payments s3 = payments sample_repaid ++ [r1; r2; r3]
         /\ find (has_id_loan (Payment.loanId p)) (loans s3) = Some l3
         /\ Loan.totalRepaid l3 == Loan.totalRepaid l - 3 * Payment.amount p
         /\ Loan.outstandingBalance l3
            == Loan.outstandingBalance l + 3 * Payment.amount p
         /\ Loan.__v l3 = Loan.__v l.
Proof.
  eexists; eexists.
  match goal with
  | |- ?A /\ ?B /\ ?C /\ ?D /\ ?E /\ ?F /\ ?G /\ ?H /\ ?J /\ _ =>
    assert (H1 : A) by (vm_compute; reflexivity);
    assert (H2 : B) by reflexivity;
    assert (H3 : C) by (vm_compute; discriminate);
    assert (H4 : D) by (vm_compute; reflexivity);
    assert (H5 : E)
      by (intros q Hq; vm_compute in Hq; destruct Hq as [<-|[]];
          vm_compute; repeat constructor);
    assert (H6 : F) by (vm_compute; reflexivity);
    assert (H7 : G) by (vm_compute; reflexivity);
    assert (H8 : H) by (vm_compute; reflexivity);
    assert (H9 : J) by reflexivity
  end.
  split; [exact H1|]. split; [exact H2|]. split; [exact H3|].
  split; [exact H4|]. split; [exact H5|]. split; [exact H6|].
  split; [exact H7|]. split; [exact H8|]. split; [exact H9|].
  assert (N12 : "rk-1" <> "rk-2") by discriminate.
  assert (N13 : "rk-1" <> "rk-3") by discriminate.
  assert (N23 : "rk-2" <> "rk-3") by discriminate.
  assert (M12 : "RFD-1" <> "RFD-2") by discriminate.
  assert (M13 : "RFD-1" <> "RFD-3") by discriminate.
  assert (M23 : "RFD-2" <> "RFD-3") by discriminate.
  pose proof (C10_refund_repeats sample_repaid 104%nat 9%nat "duplicate" 8%nat
           Sample.transferred _ _ "rk-1" "RFD-1" "rk-2" "RFD-2" "rk-3" "RFD-3"
           H1 H2 H3 H4 H5 H6 H7 H8 N12 N13 N23 M12 M13 M23 H9) as X.
  exact X.
Defined.

(* ------------------------------------------------------------------ *)
(** ** Completion and the history (C2), the version key (C6) *)

(** C2 (the code departs from it): verifying a manual proof that clears
    the balance moves the loan from active to completed without any
    history entry, while the direct repayment of the same amount appends
    the active->completed entry. *)
Theorem C2_verified_completion_unrecorded :
  (exists s' r l l',
     PaymentService.verifyRepayment 104 9 true None 7 sample_submitted
     = (s', Ok (PaymentService.Verified r))
     /\ find (has_id_loan 100) (loans sample_submitted) = Some l
     /\ find (has_id_loan 100) (loans s') = Some l'
     /\ Loan.status l = ACTIVE /\ Loan.status l' = COMPLETED
     /\ Loan.outstandingBalance l' == 0
     /\ Loan.statusHistory l' = Loan.statusHistory l
     /\ existsb completes (Loan.statusHistory l') = false)
  /\ (exists s' r l',
        PaymentService.processRepayment
          (PaymentService.mkRepaymentInput 100 7 (103750 # 100) "key-d")
          "PAY-1" 7 Sample.active
        = (s', Ok r)
        /\ find (has_id_loan 100) (loans s') = Some l'
        /\ Loan.status l' = COMPLETED
        /\ existsb completes (Loan.statusHistory l') = true).
Proof.
  split.
  - do 4 eexists.
    split; [vm_compute; reflexivity|].
    split; [vm_compute; reflexivity|].
    split; [vm_compute; reflexivity|].
    repeat split; vm_compute; reflexivity.
  - do 3 eexists.
    split; [vm_compute; reflexivity|].
    split; [vm_compute; reflexivity|].
    split; vm_compute; reflexivity.
Qed.

(** C6 (the code departs from it): a full refund changes the balances of
    the loan with no condition on its version and leaves the version as it
    was; a repayment that read the loan before the refund and writes after
    it therefore passes its compare-and-set and overwrites the refund's
    change (totalRepaid ends at 500, not 100). *)
Theorem C6_refund_bypasses_version :
  (exists s' r l l',
     PaymentService.processRefund
       (PaymentService.mkRefundInput 104 9 "duplicate" "rk-1" None)
       "RFD-1" 8 Sample.transferred sample_repaid
     = (s', Ok r)
     /\ find (has_id_loan 100) (loans sample_repaid) = Some l
     /\ find (has_id_loan 100) (loans s') = Some l'
     /\ Loan.totalRepaid l == 400 /\ Loan.totalRepaid l' == 0
     /\ Loan.outstandingBalance l' == Loan.outstandingBalance l + 400
     /\ Loan.__v l' = Loan.__v l)
  /\ (exists s' r l',
        PaymentService.processRepayment_with
          (fun st =>
             fst (PaymentService.processRefund
                    (PaymentService.mkRefundInput 104 9 "duplicate" "rk-1" None)
                    "RFD-1" 8 Sample.transferred st))
          (PaymentService.mkRepaymentInput 100 7 100 "key-2") "PAY-2" 8
          sample_repaid
        = (s', Ok r)
        /\ find (has_id_loan 100) (loans s') = Some l'
        /\ Loan.totalRepaid l' == 500).
Proof.
  split.
  - do 4 eexists.
    split; [vm_compute; reflexivity|].
    split; [vm_compute; reflexivity|].
    split; [vm_compute; reflexivity|].
    repeat split; vm_compute; reflexivity.
  - do 3 eexists.
    split; [vm_compute; reflexivity|].
    split; vm_compute; reflexivity.
Qed.

(* ------------------------------------------------------------------ *)
(** ** Overpayment refund (C9) *)

Lemma Qgtb_true a b : Qgtb a b = true <-> b < a.
Proof.
  unfold Qgtb. rewrite negb_true_iff. split; intros H.
  - apply Qnot_le_lt. intros L. apply Qle_bool_iff in L. congruence.
  - apply not_true_is_false. intros L. apply Qle_bool_iff in L.
    apply (Qlt_not_le _ _ H L).
Qed.

Lemma Qgtb_false a b : Qgtb a b = false <-> a <= b.
Proof.
  unfold Qgtb. rewrite negb_false_iff. apply Qle_bool_iff.
Qed.

Lemma Qle_bool_false a b : Qle_bool a b = false <-> b < a.
Proof.
  rewrite <- Qgtb_true. unfold Qgtb. rewrite negb_true_iff. reflexivity.
Qed.

(** What the amount resolution of [refundOverpayment] accepts. *)
Lemma resolveRefundAmount_Ok amount p a :
  PaymentService.resolveRefundAmount amount p = Ok a ->
  (exists x, amount = Some x /\ a = x /\ 0 < x /\ x <= Payment.amount p)
  \/ (a = PaymentService.recordedOverpayment p /\ 0 < a
      /\ forall x, amount = Some x -> x <= 0).
Proof.
  unfold PaymentService.resolveRefundAmount.
  destruct amount as [x|].
  - destruct (truthy x && Qgtb x 0) eqn:E.
    + apply andb_true_iff in E. destruct E as [_ E].
      apply Qgtb_true in E.
      destruct (Qgtb x (Payment.amount p)) eqn:G; [discriminate|].
      intros [= <-]. left. exists x. repeat split; try assumption.
      apply Qgtb_false, G.
    + destruct (Qle_bool _ 0) eqn:L; [discriminate|].
      intros [= <-]. right. split; [reflexivity|]. split.
      * apply Qle_bool_false, L.
      * intros y [= <-]. apply andb_false_iff in E. destruct E as [E|E].
        -- unfold truthy in E. apply negb_false_iff, Qeq_bool_iff in E.
           rewrite E. apply Qle_refl.
        -- apply Qgtb_false, E.
  - destruct (Qle_bool _ 0) eqn:L; [discriminate|].
    intros [= <-]. right. split; [reflexivity|]. split.
    + apply Qle_bool_false, L.
    + intros y E; discriminate E.
Qed.

Lemma resolveRefundAmount_flag amount p b :
  PaymentService.resolveRefundAmount amount
    (Payment.set_isOverpaymentRefunded b p)
  = PaymentService.resolveRefundAmount amount p.
Proof. reflexivity. Qed.

Section RefundOverpayment.

Variables (s : Store) (input : PaymentService.RefundInput) (reference : string)
          (now : Date) (tr : TransferResult) (p : Payment.t)
          (ps1 ps2 : list Payment.t) (a : Q).

Let key := PaymentService.rf_idempotencyKey input.
Let pid := PaymentService.rf_paymentId input.

Hypothesis Hun : unusedPayment key reference s.
Hypothesis Hiss : paymentIdsIssued s.
Hypothesis Hps : payments s = ps1 ++ p :: ps2.
Hypothesis Hpid : Payment._id p = pid.
Hypothesis Hps1 : forall y, In y ps1 -> has_id_payment pid y = false.
Hypothesis Hst : Payment.status p = P_SUCCESS.
Hypothesis Hflag : Payment.isOverpaymentRefunded p = false.
Hypothesis Hres :
  PaymentService.resolveRefundAmount (PaymentService.rf_amount input) p = Ok a.
Hypothesis Hok : success tr = true.

Let refund := overpaymentRefundDoc p input a reference now tr (nextId s).
Let flagged := Payment.set_isOverpaymentRefunded true p.

Lemma refundOverpayment_eval :
  PaymentService.refundOverpayment input reference now tr s
  = (mkStore (loans s) (schedules s) (ps1 ++ flagged :: ps2 ++ [refund])
       (users s) (S (nextId s)),
     Ok refund).
Proof.
  assert (Hfind : find (has_id_payment pid) (payments s) = Some p).
  { rewrite Hps. apply find_first; [exact Hps1|].
    apply has_id_payment_eq, Hpid. }
  assert (Ha : 0 <= a).
  { destruct (resolveRefundAmount_Ok _ _ _ Hres) as [(x & _ & -> & H & _)|(_ & H & _)];
      apply Qlt_le_weak, H. }
  unfold PaymentService.refundOverpayment.
  run_ok ltac:(reflexivity). fold key. rewrite (unusedPayment_key _ _ _ Hun).
  run_ok ltac:(reflexivity). fold pid. rewrite Hfind, Hst.
  cbn [PaymentService.isSuccess negb].
  run_ok ltac:(unfold LoanService.lift; rewrite Hres; reflexivity).
  rewrite Hflag.
  run_ok ltac:(apply Payment_create_eval; [exact Ha|exact Hun]).
  rewrite Hok.
  run_ok ltac:(erewrite bind_ok
                 by (eapply (Payment_save_eval ps1 p (ps2 ++ [_]));
                     [cbn [payments set_payments set_nextId];
                      rewrite Hps, <- app_assoc; reflexivity
                     |cbn [Payment._id Payment.set_isOverpaymentRefunded];
                      rewrite Hpid; exact Hps1
                     |reflexivity]);
               reflexivity).
  assert (Hnone : forall y, In y (ps1 ++ flagged :: ps2) ->
                    has_id_payment (nextId s) y = false).
  { intros y Hy.
    assert (Hy' : In y (payments s) \/ y = flagged).
    { rewrite Hps. apply in_app_or in Hy. destruct Hy as [Hy|[<-|Hy]].
      - left. apply in_or_app. left. exact Hy.
      - right. reflexivity.
      - left. apply in_or_app. right. right. exact Hy. }
    destruct Hy' as [Hy' | ->].
    - apply (issued_not_next s Hiss y Hy').
    - unfold has_id_payment. apply Nat.eqb_neq.
      cbn [flagged Payment._id Payment.set_isOverpaymentRefunded].
      assert (Hin : In p (payments s)) by (rewrite Hps; apply in_elt).
      specialize (Hiss p Hin). lia. }
  run_ok ltac:(eapply (Payment_save_last _ (ps1 ++ flagged :: ps2));
               [cbn [payments set_payments]; rewrite <- app_assoc; reflexivity
               |exact Hnone|reflexivity]).
  unfold ret, set_payments, set_nextId, refund, overpaymentRefundDoc.
  cbn [loans schedules payments users nextId].
  rewrite <- app_assoc. reflexivity.
Qed.

End RefundOverpayment.

Lemma find_split_payment id ps p :
  find (has_id_payment id) ps = Some p ->
  exists ps1 ps2, ps = ps1 ++ p :: ps2 /\ Payment._id p = id
                  /\ forall y, In y ps1 -> has_id_payment id y = false.
Proof.
  intros H. destruct (find_split _ _ _ H) as (l1 & l2 & E & Hx & Hl).
  exists l1, l2. repeat split; try assumption. apply has_id_payment_eq, Hx.
Qed.

Lemma find_byKey_snoc key ps1 x ps2 x' d :
  find (PaymentModel.byKey key) (ps1 ++ x :: ps2) = None ->
  Payment.idempotencyKey x' = Payment.idempotencyKey x ->
  Payment.idempotencyKey d <> key ->
  find (PaymentModel.byKey key) (ps1 ++ x' :: ps2 ++ [d]) = None.
Proof.
  intros H Hx Hd.
  assert (A : forall y, In y (ps1 ++ x :: ps2) -> PaymentModel.byKey key y = false).
  { intros y Hy. apply (find_none _ _ H y Hy). }
  destruct (find (PaymentModel.byKey key) (ps1 ++ x' :: ps2 ++ [d])) as [z|] eqn:E;
    [|reflexivity].
  exfalso. destruct (find_some _ _ E) as [Hz Hk].
  apply in_app_or in Hz. destruct Hz as [Hz|[<-|Hz]].
  - rewrite A in Hk; [discriminate|]. apply in_or_app. left. exact Hz.
  - unfold PaymentModel.byKey in Hk. rewrite Hx in Hk.
    specialize (A x (in_elt x ps1 ps2)). unfold PaymentModel.byKey in A.
    congruence.
  - apply in_app_or in Hz. destruct Hz as [Hz|[<-|[]]].
    + rewrite A in Hk; [discriminate|]. apply in_or_app. right. right. exact Hz.
    + unfold PaymentModel.byKey in Hk. apply String.eqb_eq in Hk. contradiction.
Qed.

(** An overpayment refund of a payment whose flag is already set. *)
Lemma refundOverpayment_again s input reference now tr p ps1 ps2 :
  find (PaymentModel.byKey (PaymentService.rf_idempotencyKey input)) (payments s)
  = None ->
  payments s = ps1 ++ p :: ps2 ->
  Payment._id p = PaymentService.rf_paymentId input ->
  (forall y, In y ps1 ->
     has_id_payment (PaymentService.rf_paymentId input) y = false) ->
  Payment.status p = P_SUCCESS ->
  Payment.isOverpaymentRefunded p = true ->
  PaymentService.refundOverpayment input reference now tr s
  = (s, Throw
          match PaymentService.resolveRefundAmount
                  (PaymentService.rf_amount input) p with
          | Ok _ => ConflictError
                      "Overpayment for this transaction has already been refunded"
          | Throw e => e
          end).
Proof.
  intros Hkey Hps Hpid Hps1 Hst Hflag.
  unfold PaymentService.refundOverpayment.
  run_ok ltac:(reflexivity). rewrite Hkey.
  run_ok ltac:(reflexivity). rewrite Hps.
  rewrite find_first by (try exact Hps1; apply has_id_payment_eq, Hpid).
  rewrite Hst. cbn [PaymentService.isSuccess negb].
  destruct (PaymentService.resolveRefundAmount _ p) as [a|e] eqn:R.
  - run_ok ltac:(reflexivity).
    rewrite Hflag. reflexivity.
  - erewrite bind_throw by reflexivity.
    reflexivity.
Qed.

(** C9: an overpayment refund refunds the recorded overpayment, or the
    operator's positive amount when it does not exceed the original
    payment; on provider success it stores a successful refund of that
    amount, sets the source payment's flag and leaves loans and
    installments untouched; any later overpayment refund of the same
    payment under another key changes nothing and fails, with
    AlreadyRefunded (a Conflict) whenever its amount resolves, in
    particular when it asks for the same amount. *)
Theorem C9_overpayment_refund
    (s : Store) (input : PaymentService.RefundInput) (reference : string)
    (now : Date) (tr : TransferResult) (p : Payment.t) (a : Q)
    (input2 : PaymentService.RefundInput) (reference2 : string) (now2 : Date)
    (tr2 : TransferResult) :
  unusedPayment (PaymentService.rf_idempotencyKey input) reference s ->
  paymentIdsIssued s ->
  find (has_id_payment (PaymentService.rf_paymentId input)) (payments s) = Some p ->
  Payment.status p = P_SUCCESS ->
  Payment.isOverpaymentRefunded p = false ->
  PaymentService.resolveRefundAmount (PaymentService.rf_amount input) p = Ok a ->
  success tr = true ->
  PaymentService.rf_paymentId input2 = PaymentService.rf_paymentId input ->
  find (PaymentModel.byKey (PaymentService.rf_idempotencyKey input2)) (payments s)
  = None ->
  PaymentService.rf_idempotencyKey input2 <> PaymentService.rf_idempotencyKey input ->
  exists s1 refund,
    PaymentService.refundOverpayment input reference now tr s = (s1, Ok refund)
    /\ Payment.type refund = REFUND
    /\ Payment.status refund = P_SUCCESS
    /\ Payment.amount refund = a
    /\ ((exists x, PaymentService.rf_amount input = Some x /\ a = x /\ 0 < x
                   /\ x <= Payment.amount p)
        \/ (a = PaymentService.recordedOverpayment p /\ 0 < a
            /\ forall x, PaymentService.rf_amount input = Some x -> x <= 0))
    /\ find (has_id_payment (PaymentService.rf_paymentId input)) (payments s1)
       = Some (Payment.set_isOverpaymentRefunded true p)
    /\ loans s1 = loans s
    /\ schedules s1 = schedules s
    /\ exists e,
         PaymentService.refundOverpayment input2 reference2 now2 tr2 s1
         = (s1, Throw e)
         /\ (forall a2,
               PaymentService.resolveRefundAmount
                 (PaymentService.rf_amount input2) p = Ok a2 ->
               e = ConflictError
                     "Overpayment for this transaction has already been refunded")
         /\ (PaymentService.rf_amount input2 = PaymentService.rf_amount input ->
             e = ConflictError
                   "Overpayment for this transaction has already been refunded").
Proof.
  intros Hun Hiss Hp Hst Hflag Hres Hok Hpid2 Hkey2 Hneq.
  destruct (find_split_payment _ _ _ Hp) as (ps1 & ps2 & Hps & Hpid & Hps1).
  pose proof (refundOverpayment_eval s input reference now tr p ps1 ps2 a
                Hun Hiss Hps Hpid Hps1 Hst Hflag Hres Hok) as E1.
  set (refund := overpaymentRefundDoc p input a reference now tr (nextId s)) in *.
  set (flagged := Payment.set_isOverpaymentRefunded true p) in *.
  set (s1 := mkStore _ _ _ _ _) in E1.
  exists s1, refund.
  split; [exact E1|]. split; [reflexivity|]. split; [reflexivity|].
  split; [reflexivity|].
  split; [exact (resolveRefundAmount_Ok _ _ _ Hres)|].
  split.
  { cbn [s1 payments]. apply find_first; [exact Hps1|].
    apply has_id_payment_eq. exact Hpid. }
  split; [reflexivity|]. split; [reflexivity|].
  eexists. split.
  - apply (refundOverpayment_again s1 input2 reference2 now2 tr2 flagged ps1
             (ps2 ++ [refund])).
    + cbn [s1 payments]. apply (find_byKey_snoc _ ps1 p ps2).
      * rewrite <- Hps. exact Hkey2.
      * reflexivity.
      * cbn. intros E. apply Hneq. symmetry. exact E.
    + reflexivity.
    + rewrite Hpid2. exact Hpid.
    + rewrite Hpid2. exact Hps1.
    + exact Hst.
    + reflexivity.
  - unfold flagged. rewrite resolveRefundAmount_flag. split.
    + intros a2 ->. reflexivity.
    + intros ->. rewrite Hres. reflexivity.
Qed.

(** The refund of the 62.50 overpaid on the sample loan, then a second
    request for it. *)
Lemma C9_overpayment_refund_witness :
  exists p a,
    unusedPayment "ok-1" "RFD-9" sample_overpaid
    /\ paymentIdsIssued sample_overpaid
    /\ find (has_id_payment 104) (payments sample_overpaid) = Some p
    /\ Payment.status p = P_SUCCESS
    /\ Payment.isOverpaymentRefunded p = false
    /\ PaymentService.resolveRefundAmount None p = Ok a
    /\ a == 125 # 2
    /\ success Sample.transferred = true
    /\ find (PaymentModel.byKey "ok-2") (payments sample_overpaid) = None
    /\ exists s1 refund,
         PaymentService.refundOverpayment
           (PaymentService.mkRefundInput 104 9 "excess" "ok-1" None)
           "RFD-9" 8 Sample.transferred sample_overpaid
         = (s1, Ok refund)
         /\ Payment.amount refund = a
         /\ find (has_id_payment 104) (payments s1)
            = Some (Payment.set_isOverpaymentRefunded true p)
         /\ loans s1 = loans sample_overpaid
         /\ PaymentService.refundOverpayment
              (PaymentService.mkRefundInput 104 9 "excess" "ok-2" None)
              "RFD-10" 9 Sample.transferred s1
            = (s1, Throw (ConflictError
                            "Overpayment for this transaction has already been refunded")).
Proof.
  set (input := PaymentService.mkRefundInput 104 9 "excess" "ok-1" None).
  set (input2 := PaymentService.mkRefundInput 104 9 "excess" "ok-2" None).
  eexists; eexists.
  match goal with
  | |- ?A /\ ?B /\ ?C /\ ?D /\ ?E /\ ?F /\ ?G /\ ?H /\ ?J /\ _ =>
    assert (H1 : A) by (vm_compute; reflexivity);
    assert (H2 : B)
      by (intros q Hq; vm_compute in Hq; destruct Hq as [<-|[]];
          vm_compute; repeat constructor);
    assert (H3 : C) by (vm_compute; reflexivity);
    assert (H4 : D) by reflexivity;
    assert (H5 : E) by reflexivity;
    assert (H6 : F) by (vm_compute; reflexivity);
    assert (H7 : G) by (vm_compute; reflexivity);
    assert (H8 : H) by reflexivity;
    assert (H9 : J) by (vm_compute; reflexivity)
  end.
  split; [exact H1|]. split; [exact H2|]. split; [exact H3|].
  split; [exact H4|]. split; [exact H5|]. split; [exact H6|].
  split; [exact H7|]. split; [exact H8|]. split; [exact H9|].
  assert (N : PaymentService.rf_idempotencyKey input2
              <> PaymentService.rf_idempotencyKey input) by discriminate.
  destruct (C9_overpayment_refund sample_overpaid input "RFD-9" 8%nat
              Sample.transferred _ _ input2 "RFD-10" 9%nat Sample.transferred
              H1 H2 H3 H4 H5 H6 H8 eq_refl H9 N)
    as (s1 & refund & E1 & _ & _ & A1 & _ & F1 & L1 & _ & e & E2 & _ & C2).
  exists s1, refund.
  split; [exact E1|]. split; [exact A1|]. split; [exact F1|].
  split; [exact L1|].
  rewrite E2, (C2 eq_refl). reflexivity.
Defined.

(* ------------------------------------------------------------------ *)
(** ** The repayment engine (C4, C5) *)

Lemma try_catch_ok {A} (m : M A) (h : AppError -> M A) s s' a :
  m s = (s', Ok a) -> try_catch m h s = (s', Ok a).
Proof. intros H. unfold try_catch. rewrite H. reflexivity. Qed.

Lemma set_schedules_twice a b s :
  set_schedules a (set_schedules b s) = set_schedules a s.
Proof. reflexivity. Qed.

(** The allocation loop never throws and writes installments only. *)
Lemma allocate_total now L : forall r al s,
  exists sc rem allocs,
    PaymentService.allocate now L r al s = (set_schedules sc s, Ok (rem, allocs)).
Proof.
  induction L as [|x L IH]; intros r al s; cbn [PaymentService.allocate].
  - exists (schedules s), r, al. destruct s; reflexivity.
  - destruct (Qle_bool r 0).
    { exists (schedules s), r, al. destruct s; reflexivity. }
    destruct (Qgtb _ 0); [|apply IH].
    unfold bind at 1. unfold ScheduleModel.save at 1. cbv beta iota.
    match goal with |- context [PaymentService.allocate now L ?r' ?al' ?s'] =>
      destruct (IH r' al' s') as (sc & rem & allocs & E) end.
    exists sc, rem, allocs. rewrite E. reflexivity.
Qed.

Lemma dueOn_owing x : owing x -> dueOn x == Schedule.totalAmount x - Schedule.paidAmount x.
Proof.
  intros (Ht & Hp & _). unfold dueOn.
  apply roundToTwoDecimals_cents, is_cents_minus; assumption.
Qed.

Lemma dueOn_pos x : owing x -> 0 < dueOn x.
Proof. intros H. rewrite (dueOn_owing x H). destruct H as (_ & _ & H). lra. Qed.

Lemma sumQ_cons x l : sumQ (x :: l) = x + sumQ l.
Proof. reflexivity. Qed.

Lemma sum_dues_nonneg L : Forall owing L -> 0 <= sumQ (map dueOn L).
Proof.
  induction 1 as [|x L Hx _ IH]; cbn [map].
  - apply Qle_refl.
  - rewrite sumQ_cons. pose proof (dueOn_pos x Hx). lra.
Qed.

Lemma leftAfter_spec L : forall r,
  Forall owing L -> is_cents r ->
  leftAfter L r == r - sumQ (map dueOn L) /\ is_cents (leftAfter L r).
Proof.
  induction L as [|x L IH]; intros r HL Hr; cbn [leftAfter map].
  - split; [unfold sumQ; cbn; ring|exact Hr].
  - inversion HL as [|? ? Hx HL']; subst.
    assert (Hc : is_cents (r - dueOn x)).
    { apply is_cents_minus; [exact Hr|apply roundToTwoDecimals_is_cents]. }
    destruct (IH (roundToTwoDecimals (r - dueOn x)) HL'
                (roundToTwoDecimals_is_cents _)) as [E C].
    split; [|exact C].
    rewrite E, (roundToTwoDecimals_cents _ Hc), sumQ_cons. ring.
Qed.

Lemma applyTo_paidOff now x :
  owing x -> PaymentService.applyTo now (dueOn x) x = paidOff now x.
Proof.
  intros Hx. unfold PaymentService.applyTo, paidOff.
  cbn [Schedule.paidAmount Schedule.totalAmount Schedule.set_paidAmount].
  replace (Qgeb _ _) with true; [reflexivity|].
  symmetry. unfold Qgeb. apply Qle_bool_iff.
  pose proof (dueOn_owing x Hx) as E. destruct Hx as (Ht & Hp & _).
  rewrite roundToTwoDecimals_cents.
  - rewrite E. lra.
  - apply is_cents_plus; [exact Hp|apply roundToTwoDecimals_is_cents].
Qed.

(** When the amount exceeds what the installments owe, the loop pays each
    of them off. *)
Lemma allocate_all now L : forall r al s,
  Forall owing L -> is_cents r -> sumQ (map dueOn L) < r ->
  PaymentService.allocate now L r al s
  = (set_schedules (saveAll (map (paidOff now) L) (schedules s)) s,
     Ok (leftAfter L r, al ++ map allocationOf L)).
Proof.
  induction L as [|x L IH]; intros r al s HL Hr Hsum;
    cbn [PaymentService.allocate map leftAfter saveAll fold_left].
  - rewrite app_nil_r. destruct s; reflexivity.
  - inversion HL as [|? ? Hx HL']; subst.
    cbn [map] in Hsum. rewrite sumQ_cons in Hsum.
    pose proof (dueOn_pos x Hx) as Hd.
    pose proof (sum_dues_nonneg L HL') as Hn.
    replace (Qle_bool r 0) with false
      by (symmetry; apply Qle_bool_false; lra).
    fold (dueOn x).
    assert (Hmin : Math_min r (dueOn x) = dueOn x).
    { unfold Math_min. replace (Qle_bool r (dueOn x)) with false; [reflexivity|].
      symmetry. apply Qle_bool_false. lra. }
    rewrite Hmin.
    replace (Qgtb (dueOn x) 0) with true by (symmetry; apply Qgtb_true; exact Hd).
    rewrite (applyTo_paidOff now x Hx).
    unfold bind at 1. unfold ScheduleModel.save at 1. cbv beta iota.
    rewrite IH.
    + cbn [schedules set_schedules]. rewrite set_schedules_twice.
      rewrite <- app_assoc. reflexivity.
    + exact HL'.
    + apply roundToTwoDecimals_is_cents.
    + rewrite roundToTwoDecimals_cents; [lra|].
      apply is_cents_minus; [exact Hr|apply roundToTwoDecimals_is_cents].
Qed.

Section ProcessRepayment.

Variables (s : Store) (input : PaymentService.RepaymentInput)
          (reference : string) (now : Date)
          (l : Loan.t) (l1 l2 : list Loan.t)
          (sc : list Schedule.t) (rem : Q)
          (allocs : list PaymentService.Allocation).

Let loanId := PaymentService.in_loanId input.
Let userId := PaymentService.in_userId input.
Let amount := PaymentService.in_amount input.
Let key := PaymentService.in_idempotencyKey input.

Hypothesis Hun : unusedPayment key reference s.
Hypothesis Hiss : paymentIdsIssued s.
Hypothesis Huser : existsb (Nat.eqb userId) (users s) = true.
Hypothesis Hloans : loans s = l1 ++ l :: l2.
Hypothesis Hid : Loan._id l = loanId.
Hypothesis Hl1 : forall y, In y l1 -> has_id_loan loanId y = false.
Hypothesis Howner : Loan.userId l = userId.
Hypothesis Hactive : Loan.status l = ACTIVE.
Hypothesis Hvalid : LoanModel.validate l = true.
Hypothesis Hpos : 0 < amount.

Let doc :=
  PaymentModel.fresh loanId userId key REPAYMENT amount reference P_PROCESSING
    None None None (nextId s).
Let s1 := set_payments (payments s ++ [doc]) (set_nextId (S (nextId s)) s).

Hypothesis Halloc :
  PaymentService.allocate now (outstandingSchedules loanId s) amount [] s1
  = (set_schedules sc s1, Ok (rem, allocs)).

Let overpayment := if Qgtb rem 0 then rem else 0.
Let payment1 :=
  if Qgtb rem 0
  then Payment.set_allocation
         (Some (mkAllocation (amount - overpayment) 0 overpayment)) doc
  else doc.
Let payment2 := PaymentService.finalize now payment1.
Let newTotalRepaid :=
  roundToTwoDecimals (Loan.totalRepaid l + (amount - overpayment)).
Let newOutstandingBalance :=
  roundToTwoDecimals (Loan.totalRepayable l - newTotalRepaid).
Let updated := afterCAS newTotalRepaid newOutstandingBalance l.
Let final :=
  if Qle_bool newOutstandingBalance 0
  then afterCompletion userId now updated else updated.

(** The direct repayment, from the request to the stored result. *)
Lemma processRepayment_eval :
  PaymentService.processRepayment input reference now s
  = (mkStore (l1 ++ final :: l2) sc (payments s ++ [payment2]) (users s)
       (S (nextId s)),
     Ok (PaymentService.mkRepaymentResult payment2
           (PaymentService.mkSnapshot newTotalRepaid newOutstandingBalance
              (Loan.status final))
           allocs
           (if Qgtb overpayment 0 then Some overpayment else None))).
Proof.
  assert (Hidb : has_id_loan loanId l = true) by (apply has_id_loan_eq, Hid).
  unfold PaymentService.processRepayment, PaymentService.processRepayment_with.
  fold loanId userId amount key.
  run_ok ltac:(reflexivity). rewrite (unusedPayment_key _ _ _ Hun).
  run_ok ltac:(eapply Loan_findOne_eval;
               [exact Hloans
               |intros y Hy; rewrite (Hl1 y Hy); reflexivity
               |rewrite Hidb, Howner, Hactive, Nat.eqb_refl; reflexivity]).
  run_ok ltac:(reflexivity). rewrite Huser. cbn [negb].
  run_ok ltac:(reflexivity).
  replace (Qle_bool amount 0) with false
    by (symmetry; apply Qle_bool_false; exact Hpos).
  run_ok ltac:(apply Payment_create_eval;
               [apply Qlt_le_weak; exact Hpos|exact Hun]).
  fold doc. fold s1.
  run_ok ltac:(reflexivity).
  change (sort_by Schedule.installmentNumber
            (filter (PaymentService.outstandingOf loanId) (schedules s1)))
    with (outstandingSchedules loanId s).
  run_ok ltac:(exact Halloc).
  fold overpayment. fold payment1.
  erewrite try_catch_ok; [reflexivity|].
  fold newTotalRepaid. fold newOutstandingBalance.
  run_ok ltac:(reflexivity).
  run_ok ltac:(eapply Loan_findOneAndUpdate_eval;
               [exact Hloans
               |intros y Hy; rewrite (Hl1 y Hy); reflexivity
               |rewrite Hidb, Nat.eqb_refl; reflexivity]).
  fold (afterCAS newTotalRepaid newOutstandingBalance l). fold updated.
  assert (Hnone : forall y, In y (payments s) ->
                    has_id_payment (Payment._id doc) y = false).
  { intros y Hy. apply (issued_not_next s Hiss y Hy). }
  unfold final. destruct (Qle_bool newOutstandingBalance 0).
  - run_ok ltac:(eapply (Loan_save_eval _ _ l1 updated l2);
                 [reflexivity
                 |intros y Hy;
                  change (has_id_loan (Loan._id l) y = false);
                  rewrite Hid; exact (Hl1 y Hy)
                 |reflexivity|reflexivity|exact Hvalid]).
    run_ok ltac:(eapply (Payment_save_last doc (payments s));
                 [reflexivity|exact Hnone
                 |unfold payment2, payment1; destruct (Qgtb rem 0); reflexivity]).
    reflexivity.
  - run_ok ltac:(reflexivity).
    run_ok ltac:(eapply (Payment_save_last doc (payments s));
                 [reflexivity|exact Hnone
                 |unfold payment2, payment1; destruct (Qgtb rem 0); reflexivity]).
    reflexivity.
Qed.

End ProcessRepayment.

(** *** Sorting and saving installments *)

Lemma insert_by_In {A} (key : A -> nat) x y l :
  In y (insert_by key x l) <-> y = x \/ In y l.
Proof.
  induction l as [|z l IH]; cbn [insert_by].
  - cbn. intuition auto.
  - destruct (Nat.leb (key z) (key x)); cbn [In]; [rewrite IH|]; intuition auto.
Qed.

Lemma sort_by_In {A} (key : A -> nat) l y :
  In y (sort_by key l) <-> In y l.
Proof.
  unfold sort_by.
  assert (G : forall acc, In y (fold_left (fun acc x => insert_by key x acc) l acc)
                          <-> In y l \/ In y acc).
  { induction l as [|x l IH]; intros acc; cbn [fold_left].
    - cbn. intuition auto.
    - rewrite IH, insert_by_In. cbn [In]. intuition auto. }
  rewrite G. cbn. intuition auto.
Qed.

Lemma outstandingSchedules_In loanId s x :
  In x (outstandingSchedules loanId s)
  <-> In x (schedules s) /\ PaymentService.outstandingOf loanId x = true.
Proof.
  unfold outstandingSchedules. rewrite sort_by_In. apply filter_In.
Qed.

Lemma replace_ids d stored :
  map Schedule._id
    (fst (updateFirst (has_id_schedule (Schedule._id d)) (fun _ => d) stored))
  = map Schedule._id stored.
Proof.
  induction stored as [|z l IH]; [reflexivity|].
  cbn [updateFirst]. destruct (has_id_schedule _ z) eqn:E.
  - cbn. apply Nat.eqb_eq in E. rewrite E. reflexivity.
  - destruct (updateFirst _ _ l) as [l' r]. cbn in *. rewrite IH. reflexivity.
Qed.

Lemma replace_In d stored y :
  NoDup (map Schedule._id stored) ->
  In y (fst (updateFirst (has_id_schedule (Schedule._id d)) (fun _ => d) stored)) ->
  y = d \/ (In y stored /\ Schedule._id y <> Schedule._id d).
Proof.
  induction stored as [|z l IH]; [intros _ []|].
  cbn [map]. intros Hnd. inversion Hnd as [|? ? Hz Hnd']; subst.
  cbn [updateFirst]. destruct (has_id_schedule _ z) eqn:E.
  - cbn [fst In]. intros [<-|H]; [left; reflexivity|].
    right. split; [right; exact H|].
    apply Nat.eqb_eq in E. rewrite <- E. intros Ey. apply Hz.
    rewrite <- Ey. apply in_map. exact H.
  - destruct (updateFirst _ _ l) as [l' r] eqn:U. cbn [fst In] in *.
    intros [<-|H].
    + right. split; [left; reflexivity|]. apply Nat.eqb_neq in E. exact E.
    + destruct (IH Hnd' H) as [->|[H1 H2]]; [left; reflexivity|].
      right. split; [right; exact H1|exact H2].
Qed.

Lemma saveAll_ids docs : forall stored,
  map Schedule._id (saveAll docs stored) = map Schedule._id stored.
Proof.
  induction docs as [|d docs IH]; intros stored; cbn [saveAll fold_left].
  - reflexivity.
  - fold (saveAll docs). rewrite IH. apply replace_ids.
Qed.

Lemma saveAll_In docs : forall stored y,
  NoDup (map Schedule._id stored) ->
  In y (saveAll docs stored) ->
  In y docs \/ (In y stored /\ ~ In (Schedule._id y) (map Schedule._id docs)).
Proof.
  induction docs as [|d docs IH]; intros stored y Hnd;
    cbn [saveAll fold_left].
  - intros H. right. split; [exact H|intros []].
  - fold (saveAll docs). intros H.
    apply IH in H; [|rewrite replace_ids; exact Hnd].
    destruct H as [H|[H1 H2]]; [left; right; exact H|].
    apply (replace_In d stored y Hnd) in H1.
    destruct H1 as [->|[H1 H3]]; [left; left; reflexivity|].
    right. split; [exact H1|]. cbn [map In]. intros [E|E].
    + apply H3. symmetry. exact E.
    + exact (H2 E).
Qed.

Lemma sum_dues_unpaid L :
  Forall owing L -> sumQ (map dueOn L) == sumQ (map unpaid L).
Proof.
  induction 1 as [|x L Hx _ IH]; cbn [map].
  - reflexivity.
  - rewrite !sumQ_cons, IH, (dueOn_owing x Hx). reflexivity.
Qed.

Lemma paidOff_paid now x :
  owing x ->
  Schedule.status (paidOff now x) = S_PAID
  /\ Schedule.paidAmount (paidOff now x) == Schedule.totalAmount (paidOff now x)
  /\ Schedule._id (paidOff now x) = Schedule._id x
  /\ Schedule.loanId (paidOff now x) = Schedule.loanId x.
Proof.
  intros Hx. split; [reflexivity|]. split; [|split; reflexivity]. cbn.
  pose proof (dueOn_owing x Hx) as E. destruct Hx as (Ht & Hp & _).
  rewrite roundToTwoDecimals_cents.
  - rewrite E. ring.
  - apply is_cents_plus; [exact Hp|apply roundToTwoDecimals_is_cents].
Qed.

(** C4, as stated, fails: an amount larger than the balance by less than
    half a cent leaves no remainder after rounding, so no overpayment is
    recorded. *)
Lemma C4_counterexample :
  exists l s' r,
    find (has_id_loan 100) (loans Sample.active) = Some l
    /\ Loan.status l = ACTIVE
    /\ sumQ (map unpaid (outstandingSchedules 100 Sample.active))
       == Loan.outstandingBalance l
    /\ Loan.outstandingBalance l < 1037504 # 1000
    /\ PaymentService.processRepayment
         (PaymentService.mkRepaymentInput 100 7 (1037504 # 1000) "key-c")
         "PAY-c" 6 Sample.active
       = (s', Ok r)
    /\ PaymentService.overpayment r = None
    /\ Payment.allocation (PaymentService.payment r) = None.
Proof.
  do 3 eexists.
  split; [vm_compute; reflexivity|].
  split; [reflexivity|].
  split; [vm_compute; reflexivity|].
  split; [vm_compute; reflexivity|].
  split; [vm_compute; reflexivity|].
  split; vm_compute; reflexivity.
Qed.

(** C4 (amended): for an active loan in whole cents with
    outstandingBalance = totalRepayable - totalRepaid whose outstanding
    installments (each partly unpaid, in whole cents) have unpaid amounts
    summing to outstandingBalance, a repayment of a whole-cent amount
    strictly larger than outstandingBalance succeeds, marks every
    installment of the loan paid in full, records overpayment = amount -
    outstandingBalance > 0 with applied portion = amount - overpayment,
    and leaves the loan completed with outstandingBalance = 0 and
    totalRepaid = totalRepayable. *)
Theorem C4_overpayment_completes
    (s : Store) (input : PaymentService.RepaymentInput) (reference : string)
    (now : Date) (l : Loan.t) :
  let loanId := PaymentService.in_loanId input in
  let userId := PaymentService.in_userId input in
  let amount := PaymentService.in_amount input in
  let L := outstandingSchedules loanId s in
  unusedPayment (PaymentService.in_idempotencyKey input) reference s ->
  paymentIdsIssued s ->
  scheduleIdsDistinct s ->
  existsb (Nat.eqb userId) (users s) = true ->
  find (has_id_loan loanId) (loans s) = Some l ->
  Loan.userId l = userId ->
  Loan.status l = ACTIVE ->
  LoanModel.validate l = true ->
  is_cents (Loan.totalRepayable l) ->
  is_cents (Loan.totalRepaid l) ->
  Loan.outstandingBalance l == Loan.totalRepayable l - Loan.totalRepaid l ->
  Forall owing L ->
  sumQ (map unpaid L) == Loan.outstandingBalance l ->
  is_cents amount ->
  Loan.outstandingBalance l < amount ->
  exists s' r l' over alloc,
    PaymentService.processRepayment input reference now s = (s', Ok r)
    /\ PaymentService.overpayment r = Some over
    /\ over == amount - Loan.outstandingBalance l /\ 0 < over
    /\ Payment.status (PaymentService.payment r) = P_SUCCESS
    /\ Payment.allocation (PaymentService.payment r) = Some alloc
    /\ alloc_overpayment alloc = over
    /\ alloc_principal alloc = amount - over
    /\ alloc_interest alloc == 0
    /\ find (has_id_loan loanId) (loans s') = Some l'
    /\ Loan.status l' = COMPLETED
    /\ Loan.outstandingBalance l' == 0
    /\ Loan.totalRepaid l' == Loan.totalRepayable l'
    /\ Loan.totalRepayable l' = Loan.totalRepayable l
    /\ PaymentService.snap_status (PaymentService.loan r) = COMPLETED
    /\ PaymentService.snap_outstandingBalance (PaymentService.loan r) == 0
    /\ map Schedule._id (schedules s') = map Schedule._id (schedules s)
    /\ (forall y, In y (schedules s') -> Schedule.loanId y = loanId ->
          Schedule.status y = S_PAID)
    /\ (forall x, In x L ->
          exists y, In y (schedules s') /\ Schedule._id y = Schedule._id x
                    /\ Schedule.status y = S_PAID
                    /\ Schedule.paidAmount y == Schedule.totalAmount y).
Proof.
  intros loanId userId amount L Hun Hiss Hdist Huser Hfind Howner Hactive
    Hvalid Hc1 Hc2 Hinv Howing Hsum Hcents Hover.
  destruct (find_split_loan _ _ _ Hfind) as (l1 & l2 & Hloans & Hid & Hl1).
  assert (Hdue : sumQ (map dueOn L) == Loan.outstandingBalance l).
  { rewrite (sum_dues_unpaid L Howing). exact Hsum. }
  pose proof (sum_dues_nonneg L Howing) as Hnn.
  assert (Hpos : 0 < amount) by lra.
  set (doc := PaymentModel.fresh loanId userId
                (PaymentService.in_idempotencyKey input) REPAYMENT amount
                reference P_PROCESSING None None None (nextId s)).
  set (s1 := set_payments (payments s ++ [doc]) (set_nextId (S (nextId s)) s)).
  assert (Halloc :
    PaymentService.allocate now L amount [] s1
    = (set_schedules (saveAll (map (paidOff now) L) (schedules s1)) s1,
       Ok (leftAfter L amount, [] ++ map allocationOf L))).
  { apply allocate_all; [exact Howing|exact Hcents|lra]. }
  pose proof (processRepayment_eval s input reference now l l1 l2 _ _ _
                Hun Hiss Huser Hloans Hid Hl1 Howner Hactive Hvalid Hpos Halloc)
    as E.
  destruct (leftAfter_spec L amount Howing Hcents) as [Hrem Hremc].
  set (rem := leftAfter L amount) in *.
  assert (Hrem' : rem == amount - Loan.outstandingBalance l) by (rewrite Hrem; lra).
  assert (Hrpos : 0 < rem) by lra.
  assert (Hg : Qgtb rem 0 = true) by (apply Qgtb_true; exact Hrpos).
  rewrite Hg in E. rewrite Hg in E.
  fold loanId userId amount in E.
  set (newTR := roundToTwoDecimals (Loan.totalRepaid l + (amount - rem))) in *.
  set (newOB := roundToTwoDecimals (Loan.totalRepayable l - newTR)) in *.
  assert (HTR : newTR == Loan.totalRepayable l).
  { unfold newTR. rewrite roundToTwoDecimals_cents.
    - rewrite Hrem'. lra.
    - apply is_cents_plus; [exact Hc2|].
      apply is_cents_minus; [exact Hcents|exact Hremc]. }
  assert (HOB : newOB == 0).
  { unfold newOB. rewrite HTR.
    setoid_replace (Loan.totalRepayable l - Loan.totalRepayable l) with 0 by ring.
    vm_compute. reflexivity. }
  assert (Hle : Qle_bool newOB 0 = true).
  { apply Qle_bool_iff. rewrite HOB. apply Qle_refl. }
  rewrite Hle in E.
  eexists; eexists; eexists; eexists; eexists.
  split; [exact E|].
  cbn [PaymentService.overpayment PaymentService.payment PaymentService.loan
       PaymentService.snap_status PaymentService.snap_outstandingBalance
       loans schedules].
  split; [reflexivity|]. split; [exact Hrem'|]. split; [exact Hrpos|].
  split; [reflexivity|]. split; [reflexivity|]. split; [reflexivity|].
  split; [reflexivity|]. split; [reflexivity|].
  split; [apply find_first; [exact Hl1|apply has_id_loan_eq; exact Hid]|].
  split; [reflexivity|]. split; [exact HOB|].
  split; [cbn; rewrite HTR; reflexivity|].
  split; [reflexivity|]. split; [reflexivity|]. split; [exact HOB|].
  split; [apply saveAll_ids|].
  assert (Hdocs : forall y, In y (map (paidOff now) L) ->
            exists x, In x L /\ y = paidOff now x /\ owing x).
  { intros y Hy. apply in_map_iff in Hy. destruct Hy as (x & <- & Hx).
    exists x. split; [exact Hx|]. split; [reflexivity|].
    rewrite Forall_forall in Howing. apply Howing, Hx. }
  split.
  - intros y Hy HL.
    apply (saveAll_In _ _ _ Hdist) in Hy. destruct Hy as [Hy|[Hy Hn]].
    + destruct (Hdocs y Hy) as (x & _ & -> & Hx). apply (paidOff_paid now x Hx).
    + destruct (PaymentService.outstandingOf loanId y) eqn:O.
      * exfalso. apply Hn. rewrite map_map. cbn.
        apply in_map_iff. exists y. split; [reflexivity|].
        apply outstandingSchedules_In. split; assumption.
      * unfold PaymentService.outstandingOf in O. rewrite HL, Nat.eqb_refl in O.
        cbn in O. destruct (Schedule.status y); try discriminate O. reflexivity.
  - intros x Hx.
    assert (Hx' : In x (schedules s)) by (apply outstandingSchedules_In in Hx; tauto).
    assert (Hid' : In (Schedule._id x)
                     (map Schedule._id
                        (saveAll (map (paidOff now) L) (schedules s)))).
    { rewrite saveAll_ids. apply in_map, Hx'. }
    apply in_map_iff in Hid'. destruct Hid' as (y & Ey & Hy).
    exists y. split; [exact Hy|]. split; [exact Ey|].
    apply (saveAll_In _ _ _ Hdist) in Hy. destruct Hy as [Hy|[_ Hn]].
    + destruct (Hdocs y Hy) as (x' & _ & -> & Hx2).
      destruct (paidOff_paid now x' Hx2) as (P1 & P2 & _). split; assumption.
    + exfalso. apply Hn. rewrite Ey, map_map. cbn. apply in_map, Hx.
Qed.

Lemma is_centsb_true x : is_centsb x = true -> is_cents x.
Proof.
  unfold is_centsb. intros H. apply Qeq_bool_iff in H.
  rewrite <- H. apply roundToTwoDecimals_is_cents.
Qed.

Lemma owingb_true x : owingb x = true -> owing x.
Proof.
  unfold owingb, owing. intros H.
  apply andb_true_iff in H. destruct H as [H H3].
  apply andb_true_iff in H. destruct H as [H1 H2].
  repeat split; try (apply is_centsb_true; assumption).
  apply negb_true_iff, Qle_bool_false in H3. exact H3.
Qed.

Lemma forallb_owing L : forallb owingb L = true -> Forall owing L.
Proof.
  intros H. apply Forall_forall. intros x Hx.
  apply owingb_true. rewrite forallb_forall in H. apply H, Hx.
Qed.

(** The repayment of 1100 on the sample loan, which owes 1037.50. *)
Lemma C4_overpayment_completes_witness :
  exists l,
    unusedPayment "key-o" "PAY-9" Sample.active
    /\ paymentIdsIssued Sample.active
    /\ scheduleIdsDistinct Sample.active
    /\ existsb (Nat.eqb 7) (users Sample.active) = true
    /\ find (has_id_loan 100) (loans Sample.active) = Some l
    /\ Loan.userId l = 7%nat
    /\ Loan.status l = ACTIVE
    /\ LoanModel.validate l = true
    /\ is_cents (Loan.totalRepayable l)
    /\ is_cents (Loan.totalRepaid l)
    /\ Loan.outstandingBalance l == Loan.totalRepayable l - Loan.totalRepaid l
    /\ Forall owing (outstandingSchedules 100 Sample.active)
    /\ sumQ (map unpaid (outstandingSchedules 100 Sample.active))
       == Loan.outstandingBalance l
    /\ is_cents 1100
    /\ Loan.outstandingBalance l < 1100
    /\ exists s' r l' over alloc,
         PaymentService.processRepayment
           (PaymentService.mkRepaymentInput 100 7 1100 "key-o") "PAY-9" 6
           Sample.active
         = (s', Ok r)
         /\ PaymentService.overpayment r = Some over
         /\ over == 1100 - Loan.outstandingBalance l /\ 0 < over
         /\ Payment.status (PaymentService.payment r) = P_SUCCESS
         /\ Payment.allocation (PaymentService.payment r) = Some alloc
         /\ alloc_overpayment alloc = over
         /\ alloc_principal alloc = 1100 - over
         /\ alloc_interest alloc == 0
         /\ find (has_id_loan 100) (loans s') = Some l'
         /\ Loan.status l' = COMPLETED
         /\ Loan.outstandingBalance l' == 0
         /\ Loan.totalRepaid l' == Loan.totalRepayable l'
         /\ Loan.totalRepayable l' = Loan.totalRepayable l
         /\ PaymentService.snap_status (PaymentService.loan r) = COMPLETED
         /\ PaymentService.snap_outstandingBalance (PaymentService.loan r) == 0
         /\ map Schedule._id (schedules s') = map Schedule._id (schedules Sample.active)
         /\ (forall y, In y (schedules s') -> Schedule.loanId y = 100%nat ->
               Schedule.status y = S_PAID)
         /\ (forall x, In x (outstandingSchedules 100 Sample.active) ->
               exists y, In y (schedules s') /\ Schedule._id y = Schedule._id x
                         /\ Schedule.status y = S_PAID
                         /\ Schedule.paidAmount y == Schedule.totalAmount y).
Proof.
  eexists.
  match goal with
  | |- ?A /\ ?B /\ ?C /\ ?D /\ ?E /\ ?F /\ ?G /\ ?H /\ ?I /\ ?J /\ ?K /\ ?L
       /\ ?M /\ ?N /\ ?O /\ _ =>
    assert (H1 : A) by (vm_compute; reflexivity);
    assert (H2 : B) by (intros q Hq; vm_compute in Hq; destruct Hq);
    assert (H3 : C)
      by (unfold scheduleIdsDistinct; vm_compute;
          repeat (constructor; [intros X; vm_compute in X; intuition discriminate|]);
          constructor);
    assert (H4 : D) by (vm_compute; reflexivity);
    assert (H5 : E) by (vm_compute; reflexivity);
    assert (H6 : F) by reflexivity;
    assert (H7 : G) by reflexivity;
    assert (H8 : H) by (vm_compute; reflexivity);
    assert (H9 : I) by (apply is_centsb_true; vm_compute; reflexivity);
    assert (H10 : J) by (apply is_centsb_true; vm_compute; reflexivity);
    assert (H11 : K) by (vm_compute; reflexivity);
    assert (H12 : L) by (apply forallb_owing; vm_compute; reflexivity);
    assert (H13 : M) by (vm_compute; reflexivity);
    assert (H14 : N) by (apply is_centsb_true; vm_compute; reflexivity);
    assert (H15 : O) by (vm_compute; reflexivity)
  end.
  split; [exact H1|]. split; [exact H2|]. split; [exact H3|].
  split; [exact H4|]. split; [exact H5|]. split; [exact H6|].
  split; [exact H7|]. split; [exact H8|]. split; [exact H9|].
  split; [exact H10|]. split; [exact H11|]. split; [exact H12|].
  split; [exact H13|]. split; [exact H14|]. split; [exact H15|].
  exact (C4_overpayment_completes Sample.active
           (PaymentService.mkRepaymentInput 100 7 1100 "key-o") "PAY-9" 6%nat _
           H1 H2 H3 H4 H5 H6 H7 H8 H9 H10 H11 H12 H13 H14 H15).
Defined.

(* ------------------------------------------------------------------ *)
(** ** Idempotent replay (C5) *)

Lemma orZero_eq x : PaymentService.orZero x == x.
Proof.
  unfold PaymentService.orZero, truthy.
  destruct (Qeq_bool x 0) eqn:E; cbn [negb]; [|reflexivity].
  apply Qeq_bool_iff in E. symmetry. exact E.
Qed.

(** A repayment whose key is held by a payment that is not successful. *)
Lemma processRepayment_in_flight t input reference now ep :
  find (PaymentModel.byKey (PaymentService.in_idempotencyKey input)) (payments t)
  = Some ep ->
  Payment.status ep <> P_SUCCESS ->
  PaymentService.processRepayment input reference now t
  = (t, Throw (ConflictError
                 "Payment with this idempotency key is already being processed")).
Proof.
  intros Hf Hs.
  unfold PaymentService.processRepayment, PaymentService.processRepayment_with.
  run_ok ltac:(reflexivity). rewrite Hf.
  destruct (Payment.status ep); try reflexivity. contradiction.
Qed.

(** A repayment whose key is held by a successful payment. *)
Lemma processRepayment_replay t input reference now ep :
  find (PaymentModel.byKey (PaymentService.in_idempotencyKey input)) (payments t)
  = Some ep ->
  Payment.status ep = P_SUCCESS ->
  PaymentService.processRepayment input reference now t
  = (t, Ok (PaymentService.mkRepaymentResult ep
              (PaymentService.replaySnapshot
                 (find (has_id_loan (PaymentService.in_loanId input)) (loans t)))
              [] None)).
Proof.
  intros Hf Hs.
  unfold PaymentService.processRepayment, PaymentService.processRepayment_with.
  run_ok ltac:(reflexivity). rewrite Hf, Hs. cbn [PaymentService.isSuccess].
  run_ok ltac:(reflexivity). reflexivity.
Qed.

(** C5, as stated, fails: the first response lists the allocations made,
    the replay returns none. *)
Lemma C5_counterexample :
  exists s1 r1 s2 r2,
    PaymentService.processRepayment
      (PaymentService.mkRepaymentInput 100 7 400 "key-1") "PAY-1" 6 Sample.active
    = (s1, Ok r1)
    /\ PaymentService.processRepayment
         (PaymentService.mkRepaymentInput 100 7 400 "key-1") "PAY-2" 7 s1
       = (s2, Ok r2)
    /\ List.length (PaymentService.allocations r1) = 2%nat
    /\ PaymentService.allocations r2 = []
    /\ r1 <> r2.
Proof.
  do 4 eexists.
  split; [vm_compute; reflexivity|].
  split; [vm_compute; reflexivity|].
  split; [reflexivity|]. split; [reflexivity|].
  intros E. apply (f_equal (fun r => List.length (PaymentService.allocations r))) in E.
  vm_compute in E. discriminate E.
Qed.

(** C5 (amended): a repayment that succeeded under a key leaves a single
    payment with that key; calling processRepayment again with the key
    changes nothing and returns that payment with the current loan
    snapshot (equal to the first response's), an empty allocation list and
    no overpayment, so the two responses agree on the payment and the loan
    snapshot only; when the payment holding the key is pending, processing
    or failed, the call fails with a Conflict (IdempotencyInFlight) and
    changes nothing. *)
Theorem C5_idempotent_replay
    (s : Store) (input : PaymentService.RepaymentInput) (reference : string)
    (now : Date) (l : Loan.t) (reference2 : string) (now2 : Date)
    (t : Store) (input3 : PaymentService.RepaymentInput) (reference3 : string)
    (now3 : Date) (ep : Payment.t) :
  let loanId := PaymentService.in_loanId input in
  let userId := PaymentService.in_userId input in
  let key := PaymentService.in_idempotencyKey input in
  unusedPayment key reference s ->
  paymentIdsIssued s ->
  existsb (Nat.eqb userId) (users s) = true ->
  find (has_id_loan loanId) (loans s) = Some l ->
  Loan.userId l = userId ->
  Loan.status l = ACTIVE ->
  LoanModel.validate l = true ->
  0 < PaymentService.in_amount input ->
  find (PaymentModel.byKey (PaymentService.in_idempotencyKey input3)) (payments t)
  = Some ep ->
  Payment.status ep <> P_SUCCESS ->
  exists s1 r1 r2,
    PaymentService.processRepayment input reference now s = (s1, Ok r1)
    /\ PaymentService.processRepayment input reference2 now2 s1 = (s1, Ok r2)
    /\ Payment.status (PaymentService.payment r1) = P_SUCCESS
    /\ filter (PaymentModel.byKey key) (payments s1) = [PaymentService.payment r1]
    /\ PaymentService.payment r2 = PaymentService.payment r1
    /\ PaymentService.snap_totalRepaid (PaymentService.loan r2)
       == PaymentService.snap_totalRepaid (PaymentService.loan r1)
    /\ PaymentService.snap_outstandingBalance (PaymentService.loan r2)
       == PaymentService.snap_outstandingBalance (PaymentService.loan r1)
    /\ PaymentService.snap_status (PaymentService.loan r2)
       = PaymentService.snap_status (PaymentService.loan r1)
    /\ PaymentService.allocations r2 = []
    /\ PaymentService.overpayment r2 = None
    /\ PaymentService.processRepayment input3 reference3 now3 t
       = (t, Throw (ConflictError
                      "Payment with this idempotency key is already being processed")).
Proof.
  intros loanId userId key Hun Hiss Huser Hfind Howner Hactive Hvalid Hpos Hep Hst.
  destruct (find_split_loan _ _ _ Hfind) as (l1 & l2 & Hloans & Hid & Hl1).
  set (amount := PaymentService.in_amount input) in *.
  set (doc := PaymentModel.fresh loanId userId key REPAYMENT amount reference
                P_PROCESSING None None None (nextId s)).
  set (s0 := set_payments (payments s ++ [doc]) (set_nextId (S (nextId s)) s)).
  destruct (allocate_total now (outstandingSchedules loanId s) amount [] s0)
    as (sc & rem & allocs & Halloc).
  pose proof (processRepayment_eval s input reference now l l1 l2 sc rem allocs
                Hun Hiss Huser Hloans Hid Hl1 Howner Hactive Hvalid Hpos Halloc)
    as E1.
  fold loanId userId key amount in E1.
  match type of E1 with
  | _ = (mkStore (l1 ++ ?f :: l2) _ (_ ++ [?p2]) _ _, Ok ?res) =>
      set (final := f) in *; set (payment2 := p2) in *; set (r1 := res) in *
  end.
  match type of E1 with _ = (?st, _) => set (s1 := st) in * end.
  assert (Hstp : Payment.status payment2 = P_SUCCESS).
  { unfold payment2. destruct (Qgtb rem 0); reflexivity. }
  assert (Hbk : PaymentModel.byKey key payment2 = true).
  { unfold PaymentModel.byKey, payment2.
    destruct (Qgtb rem 0); apply String.eqb_refl. }
  assert (Hnokey : forall y, In y (payments s) -> PaymentModel.byKey key y = false).
  { intros y Hy. apply (find_none _ _ (unusedPayment_key _ _ _ Hun) y Hy). }
  assert (Hf1 : find (PaymentModel.byKey key) (payments s1) = Some payment2).
  { cbn [s1 payments]. rewrite find_app_r by exact Hnokey.
    cbn [find]. rewrite Hbk. reflexivity. }
  assert (Hfl : find (has_id_loan loanId) (loans s1) = Some final).
  { cbn [s1 loans]. apply find_first; [exact Hl1|].
    apply has_id_loan_eq. unfold final.
    destruct (Qle_bool _ 0); exact Hid. }
  pose proof (processRepayment_replay s1 input reference2 now2 payment2 Hf1 Hstp)
    as E2.
  fold loanId in E2. rewrite Hfl in E2.
  exists s1, r1.
  eexists. split; [exact E1|]. split; [exact E2|].
  split; [exact Hstp|].
  split.
  { cbn [s1 payments]. rewrite filter_app.
    replace (filter (PaymentModel.byKey key) (payments s)) with (@nil Payment.t).
    - cbn [filter app]. rewrite Hbk. reflexivity.
    - symmetry. clear - Hnokey. induction (payments s) as [|y ys IH]; [reflexivity|].
      cbn [filter]. rewrite (Hnokey y (or_introl eq_refl)).
      apply IH. intros z Hz. apply Hnokey. right. exact Hz. }
  split; [reflexivity|].
  cbn [PaymentService.replaySnapshot PaymentService.loan
       PaymentService.snap_totalRepaid PaymentService.snap_outstandingBalance
       PaymentService.snap_status PaymentService.allocations
       PaymentService.overpayment r1].
  split; [rewrite orZero_eq; unfold final; destruct (Qle_bool _ 0); reflexivity|].
  split; [rewrite orZero_eq; unfold final; destruct (Qle_bool _ 0); reflexivity|].
  split; [reflexivity|]. split; [reflexivity|]. split; [reflexivity|].
  exact (processRepayment_in_flight t input3 reference3 now3 ep Hep Hst).
Qed.

(** The repayment of 400 on the sample loan replayed, and a repayment
    under the key of the pending manual proof. *)
Lemma C5_idempotent_replay_witness :
  exists l ep,
    unusedPayment "key-1" "PAY-1" Sample.active
    /\ paymentIdsIssued Sample.active
    /\ existsb (Nat.eqb 7) (users Sample.active) = true
    /\ find (has_id_loan 100) (loans Sample.active) = Some l
    /\ Loan.userId l = 7%nat
    /\ Loan.status l = ACTIVE
    /\ LoanModel.validate l = true
    /\ 0 < 400
    /\ find (PaymentModel.byKey "key-m") (payments sample_submitted) = Some ep
    /\ Payment.status ep <> P_SUCCESS
    /\ exists s1 r1 r2,
         PaymentService.processRepayment
           (PaymentService.mkRepaymentInput 100 7 400 "key-1") "PAY-1" 6
           Sample.active
         = (s1, Ok r1)
         /\ PaymentService.processRepayment
              (PaymentService.mkRepaymentInput 100 7 400 "key-1") "PAY-2" 7 s1
            = (s1, Ok r2)
         /\ Payment.status (PaymentService.payment r1) = P_SUCCESS
         /\ filter (PaymentModel.byKey "key-1") (payments s1)
            = [PaymentService.payment r1]
         /\ PaymentService.payment r2 = PaymentService.payment r1
         /\ PaymentService.snap_totalRepaid (PaymentService.loan r2)
            == PaymentService.snap_totalRepaid (PaymentService.loan r1)
         /\ PaymentService.snap_outstandingBalance (PaymentService.loan r2)
            == PaymentService.snap_outstandingBalance (PaymentService.loan r1)
         /\ PaymentService.snap_status (PaymentService.loan r2)
            = PaymentService.snap_status (PaymentService.loan r1)
         /\ PaymentService.allocations r2 = []
         /\ PaymentService.overpayment r2 = None
         /\ PaymentService.processRepayment
              (PaymentService.mkRepaymentInput 100 7 (103750 # 100) "key-m")
              "PAY-3" 8 sample_submitted
            = (sample_submitted,
               Throw (ConflictError
                        "Payment with this idempotency key is already being processed")).
Proof.
  eexists; eexists.
  match goal with
  | |- ?A /\ ?B /\ ?C /\ ?D /\ ?E /\ ?F /\ ?G /\ ?H /\ ?I /\ ?J /\ _ =>
    assert (H1 : A) by (vm_compute; reflexivity);
    assert (H2 : B) by (intros q Hq; vm_compute in Hq; destruct Hq);
    assert (H3 : C) by (vm_compute; reflexivity);
    assert (H4 : D) by (vm_compute; reflexivity);
    assert (H5 : E) by reflexivity;
    assert (H6 : F) by reflexivity;
    assert (H7 : G) by (vm_compute; reflexivity);
    assert (H8 : H) by (vm_compute; reflexivity);
    assert (H9 : I) by (vm_compute; reflexivity);
    assert (H10 : J) by discriminate
  end.
  split; [exact H1|]. split; [exact H2|]. split; [exact H3|].
  split; [exact H4|]. split; [exact H5|]. split; [exact H6|].
  split; [exact H7|]. split; [exact H8|]. split; [exact H9|].
  split; [exact H10|].
  exact (C5_idempotent_replay Sample.active
           (PaymentService.mkRepaymentInput 100 7 400 "key-1") "PAY-1" 6%nat _
           "PAY-2" 7%nat sample_submitted
           (PaymentService.mkRepaymentInput 100 7 (103750 # 100) "key-m")
           "PAY-3" 8%nat _ H1 H2 H3 H4 H5 H6 H7 H8 H9 H10).
Defined.
